(** * cisco-meraki-mcp: the request-execution pipeline, embedded in Rocq

    A shallow embedding of the TypeScript sources
      - the response optimizer (optimizeResponse, createSummaryResponse,
        formatToolResponse) of [src/utils/response-optimizer.ts],
      - the HTTP client (MerakiHttpClient), found in the same file,
      - the settings manager (SettingsManager) of [src/utils/settings.ts],
      - the error classes and [handleError] of [src/utils/error-handler.ts],
      - the tool engine (BaseTool) of [unnamed/part_007],
      - the composite tool [organization_security_events] and the
        default time window of the summary tools of [unnamed/part_006],
      - the handler of tool calls of the server, [unnamed/part_008],
    followed by the properties proved about them.

    Conventions of the embedding.
      - A JavaScript value is a [value]; an object is the list of its own
        enumerable entries in [Object.entries] order, since the sources
        iterate over objects and the order shows in their results.  No key
        of an object is integer-like (JavaScript lists such keys first) or
        [__proto__].
      - Numbers are the integers among the JavaScript numbers; fractional
        and non-finite numbers are no values of the model.  [VNum n] is a
        number of the program when [n] is a double ([round_to_double n = n]
        and [n] is below 2^1024 in magnitude), as every integer up to 2^53
        in magnitude is; what the sources compute from numbers is rounded
        to a double or overflows to an infinity ([IntegerOrInfinity]), and
        numbers are printed as the engine prints them ([Number_toString]).
      - A string is a list of code units below 256, one [ascii] each; text
        with code units beyond (outside Latin-1) is out of the model.
      - Property reads only ever hit own data properties: the names the
        sources read ([meta], [events], [errors], ...) are not names of
        built-in prototype members.
      - A function that may throw returns an [option] ([None] is the
        exception) when it is pure, and runs in the monad [M] when it talks
        to the upstream API.
      - [console.error] logging is not modelled, nor is the pacing of
        requests by [p-queue] and [axios-rate-limit]. *)

From Stdlib Require Import List String Ascii ZArith Bool Lia Arith.
From Stdlib Require Import Sorting.Sorted Sorting.Permutation.
From Stdlib Require Import Numbers.DecimalString Numbers.DecimalPos.
Import ListNotations.

Local Open Scope string_scope.
Local Open Scope list_scope.

(* ================================================================== *)
(** * JavaScript values *)
(* ================================================================== *)

Module Js.

Unset Elimination Schemes.
Inductive value : Type :=
| VUndefined
| VNull
| VBool (b : bool)
| VNum (n : Z)
| VStr (s : string)
| VArr (items : list value)
| VObj (fields : list (string * value)).
Set Elimination Schemes.

(** Induction that reaches inside arrays and objects. *)
Fixpoint value_ind (P : value -> Prop)
    (Hundef : P VUndefined) (Hnull : P VNull)
    (Hbool : forall b, P (VBool b)) (Hnum : forall n, P (VNum n))
    (Hstr : forall s, P (VStr s))
    (Harr : forall items, Forall P items -> P (VArr items))
    (Hobj : forall fields, Forall (fun kv => P (snd kv)) fields -> P (VObj fields))
    (v : value) {struct v} : P v :=
  let rec := value_ind P Hundef Hnull Hbool Hnum Hstr Harr Hobj in
  match v with
  | VUndefined => Hundef
  | VNull => Hnull
  | VBool b => Hbool b
  | VNum n => Hnum n
  | VStr s => Hstr s
  | VArr items =>
      Harr items
        ((fix go (l : list value) : Forall P l :=
            match l with
            | [] => Forall_nil P
            | x :: l' => Forall_cons x (rec x) (go l')
            end) items)
  | VObj fields =>
      Hobj fields
        ((fix go (l : list (string * value)) : Forall (fun kv => P (snd kv)) l :=
            match l with
            | [] => Forall_nil _
            | kv :: l' => Forall_cons kv (rec (snd kv)) (go l')
            end) fields)
  end.

Definition object := list (string * value).

(** [v === null || v === undefined] *)
Definition nullish (v : value) : bool :=
  match v with
  | VUndefined | VNull => true
  | _ => false
  end.

(** ToBoolean *)
Definition truthy (v : value) : bool :=
  match v with
  | VUndefined | VNull => false
  | VBool b => b
  | VNum n => negb (n =? 0)%Z
  | VStr s => negb (s =? "")
  | VArr _ | VObj _ => true
  end.

(** [Array.isArray] *)
Definition isArray (v : value) : bool :=
  match v with
  | VArr _ => true
  | _ => false
  end.

(** [typeof v === 'object'] (true of [null], arrays and objects) *)
Definition typeof_object (v : value) : bool :=
  match v with
  | VNull | VArr _ | VObj _ => true
  | _ => false
  end.

(** ** Objects as entry lists *)

(** [o[k]] on an own property; [None] when absent. *)
Fixpoint obj_get (k : string) (o : object) : option value :=
  match o with
  | [] => None
  | (k', v) :: o' => if k' =? k then Some v else obj_get k o'
  end.

(** [k in o] *)
Definition obj_has (k : string) (o : object) : bool :=
  match obj_get k o with
  | Some _ => true
  | None => false
  end.

(** The members every object inherits from [Object.prototype].  [k in o]
    and [o[k]] answer for them as well; the model, which looks at own
    properties only, stands for the code on every other name. *)
Definition Object_prototype_members : list string :=
  ["constructor"; "__proto__"; "hasOwnProperty"; "isPrototypeOf";
   "propertyIsEnumerable"; "toLocaleString"; "toString"; "valueOf";
   "__defineGetter__"; "__defineSetter__"; "__lookupGetter__"; "__lookupSetter__"].

(** A name that an object has only as a property of its own. *)
Definition own_name (k : string) : bool :=
  negb (existsb (String.eqb k) Object_prototype_members).

(** [o[k] = v]: an existing key keeps its place, a new key goes last. *)
Fixpoint obj_set (k : string) (v : value) (o : object) : object :=
  match o with
  | [] => [(k, v)]
  | (k', v') :: o' =>
      if k' =? k then (k, v) :: o' else (k', v') :: obj_set k v o'
  end.

(** [delete o[k]] *)
Fixpoint obj_delete (k : string) (o : object) : object :=
  match o with
  | [] => []
  | (k', v') :: o' =>
      if k' =? k then obj_delete k o' else (k', v') :: obj_delete k o'
  end.

(** [Object.assign(target, source)], also the spread [{...target, ...source}]. *)
Definition obj_assign (target source : object) : object :=
  fold_left (fun acc kv => obj_set (fst kv) (snd kv) acc) source target.

Definition keys (o : object) : list string := map fst o.

(** The decimal digits of an integer, with its sign. *)
Definition decimal (n : Z) : string := NilZero.string_of_int (Z.to_int n).

(** The largest magnitude up to which every integer is a double: 2^53. *)
Definition MAX_EXACT : Z := 9007199254740992.

(** The double nearest to a mathematical integer of a magnitude that does
    not overflow: the integer itself when it has at most 53 significant
    bits, else the nearest integer that has, a tie going to the one whose
    53-bit significand is even. *)
Definition round_to_double (n : Z) : Z :=
  let a := Z.abs n in
  let shift := (Z.log2 a - 52)%Z in
  if (shift <=? 0)%Z then n
  else
    let q := Z.shiftr a shift in
    let r := Z.land a (Z.ones shift) in
    let half := Z.shiftl 1 (shift - 1) in
    let q' := if (half <? r)%Z || ((r =? half)%Z && Z.odd q) then (q + 1)%Z else q in
    (Z.sgn n * Z.shiftl q' shift)%Z.

(** The magnitude from which an integer rounds to [Infinity]: half-way
    between the largest double and 2^1024. *)
Definition OVERFLOW : Z := 2 ^ 1024 - 2 ^ 970.

(** A Number that holds an integer, or one of the infinities: what reading
    and multiplying integers can give. *)
Inductive IntegerOrInfinity : Type :=
| Finite (n : Z)
| Infinite (negative : bool).

(** The Number value of a mathematical integer. *)
Definition Number_of_integer (n : Z) : IntegerOrInfinity :=
  if (Z.abs n <? OVERFLOW)%Z then Finite (round_to_double n)
  else Infinite (n <? 0)%Z.

(** [a * b] for an integer [b] other than 0. *)
Definition Number_mul (a : IntegerOrInfinity) (b : Z) : IntegerOrInfinity :=
  match a with
  | Finite x => Number_of_integer (x * b)
  | Infinite negative => Infinite (xorb negative (b <? 0)%Z)
  end.

(** Of the two multiples of [scale] around [x], the one that reads back as
    the double [x], if any; the nearer one when both do, and on a tie the
    one with the even last digit. *)
Definition round_trip_candidate (x scale : Z) : option Z :=
  let lo := (x / scale * scale)%Z in
  let hi := (lo + scale)%Z in
  let lo_ok := (round_to_double lo =? x)%Z in
  let hi_ok := (round_to_double hi =? x)%Z in
  if lo_ok && hi_ok then
    if (x - lo <? hi - x)%Z then Some lo
    else if (hi - x <? x - lo)%Z then Some hi
    else if Z.even (lo / scale) then Some lo else Some hi
  else if lo_ok then Some lo
  else if hi_ok then Some hi
  else None.

(** The integer with the fewest significant digits that reads back as the
    double [x]; [scale] is 10 to the number of digits that may still be
    zeroed. *)
Fixpoint shortest_round_trip (x : Z) (zeroed : nat) (scale : Z) : Z :=
  match zeroed with
  | O => x
  | S zeroed' =>
      match round_trip_candidate x scale with
      | Some c => c
      | None => shortest_round_trip x zeroed' (scale / 10)
      end
  end.

(** [s] without the zeros it ends in. *)
Fixpoint strip_trailing_zeros (s : string) : string :=
  match s with
  | EmptyString => EmptyString
  | String c s' =>
      match strip_trailing_zeros s' with
      | EmptyString => if Ascii.eqb c "0" then EmptyString else String c EmptyString
      | rest => String c rest
      end
  end.

(** The exponent form [d.ddde+N] of a positive integer. *)
Definition exponent_form (c : Z) : string :=
  let digits := decimal c in
  let exponent := decimal (Z.of_nat (String.length digits - 1)) in
  match strip_trailing_zeros digits with
  | String d EmptyString => String d ("e+" ++ exponent)
  | String d rest => String d ("." ++ rest ++ "e+" ++ exponent)
  | EmptyString => digits
  end.

(** [String(n)] on a Number that holds an integer (Number::toString, radix
    10): the digits of the integer up to 2^53; beyond, the fewest digits
    that read back as the same double, followed by zeros when the number is
    below 10^21 and in exponent form from there on. *)
Definition Number_toString (n : Z) : string :=
  if (Z.abs n <? MAX_EXACT)%Z then decimal n
  else
    let x := Z.abs (round_to_double n) in
    let places := (String.length (decimal x) - 1)%nat in
    let c := shortest_round_trip x places (10 ^ Z.of_nat places) in
    ((if (n <? 0)%Z then "-" else "")
     ++ (if (c <? 10 ^ 21)%Z then decimal c else exponent_form c))%string.

Definition arrlen {A} (a : list A) : Z := Z.of_nat (List.length a).

Definition strlen (s : string) : Z := Z.of_nat (String.length s).

(** Entries [("0", x0); ("1", x1); ...] of an indexed value, from index [i]. *)
Fixpoint indexed {A} (wrap : A -> value) (i : nat) (l : list A) : object :=
  match l with
  | [] => []
  | x :: l' => (decimal (Z.of_nat i), wrap x) :: indexed wrap (S i) l'
  end.

(** Own enumerable entries copied by the spread [{...v}]. *)
Definition spread (v : value) : object :=
  match v with
  | VObj o => o
  | VArr items => indexed (fun x => x) 0 items
  | VStr s => indexed (fun c => VStr (String c EmptyString)) 0 (list_ascii_of_string s)
  | _ => []
  end.

(** [v.k] for a non-nullish receiver; [None] is the TypeError raised on
    [null] and [undefined].  An array or a string answers for its indices
    and its [length]. *)
Definition get_prop (v : value) (k : string) : option value :=
  match v with
  | VUndefined | VNull => None
  | VObj o =>
      match obj_get k o with
      | Some x => Some x
      | None => Some VUndefined
      end
  | VArr items =>
      if k =? "length" then Some (VNum (arrlen items))
      else match obj_get k (spread v) with
           | Some x => Some x
           | None => Some VUndefined
           end
  | VStr s =>
      if k =? "length" then Some (VNum (strlen s))
      else match obj_get k (spread v) with
           | Some x => Some x
           | None => Some VUndefined
           end
  | VBool _ | VNum _ => Some VUndefined
  end.

(** [v?.k] *)
Definition get_prop_opt (v : value) (k : string) : value :=
  match get_prop v k with
  | Some x => x
  | None => VUndefined
  end.

(** ** Strings *)

(** [s.substring(0, n)] *)
Definition substring0 (n : Z) (s : string) : string :=
  String.substring 0 (Z.to_nat n) s.

(** [s.substring(0, n)] where [n] may be [undefined] (the whole string);
    a negative [n] counts as 0. *)
Definition slice0_str (n : option Z) (s : string) : string :=
  match n with
  | Some n => substring0 n s
  | None => s
  end.

(** [s.startsWith(p)] *)
Definition startsWith (s p : string) : bool := String.prefix p s.

(** [s.includes(sub)] *)
Fixpoint includes (s sub : string) : bool :=
  String.prefix sub s ||
  match s with
  | EmptyString => false
  | String _ s' => includes s' sub
  end.

(** [s.endsWith(p)] *)
Fixpoint endsWith (s p : string) : bool :=
  (s =? p) ||
  match s with
  | EmptyString => false
  | String _ s' => endsWith s' p
  end.

(** The lower-case form of a code unit below 256: the letters [A] to [Z]
    and the capital letters of Latin-1 (192 to 222, the multiplication sign
    215 apart) move up by 32. *)
Definition lower_ascii (c : ascii) : ascii :=
  let n := nat_of_ascii c in
  if ((65 <=? n)%nat && (n <=? 90)%nat)
     || ((192 <=? n)%nat && (n <=? 222)%nat && negb (n =? 215)%nat)
  then ascii_of_nat (n + 32) else c.

(** [s.toLowerCase()] *)
Fixpoint toLowerCase (s : string) : string :=
  match s with
  | EmptyString => EmptyString
  | String c s' => String (lower_ascii c) (toLowerCase s')
  end.

(** [s.replace(/c/g, by)] for a one-character pattern *)
Fixpoint replaceAll (c : ascii) (by_ : string) (s : string) : string :=
  match s with
  | EmptyString => EmptyString
  | String c' s' =>
      if Ascii.eqb c' c then by_ ++ replaceAll c by_ s'
      else String c' (replaceAll c by_ s')
  end.

(** [parts.join(sep)] on strings *)
Definition join (sep : string) (parts : list string) : string :=
  String.concat sep parts.

(** ** Arrays *)

(** [a.slice(0, end)]: a negative [end] counts from the back. *)
Definition slice0 {A} (end_ : Z) (a : list A) : list A :=
  if (end_ <? 0)%Z
  then firstn (Z.to_nat (Z.max (Z.of_nat (List.length a) + end_) 0)) a
  else firstn (Z.to_nat end_) a.

(** [a.slice(0, end)] where [end] may be [undefined] (the whole array). *)
Definition slice0_opt {A} (end_ : option Z) (a : list A) : list A :=
  match end_ with
  | Some e => slice0 e a
  | None => a
  end.

(** [n > m] where [m] may be [undefined] (then false). *)
Definition gt_opt (n : Z) (m : option Z) : bool :=
  match m with
  | Some m => (m <? n)%Z
  | None => false
  end.

(** [items.map(f)] for a callback that may raise: the first TypeError
    ([None]) aborts the whole map. *)
Fixpoint map_throwing {A B} (f : A -> option B) (l : list A) : option (list B) :=
  match l with
  | [] => Some []
  | x :: l' =>
      match f x with
      | None => None
      | Some y =>
          match map_throwing f l' with
          | None => None
          | Some ys => Some (y :: ys)
          end
      end
  end.

(** ToString *)
Fixpoint ToString (v : value) : string :=
  match v with
  | VUndefined => "undefined"
  | VNull => "null"
  | VBool true => "true"
  | VBool false => "false"
  | VNum n => Number_toString n
  | VStr s => s
  | VArr items =>
      join "," (map (fun x => if nullish x then "" else ToString x) items)
  | VObj _ => "[object Object]"
  end.

(** [items.join(sep)] on an array of values *)
Definition Array_join (sep : string) (items : list value) : string :=
  join sep (map (fun x => if nullish x then "" else ToString x) items).

(** SameValueZero on values held in a [Set]: primitives by value; every
    object or array of a payload is its own reference, equal to no other
    entry. *)
Definition sameValueZero (a b : value) : bool :=
  match a, b with
  | VUndefined, VUndefined => true
  | VNull, VNull => true
  | VBool x, VBool y => Bool.eqb x y
  | VNum x, VNum y => (x =? y)%Z
  | VStr x, VStr y => (x =? y)
  | _, _ => false
  end.

(** [[...new Set(values)]]: first occurrences, in order. *)
Fixpoint Set_of (seen values : list value) : list value :=
  match values with
  | [] => rev seen
  | v :: rest =>
      if existsb (sameValueZero v) seen then Set_of seen rest
      else Set_of (v :: seen) rest
  end.

(** What the host engine provides and the model does not spell out. *)
Class Host : Type := {
  (** [Number(s)] on a string; [None] is NaN *)
  Number_of_string : string -> option Z;
  (** [new RegExp(source).test(subject)]; [None] is the SyntaxError of a
      malformed source *)
  RegExp_test : string -> string -> option bool;
  (** [new Date(v).getTime()]; [None] is NaN *)
  Date_getTime : value -> option Z;
  (** [JSON.stringify(v)]; [None] is [undefined] *)
  JSON_stringify : value -> option string;
  (** [encodeURIComponent(s)] *)
  encodeURIComponent : string -> string;
  (** [items.sort(compare)] for a [compare] that is not a consistent
      comparator, whose zero stands for NaN as well: the language leaves
      the order to the engine, which rearranges the items and loses none *)
  Array_sort_engine : (value -> value -> Z) -> list value -> list value;
  Array_sort_engine_permutes :
    forall compare items, Permutation (Array_sort_engine compare items) items
}.

(** ToNumber; [None] is NaN *)
Definition ToNumber `{Host} (v : value) : option Z :=
  match v with
  | VUndefined => None
  | VNull => Some 0%Z
  | VBool b => Some (if b then 1 else 0)%Z
  | VNum n => Some n
  | VStr s => Number_of_string s
  | VArr _ | VObj _ => Number_of_string (ToString v)
  end.

(** [v?.length] *)
Definition length_opt (v : value) : value := get_prop_opt v "length".

(** [v > 0] *)
Definition gt_zero `{Host} (v : value) : bool :=
  match ToNumber v with
  | Some n => (0 <? n)%Z
  | None => false
  end.

(** [for (const x of v)]: the items visited; [None] is the TypeError of a
    value that is not iterable. *)
Definition iterate (v : value) : option (list value) :=
  match v with
  | VArr items => Some items
  | VStr s => Some (map (fun c => VStr (String c EmptyString)) (list_ascii_of_string s))
  | _ => None
  end.

End Js.
Export Js.

(* ================================================================== *)
(** * src/utils/response-optimizer.ts *)
(* ================================================================== *)

Module ResponseOptimizer.

Record OptimizationOptions : Type := {
  maxArrayLength : option Z;
  truncateLongStrings : option bool;
  maxStringLength : option Z;
  removeNullFields : option bool;
  compactFormat : option bool
}.

Definition DEFAULT_OPTIONS : OptimizationOptions := {|
  maxArrayLength := Some 100%Z;
  truncateLongStrings := Some true;
  maxStringLength := Some 500%Z;
  removeNullFields := Some true;
  compactFormat := Some true
|}.

(** An optional boolean option used as a condition. *)
Definition flag (b : option bool) : bool :=
  match b with
  | Some true => true
  | _ => false
  end.

(** The [_meta] annotation of a truncated array. *)
Definition truncation_meta (totalCount returnedCount : Z) : value :=
  VObj [("totalCount", VNum totalCount);
        ("returnedCount", VNum returnedCount);
        ("truncated", VBool true)].

(** One turn of the [for (const [key, value] of Object.entries(data))] loop
    of [optimizeResponse], given the recursive result for [value]. *)
Definition optimize_entry (options : OptimizationOptions)
    (optimized : object) (key : string) (value_ recursed : value) : object :=
  if flag (removeNullFields options) && nullish value_ then optimized
  else obj_set key recursed optimized.

(** [optimizeResponse(data, options)].  The array case maps before it
    slices so that the recursion is structural; [optimizeResponse_array]
    below restates it in the source's order (slice, then map). *)
Fixpoint optimizeResponse (options : OptimizationOptions) (data : value) : value :=
  match data with
  | VUndefined | VNull => data
  | VArr items =>
      let optimized :=
        slice0_opt (maxArrayLength options) (map (optimizeResponse options) items) in
      if gt_opt (arrlen items) (maxArrayLength options)
      then VObj [("data", VArr optimized);
                 ("_meta", truncation_meta (arrlen items) (arrlen optimized))]
      else VArr optimized
  | VObj fields =>
      VObj (fold_left
              (fun optimized kv =>
                 optimize_entry options optimized (fst kv) (snd kv)
                   (optimizeResponse options (snd kv)))
              fields [])
  | VStr s =>
      if flag (truncateLongStrings options) && gt_opt (strlen s) (maxStringLength options)
      then VStr (slice0_str (maxStringLength options) s ++ "... [truncated]")
      else data
  | VBool _ | VNum _ => data
  end.

(** One turn of [summaryFields.forEach(field => ...)] in
    [createSummaryResponse]; [None] is the TypeError of reading [item[field]]
    on a [null] or [undefined] item. *)
Definition summarize_field (data : list value) (summary : object) (field : string)
    : option object :=
  match map_throwing (fun item => get_prop item field) data with
  | None => None
  | Some read =>
      let values :=
        filter (fun v => match v with VUndefined => false | _ => true end) read in
      if (0 <? arrlen values)%Z
      then Some (obj_set field
                   (VObj [("uniqueCount", VNum (arrlen (Set_of [] values)));
                          ("samples", VArr (slice0 5 (Set_of [] values)))])
                   summary)
      else Some summary
  end.

Fixpoint summarize_fields (data : list value) (summary : object)
    (summaryFields : list string) : option object :=
  match summaryFields with
  | [] => Some summary
  | field :: rest =>
      match summarize_field data summary field with
      | None => None
      | Some summary' => summarize_fields data summary' rest
      end
  end.

(** [createSummaryResponse(data, summaryFields?)]; [None] is a TypeError. *)
Definition createSummaryResponse (data : value) (summaryFields : option (list string))
    : option value :=
  match data with
  | VArr items =>
      if (arrlen items =? 0)%Z then Some data
      else if (50 <? arrlen items)%Z then
        let first := nth 0 items VUndefined in
        let facets :=
          match summaryFields with
          | Some fields =>
              if truthy first && typeof_object first
              then summarize_fields items [] fields
              else Some []
          | None => Some []
          end in
        match facets with
        | None => None
        | Some summary =>
            Some (VObj [("totalCount", VNum (arrlen items));
                        ("firstItems", VArr (slice0 5 items));
                        ("summary", VObj summary)])
        end
      else Some data
  | _ => Some data
  end.

(** The guard of [formatToolResponse]:
    [data && typeof data === 'object' && (data.meta || data._meta || data._summary)]. *)
Definition already_optimized (data : value) : bool :=
  truthy data && typeof_object data &&
  (truthy (get_prop_opt data "meta") ||
   truthy (get_prop_opt data "_meta") ||
   truthy (get_prop_opt data "_summary")).

(** [Array.isArray(v) && v.length > 30] *)
Definition large_array (v : value) : bool :=
  match v with
  | VArr items => (30 <? arrlen items)%Z
  | _ => false
  end.

(** The options literal of the last branch of [formatToolResponse]. *)
Definition BASIC_OPTIONS : OptimizationOptions := {|
  maxArrayLength := Some 100%Z;
  truncateLongStrings := Some true;
  maxStringLength := Some 500%Z;
  removeNullFields := Some true;
  compactFormat := Some true
|}.

(** The [switch (toolName)] of [formatToolResponse]. *)
Definition summary_fields_of_tool (toolName : string) : option (list string) :=
  if toolName =? "network_clients_list"
  then Some ["description"; "mac"; "ip"; "vlan"; "status"; "usage"]
  else if (toolName =? "organization_devices_list")
          || (toolName =? "organization_devices_statuses")
  then Some ["name"; "model"; "serial"; "status"; "networkId"]
  else if toolName =? "organization_devices_availabilities"
  then Some ["serial"; "status"; "lastReportedAt"]
  else if toolName =? "network_devices_list"
  then Some ["name"; "model"; "serial"; "status"]
  else None.

(** The value [formatToolResponse(data, toolName)] hands to
    [JSON.stringify]: [data] itself behind the guard, the local [optimized]
    otherwise.  [None] is a TypeError. *)
Definition formatToolResponse_payload (data : value) (toolName : string)
    : option value :=
  if already_optimized data then Some data
  else if large_array data
  then createSummaryResponse data (summary_fields_of_tool toolName)
  else if toolName =? "network_events_list" then
    match get_prop data "events" with
    | None => None
    | Some events =>
        if large_array events then
          match createSummaryResponse events
                  (Some ["type"; "category"; "occurredAt"; "description"]) with
          | None => None
          | Some summarized =>
              Some (VObj (obj_set "events" summarized (spread data)))
          end
        else Some (optimizeResponse BASIC_OPTIONS data)
    end
  else Some (optimizeResponse BASIC_OPTIONS data).

(** [formatToolResponse(data, toolName)]: outer [None] is a TypeError, the
    inner option is what [JSON.stringify] returns. *)
Definition formatToolResponse `{Host} (data : value) (toolName : string)
    : option (option string) :=
  match formatToolResponse_payload data toolName with
  | None => None
  | Some payload => Some (JSON_stringify payload)
  end.

End ResponseOptimizer.

(* ================================================================== *)
(** * src/utils/settings.ts *)
(* ================================================================== *)

Module Settings.

Record AutoApproveTools : Type := {
  all : option bool;
  patterns : option (list string);
  specific : option (list string);
  exclude : option (list string)
}.

Record AutoApproveSettings : Type := {
  enabled : bool;
  tools : AutoApproveTools;
  readOnlyByDefault : option bool
}.

Record ResponseLimits : Type := {
  maxArrayLength : Z;
  maxResponseSize : Z;
  summarizeArrays : bool;
  truncateLongStrings : option bool;
  maxStringLength : option Z
}.

(** [MerakiMCPSettings].  [rateLimit] and [logging] are left out: the first
    is read by nobody, the second only gates [console.error] lines.
    [defaultParams] maps a tool pattern to a parameter object, in the
    order the entries were declared. *)
Record MerakiMCPSettings : Type := {
  autoApprove : option AutoApproveSettings;
  responseLimits : option ResponseLimits;
  defaultParams : option object
}.

Definition DEFAULT_SETTINGS : MerakiMCPSettings := {|
  autoApprove := Some {|
    enabled := false;
    tools := {| all := Some false; patterns := Some [];
                specific := Some []; exclude := Some [] |};
    readOnlyByDefault := Some true |};
  responseLimits := Some {|
    maxArrayLength := 50;
    maxResponseSize := 30000;
    summarizeArrays := true;
    truncateLongStrings := Some true;
    maxStringLength := Some 1000%Z |};
  defaultParams := Some [
    ("*_list", VObj [("perPage", VNum 25)]);
    ("network_clients_list", VObj [("perPage", VNum 20); ("timespan", VNum 3600)]);
    ("network_events_list", VObj [("perPage", VNum 20)]);
    ("organization_devices_list", VObj [("perPage", VNum 50)])]
|}.

(** [list?.includes(name)] *)
Definition includes_name (l : option (list string)) (name : string) : bool :=
  match l with
  | Some l => existsb (String.eqb name) l
  | None => false
  end.

(** The regular-expression source [matchesPattern] builds from a glob. *)
Definition regexPattern (pattern : string) : string :=
  replaceAll "]" "\]"
    (replaceAll "[" "\["
       (replaceAll "?" "."
          (replaceAll "*" ".*" pattern))).

(** [matchesPattern(toolName, pattern)]; [None] when [new RegExp] rejects
    the source. *)
Definition matchesPattern `{Host} (toolName pattern : string) : option bool :=
  RegExp_test ("^" ++ regexPattern pattern ++ "$") toolName.

Definition readOnlyPrefixes : list string :=
  ["get"; "list"; "show"; "view"; "read"; "fetch"].

Definition readOnlySuffixes : list string :=
  ["_get"; "_list"; "_show"; "_view"; "_read"; "_fetch"; "_status"; "_statuses"].

(** [isReadOnlyTool(toolName)] *)
Definition isReadOnlyTool (toolName : string) : bool :=
  let lowerToolName := toLowerCase toolName in
  if existsb (startsWith lowerToolName) readOnlyPrefixes then true
  else if existsb (endsWith lowerToolName) readOnlySuffixes then true
  else if includes lowerToolName "_get_"
          || includes lowerToolName "_list_"
          || includes lowerToolName "_statuses"
          || includes lowerToolName "_overview" then true
  else false.

(** The [for (const pattern of tools.patterns)] loop of [shouldAutoApprove]:
    [Some true] on the first match, [None] when a pattern met before any
    match does not compile. *)
Fixpoint any_pattern_matches `{Host} (toolName : string) (pats : list string)
    : option bool :=
  match pats with
  | [] => Some false
  | pattern :: rest =>
      match matchesPattern toolName pattern with
      | None => None
      | Some true => Some true
      | Some false => any_pattern_matches toolName rest
      end
  end.

(** [shouldAutoApprove(toolName)]; [None] is an exception. *)
Definition shouldAutoApprove `{Host} (settings : MerakiMCPSettings)
    (toolName : string) : option bool :=
  match autoApprove settings with
  | None => Some false
  | Some aa =>
      if negb (enabled aa) then Some false
      else if includes_name (exclude (tools aa)) toolName then Some false
      else if ResponseOptimizer.flag (all (tools aa)) then Some true
      else if includes_name (specific (tools aa)) toolName then Some true
      else
        match
          match patterns (tools aa) with
          | Some pats => any_pattern_matches toolName pats
          | None => Some false
          end
        with
        | None => None
        | Some true => Some true
        | Some false =>
            if ResponseOptimizer.flag (readOnlyByDefault aa) && isReadOnlyTool toolName
            then Some true
            else Some false
        end
  end.

(** The [for (const [pattern, params] of Object.entries(defaultParams))]
    loop of [getDefaultParams]. *)
Fixpoint apply_pattern_defaults `{Host} (toolName : string) (entries : object)
    (defaults : object) : option object :=
  match entries with
  | [] => Some defaults
  | (pattern, params) :: rest =>
      match matchesPattern toolName pattern with
      | None => None
      | Some true =>
          apply_pattern_defaults toolName rest (obj_assign defaults (spread params))
      | Some false => apply_pattern_defaults toolName rest defaults
      end
  end.

(** [getDefaultParams(toolName)]; [None] is an exception. *)
Definition getDefaultParams `{Host} (settings : MerakiMCPSettings)
    (toolName : string) : option object :=
  match defaultParams settings with
  | None => Some []
  | Some table =>
      match apply_pattern_defaults toolName table [] with
      | None => None
      | Some defaults =>
          match obj_get toolName table with
          | Some params =>
              if truthy params
              then Some (obj_assign defaults (spread params))
              else Some defaults
          | None => Some defaults
          end
      end
  end.

(** [getSettings().responseLimits || { ... }] as [BaseTool] reads it. *)
Definition limits_or_default (settings : MerakiMCPSettings) : ResponseLimits :=
  match responseLimits settings with
  | Some limits => limits
  | None => {| maxArrayLength := 50; maxResponseSize := 30000;
               summarizeArrays := true;
               truncateLongStrings := None; maxStringLength := None |}
  end.

(** [isObject(item)] *)
Definition isObject (item : value) : bool :=
  match item with
  | VObj _ => true
  | _ => false
  end.

(** [deepMerge(target, source)], which [loadSettings] applies to
    [DEFAULT_SETTINGS] and the parsed settings file.  The keys of an object
    are distinct, so [source[key]] is the value of the entry the loop is
    at; no key of a settings file is the name of a member of
    [Object.prototype], so [key in target] asks for an own key. *)
Fixpoint deepMerge (target source : value) {struct source} : value :=
  match target with
  | VObj t =>
      match source with
      | VObj s =>
          VObj (fold_left
                  (fun output kv =>
                     if isObject (snd kv) then
                       match obj_get (fst kv) t with
                       | None => obj_set (fst kv) (snd kv) output
                       | Some below =>
                           obj_set (fst kv) (deepMerge below (snd kv)) output
                       end
                     else obj_set (fst kv) (snd kv) output)
                  s t)
      | _ => VObj (spread target)
      end
  | _ => VObj (spread target)
  end.

End Settings.

(* ================================================================== *)
(** * src/utils/error-handler.ts *)
(* ================================================================== *)

Module ErrorHandler.

(** The codes of the MCP SDK's [ErrorCode] that the sources use. *)
Inductive ErrorCode : Type :=
| InvalidParams
| InvalidRequest
| MethodNotFound
| InternalError.

(** What a [MerakiAPIError] keeps in [details]: a response body, or the
    error object it wraps (its [name] and [message]). *)
Inductive Detail : Type :=
| DetailValue (v : value)
| DetailError (name message : string).

(** The [data] argument of [new McpError(code, message, data)]. *)
Inductive McpData : Type :=
| DataApi (statusCode : Z) (details : Detail)
| DataField (field : string) (val : value)
| DataOriginal (originalError : string).

(** The exceptions the pipeline raises. *)
Inductive JsError : Type :=
| McpError (code : ErrorCode) (message : string) (data : McpData)
| MerakiAPIError (message : string) (statusCode : Z) (details : Detail)
| ValidationError (field : string) (reason : string) (val : value)
| AxiosError (message : string) (response_status : option Z) (response_data : value)
| Error (name : string) (message : string).

(** [error.name] *)
Definition error_name (e : JsError) : string :=
  match e with
  | McpError _ _ _ => "McpError"
  | MerakiAPIError _ _ _ => "MerakiAPIError"
  | ValidationError _ _ _ => "ValidationError"
  | AxiosError _ _ _ => "AxiosError"
  | Error name _ => name
  end.

(** [error.message] *)
Definition error_message (e : JsError) : string :=
  match e with
  | McpError _ message _ => message
  | MerakiAPIError message _ _ => message
  | ValidationError field reason _ =>
      "Validation error for field '" ++ field ++ "': " ++ reason
  | AxiosError message _ _ => message
  | Error _ message => message
  end.

(** [MerakiAPIError.toMcpError] *)
Definition MerakiAPIError_toMcpError (message : string) (statusCode : Z)
    (details : Detail) : JsError :=
  let errorCode :=
    if (statusCode =? 400)%Z then InvalidParams
    else if (statusCode =? 401)%Z || (statusCode =? 403)%Z then InvalidRequest
    else if (statusCode =? 404)%Z then MethodNotFound
    else InternalError in
  McpError errorCode message (DataApi statusCode details).

(** [ValidationError.toMcpError] *)
Definition ValidationError_toMcpError (field reason : string) (val : value) : JsError :=
  McpError InvalidParams (error_message (ValidationError field reason val))
    (DataField field val).

(** [handleError(error)]: the error it throws. *)
Definition handleError (error : JsError) : JsError :=
  match error with
  | McpError _ _ _ => error
  | MerakiAPIError message statusCode details =>
      MerakiAPIError_toMcpError message statusCode details
  | ValidationError field reason val => ValidationError_toMcpError field reason val
  | AxiosError _ _ _ | Error _ _ =>
      McpError InternalError (error_message error) (DataOriginal (error_name error))
  end.

(** [validateRequired(params, required)]: the error it throws, if any.
    Reading a field of a [null] or [undefined] [params] is a TypeError. *)
Fixpoint validateRequired (params : value) (required : list string) : option JsError :=
  match required with
  | [] => None
  | field :: rest =>
      match get_prop params field with
      | None => Some (Error "TypeError" "Cannot read properties of null or undefined")
      | Some v =>
          if nullish v
          then Some (ValidationError field "This field is required" VUndefined)
          else validateRequired params rest
      end
  end.

End ErrorHandler.
Export ErrorHandler.

(* ================================================================== *)
(** * A monad for code that talks to the upstream API *)
(* ================================================================== *)

Module Effects.

(** A request as [MerakiHttpClient] hands it to axios; an absent field is
    [VUndefined]. *)
Record AxiosRequestConfig : Type := {
  req_method : string;
  req_url : string;
  req_params : value;
  req_data : value
}.

Record AxiosResponse : Type := {
  status : Z;
  data : value;
  headers : list (string * string)
}.

(** What axios gets back for one request: a response of any status
    ([validateStatus: () => true]) or a transport failure with its
    [error.name] (the name of the error axios wraps: [Error] for a broken
    connection, [AxiosError] for a timeout of its own), [error.code] and
    [error.message]. *)
Inductive Reply : Type :=
| Resolved (response : AxiosResponse)
| Failed (name : string) (code : option string) (message : string).

(** What the process does that the outside can see, in order. *)
Inductive Event : Type :=
| Sent (config : AxiosRequestConfig)
| Slept (ms : IntegerOrInfinity).

Definition Trace := list Event.

(** The remote API: its reply to a request, given all that happened before. *)
Definition Upstream := Trace -> AxiosRequestConfig -> Reply.

Inductive Outcome (A : Type) : Type :=
| Returned (a : A)
| Threw (e : JsError).
Arguments Returned {A} a.
Arguments Threw {A} e.

(** A computation: from the trace so far to an outcome and the trace after. *)
Definition M (A : Type) : Type := Trace -> Outcome A * Trace.

Definition ret {A} (a : A) : M A := fun tr => (Returned a, tr).

Definition throw {A} (e : JsError) : M A := fun tr => (Threw e, tr).

Definition bind {A B} (m : M A) (k : A -> M B) : M B :=
  fun tr =>
    match m tr with
    | (Returned a, tr') => k a tr'
    | (Threw e, tr') => (Threw e, tr')
    end.

(** [try { m } catch (error) { handler(error) }] *)
Definition try_catch {A} (m : M A) (handler : JsError -> M A) : M A :=
  fun tr =>
    match m tr with
    | (Returned a, tr') => (Returned a, tr')
    | (Threw e, tr') => handler e tr'
    end.

(** Lift a pure step that may throw. *)
Definition lift {A} (o : Outcome A) : M A := fun tr => (o, tr).

Definition emit (e : Event) : M unit := fun tr => (Returned tt, tr ++ [e]).

(** The requests a trace holds, oldest first. *)
Fixpoint requests (tr : Trace) : list AxiosRequestConfig :=
  match tr with
  | [] => []
  | Sent config :: tr' => config :: requests tr'
  | Slept _ :: tr' => requests tr'
  end.

End Effects.
Export Effects.

Notation "x <- m ;; k" := (bind m (fun x => k))
  (at level 61, m at next level, right associativity).
Notation "m ;;; k" := (bind m (fun _ => k))
  (at level 61, right associativity).

(* ================================================================== *)
(** * MerakiHttpClient *)
(* ================================================================== *)

Module HttpClient.

Definition RATE_LIMIT_PER_SECOND : Z := 5.
Definition MAX_RETRIES : nat := 3.
Definition INITIAL_BACKOFF_MS : Z := 1000.

Definition RETRY_AFTER : string := "retry-after".

(** What [get], [post], [put] and [delete] resolve to. *)
Record MerakiApiResponse : Type := {
  result_data : value;
  result_headers : list (string * string)
}.

(** [headers[name]] *)
Fixpoint header (name : string) (hs : list (string * string)) : option string :=
  match hs with
  | [] => None
  | (k, v) :: hs' => if k =? name then Some v else header name hs'
  end.

(** The white space and line terminators of JavaScript among the code
    units below 256: tab to carriage return, space, no-break space.  They
    are what [trim] and [parseInt] strip. *)
Definition is_space (c : ascii) : bool :=
  let n := nat_of_ascii c in
  ((9 <=? n)%nat && (n <=? 13)%nat) || (n =? 32)%nat || (n =? 160)%nat.

Definition digit_of (c : ascii) : option Z :=
  let n := nat_of_ascii c in
  if (48 <=? n)%nat && (n <=? 57)%nat then Some (Z.of_nat (n - 48)) else None.

Fixpoint skip_spaces (s : string) : string :=
  match s with
  | String c s' => if is_space c then skip_spaces s' else s
  | EmptyString => s
  end.

(** The leading decimal digits of [s], read after [acc]; [seen] tells
    whether a digit was met. *)
Fixpoint read_digits (s : string) (seen : bool) (acc : Z) : option Z :=
  match s with
  | String c s' =>
      match digit_of c with
      | Some d => read_digits s' true (10 * acc + d)%Z
      | None => if seen then Some acc else None
      end
  | EmptyString => if seen then Some acc else None
  end.

(** The mathematical integer [parseInt(s, 10)] reads: white space, a sign,
    then the longest run of decimal digits; [None] when there is no digit. *)
Definition leading_integer (s : string) : option Z :=
  match skip_spaces s with
  | String "-" s' => option_map Z.opp (read_digits s' false 0)
  | String "+" s' => read_digits s' false 0
  | s' => read_digits s' false 0
  end.

(** [parseInt(s, 10)]: the Number value of the integer read; [None] is
    NaN. *)
Definition parseInt10 (s : string) : option IntegerOrInfinity :=
  option_map Number_of_integer (leading_integer s).

(** [getRetryAfter(response)], in milliseconds. *)
Definition getRetryAfter (response : AxiosResponse) : IntegerOrInfinity :=
  match header RETRY_AFTER (headers response) with
  | Some retryAfter =>
      if negb (retryAfter =? "") then
        match parseInt10 retryAfter with
        | Some seconds => Number_mul seconds 1000
        | None => Finite INITIAL_BACKOFF_MS
        end
      else Finite INITIAL_BACKOFF_MS
  | None => Finite INITIAL_BACKOFF_MS
  end.

(** [statusMessages[status] || `HTTP ${status} Error`] *)
Definition statusMessage (status : Z) : string :=
  if (status =? 400)%Z then "Bad Request"
  else if (status =? 401)%Z then "Unauthorized - Invalid API key"
  else if (status =? 403)%Z then "Forbidden - Insufficient permissions"
  else if (status =? 404)%Z then "Not Found"
  else if (status =? 429)%Z then "Too Many Requests"
  else if (status =? 500)%Z then "Internal Server Error"
  else if (status =? 502)%Z then "Bad Gateway"
  else if (status =? 503)%Z then "Service Unavailable"
  else "HTTP " ++ Number_toString status ++ " Error".

(** [getErrorMessage(response)]; [None] is the TypeError of calling [join]
    on an [errors] field that is not an array. *)
Definition getErrorMessage `{Host} (response : AxiosResponse) : option string :=
  let errors := get_prop_opt (data response) "errors" in
  if gt_zero (length_opt errors) then
    match errors with
    | VArr items => Some (Array_join ", " items)
    | _ => None
    end
  else
    let error := get_prop_opt (data response) "error" in
    if truthy error then Some (ToString error)
    else
      match data response with
      | VStr s => Some s
      | _ => Some (statusMessage (status response))
      end.

(** [new MerakiAPIError(this.getErrorMessage(response), response.status,
    response.data)], or the TypeError raised while building it. *)
Definition api_error `{Host} (response : AxiosResponse) : JsError :=
  match getErrorMessage response with
  | Some message =>
      MerakiAPIError message (status response) (DetailValue (data response))
  | None => Error "TypeError" "response.data.errors.join is not a function"
  end.

Section Client.
Context `{Host} (upstream : Upstream).

(** [handleErrorResponse(response)] *)
Definition handleErrorResponse (response : AxiosResponse) : M AxiosResponse :=
  if (status response =? 429)%Z then ret response
  else throw (api_error response).

(** The error [handleNetworkError(error)] throws. *)
Definition network_error (name : string) (code : option string) (message : string)
    : JsError :=
  if match code with Some c => c =? "ECONNABORTED" | None => false end
  then MerakiAPIError "Request timeout" 0 (DetailValue VNull)
  else if match code with Some c => c =? "ENOTFOUND" | None => false end
  then MerakiAPIError "Network not found" 0 (DetailValue VNull)
  else MerakiAPIError (if message =? "" then "Network error" else message) 0
         (DetailError name message).

(** [handleNetworkError(error)] *)
Definition handleNetworkError {A} (name : string) (code : option string)
    (message : string) : M A :=
  throw (network_error name code message).

(** [this.client.request(config)]: the request leaves the process, and the
    response interceptor installed by the constructor sees what comes back. *)
Definition request (config : AxiosRequestConfig) : M AxiosResponse :=
  fun tr =>
    let reply := upstream tr config in
    let tr' := tr ++ [Sent config] in
    match reply with
    | Resolved response =>
        if (400 <=? status response)%Z
        then handleErrorResponse response tr'
        else (Returned response, tr')
    | Failed name code message => handleNetworkError name code message tr'
    end.

(** [delay(ms)] *)
Definition delay (ms : IntegerOrInfinity) : M unit := emit (Slept ms).

(** The [catch (error)] clause of [executeRequest]: what it throws. *)
Definition executeRequest_catch (error : JsError) : JsError :=
  match error with
  | MerakiAPIError _ _ _ => error
  | AxiosError message response_status response_data =>
      MerakiAPIError message
        (match response_status with
         | Some s => s
         | None => 0%Z
         end)
        (DetailValue response_data)
  | _ =>
      MerakiAPIError "Unknown error occurred" 0
        (DetailError (error_name error) (error_message error))
  end.

(** The part of [executeRequest] after the rate-limit check. *)
Definition executeRequest_settle (response : AxiosResponse) : M MerakiApiResponse :=
  if (200 <=? status response)%Z && (status response <? 300)%Z
  then ret {| result_data := data response; result_headers := headers response |}
  else throw (api_error response).

(** [executeRequest(config, retryCount)].  [remaining] is the measure
    [MAX_RETRIES - retryCount] that makes the recursion structural; its [O]
    branch is never taken from [executeRequest] (see [executeRequest_unfold],
    which restates the function as the source writes it). *)
Fixpoint executeRequest_aux (remaining : nat) (config : AxiosRequestConfig)
    (retryCount : nat) : M MerakiApiResponse :=
  try_catch
    (response <- request config ;;
     if (status response =? 429)%Z && (retryCount <? MAX_RETRIES)%nat then
       match remaining with
       | S remaining' =>
           delay (getRetryAfter response) ;;;
           executeRequest_aux remaining' config (retryCount + 1)
       | O => executeRequest_settle response
       end
     else executeRequest_settle response)
    (fun error => throw (executeRequest_catch error)).

Definition executeRequest (config : AxiosRequestConfig) (retryCount : nat)
    : M MerakiApiResponse :=
  executeRequest_aux (MAX_RETRIES - retryCount) config retryCount.

(** [get], [post], [put], [delete]: each is one [executeRequest] run as a
    job of the queue. *)
Definition get (path : string) (params : value) : M MerakiApiResponse :=
  executeRequest {| req_method := "GET"; req_url := path;
                    req_params := params; req_data := VUndefined |} 0.

Definition post (path : string) (data_ params : value) : M MerakiApiResponse :=
  executeRequest {| req_method := "POST"; req_url := path;
                    req_params := params; req_data := data_ |} 0.

Definition put (path : string) (data_ params : value) : M MerakiApiResponse :=
  executeRequest {| req_method := "PUT"; req_url := path;
                    req_params := params; req_data := data_ |} 0.

Definition delete (path : string) (params : value) : M MerakiApiResponse :=
  executeRequest {| req_method := "DELETE"; req_url := path;
                    req_params := params; req_data := VUndefined |} 0.

End Client.

End HttpClient.

(* ================================================================== *)
(** * BaseTool *)
(* ================================================================== *)

Module BaseTool.

Import HttpClient.

Inductive HttpMethod : Type := GET | POST | PUT | DELETE | COMPOSITE.

Definition method_name (m : HttpMethod) : string :=
  match m with
  | GET => "GET"
  | POST => "POST"
  | PUT => "PUT"
  | DELETE => "DELETE"
  | COMPOSITE => "COMPOSITE"
  end.

(** What [coerceParameterTypes] reads of a Zod field schema:
    [_def.typeName], [_def.innerType] and [_def.coerce]. *)
Unset Elimination Schemes.
Inductive ZodType : Type :=
| Zod (typeName : string) (innerType : option ZodType) (coerce : bool).
Set Elimination Schemes.

Definition typeName (z : ZodType) : string :=
  match z with Zod t _ _ => t end.
Definition innerType (z : ZodType) : option ZodType :=
  match z with Zod _ i _ => i end.
Definition coerce (z : ZodType) : bool :=
  match z with Zod _ _ c => c end.

Record ZodIssue : Type := {
  path : list string;
  message : string
}.

(** The result of [safeParseAsync]. *)
Inductive SafeParseReturn : Type :=
| ParseSuccess (parsed : value)
| ParseFailure (errors : list ZodIssue).

(** A Zod schema: the field schemas of its [_def.shape()] (none when it is
    not an object schema), and its parser, which belongs to the Zod library. *)
Record ZodSchema : Type := {
  shape : list (string * ZodType);
  safeParseAsync : value -> SafeParseReturn
}.

Inductive Endpoint : Type :=
| EndpointString (s : string)
| EndpointFunction (f : value -> Outcome string).

(** [ToolConfig].  The hooks are the descriptor's own JavaScript functions;
    each may throw.  [customExecutor] receives the HTTP client as the monad
    it runs in. *)
Record ToolConfig : Type := {
  name : string;
  description : string;
  method : HttpMethod;
  endpoint : option Endpoint;
  inputSchema : ZodSchema;
  requiredParams : option (list string);
  transformParams : option (value -> Outcome value);
  transformResponse : option (value -> Outcome value);
  customExecutor : option (value -> M value)
}.

(** ** Text helpers *)

(** [s.split(",")] *)
Fixpoint split_commas (s : string) (current : string) : list string :=
  match s with
  | EmptyString => [current]
  | String c s' =>
      if Ascii.eqb c "," then current :: split_commas s' EmptyString
      else split_commas s' (current ++ String c EmptyString)
  end.

Fixpoint rev_string (s : string) (acc : string) : string :=
  match s with
  | EmptyString => acc
  | String c s' => rev_string s' (String c acc)
  end.

(** [s.trim()] *)
Definition trim (s : string) : string :=
  rev_string (skip_spaces (rev_string (skip_spaces s) EmptyString)) EmptyString.

(** [value.split(",").map(v => v.trim()).filter(v => v)] *)
Definition comma_list (s : string) : list value :=
  map VStr (filter (fun v => negb (v =? "")) (map trim (split_commas s EmptyString))).

(** [endpoint.match(/\{([^}]+)\}/g)], each match without its braces.
    [inside] is the text read since an opening brace, if one is open. *)
Fixpoint pathParamNames (s : string) (inside : option string) : list string :=
  match s with
  | EmptyString => []
  | String c s' =>
      match inside with
      | None =>
          if Ascii.eqb c "{" then pathParamNames s' (Some EmptyString)
          else pathParamNames s' None
      | Some read =>
          if Ascii.eqb c "}" then
            if read =? "" then pathParamNames s' None
            else read :: pathParamNames s' None
          else pathParamNames s' (Some (read ++ String c EmptyString)%string)
      end
  end.

(** [s.replace(pattern, replacement)] for a string pattern: the first
    occurrence only. *)
Fixpoint replace_first (pattern replacement s : string) : string :=
  if String.prefix pattern s
  then replacement ++ String.substring (String.length pattern) (String.length s) s
  else
    match s with
    | EmptyString => EmptyString
    | String c s' => String c (replace_first pattern replacement s')
    end.

(** ** The tool *)

(** How [coerceParameterTypes] unwraps a field schema: the type name it
    ends up testing and the schema whose [coerce] flag it reads. *)
Definition unwrap_field (fieldSchema : ZodType) : string * ZodType :=
  let typeName0 := typeName fieldSchema in
  let innerSchema0 := fieldSchema in
  let '(typeName1, innerSchema1) :=
    match innerType fieldSchema with
    | Some inner =>
        if typeName0 =? "ZodOptional" then (typeName inner, inner)
        else (typeName0, innerSchema0)
    | None => (typeName0, innerSchema0)
    end in
  match innerType fieldSchema with
  | Some inner =>
      if typeName1 =? "ZodDefault" then (typeName inner, inner)
      else (typeName1, innerSchema1)
  | None => (typeName1, innerSchema1)
  end.

(** One turn of the loop of [coerceParameterTypes]: the new value of
    [result[key]], if it is assigned. *)
Definition coerce_entry `{Host} (schemaShape : list (string * ZodType))
    (key : string) (value_ : value) : option value :=
  if nullish value_ then None
  else
    match find (fun kz => fst kz =? key) schemaShape with
    | None => None
    | Some (_, fieldSchema) =>
        let '(typeName_, innerSchema) := unwrap_field fieldSchema in
        match value_ with
        | VStr s =>
            if (typeName_ =? "ZodNumber") && negb (coerce innerSchema) then
              match Number_of_string s with
              | Some num => Some (VNum num)
              | None => None
              end
            else if typeName_ =? "ZodBoolean" then
              if s =? "true" then Some (VBool true)
              else if s =? "false" then Some (VBool false)
              else None
            else if typeName_ =? "ZodArray" then Some (VArr (comma_list s))
            else None
        | _ => None
        end
    end.

(** [getSummaryFields()] *)
Definition getSummaryFields (toolName : string) : list string :=
  if includes toolName "clients" then ["description"; "mac"; "ip"; "vlan"; "status"]
  else if includes toolName "devices" then ["name"; "model"; "serial"; "status"; "productType"]
  else if includes toolName "events" then ["type"; "category"; "occurredAt"; "description"]
  else if includes toolName "networks" then ["name"; "id"; "productTypes"; "timeZone"]
  else if includes toolName "licenses" then ["licenseType"; "state"; "expirationDate"]
  else ["name"; "id"; "type"; "status"].

Definition TypeError (message : string) : JsError := Error "TypeError" message.

Section Tool.
Context `{Host} (upstream : Upstream) (settings : Settings.MerakiMCPSettings)
        (config : ToolConfig).

(** [coerceParameterTypes(params)] *)
Definition coerceParameterTypes (params : object) : object :=
  fold_left
    (fun result kv =>
       match coerce_entry (shape (inputSchema config)) (fst kv) (snd kv) with
       | Some coerced => obj_set (fst kv) coerced result
       | None => result
       end)
    params params.

(** [validateParams(params)] *)
Definition validateParams (params : value) : Outcome value :=
  match safeParseAsync (inputSchema config) params with
  | ParseFailure errors =>
      match errors with
      | firstError :: _ =>
          Threw (Error "Error"
                   ("Validation error: " ++ join "." (path firstError) ++ ": "
                    ++ message firstError))
      | [] => Threw (Error "Error" "Validation error: Invalid input")
      end
  | ParseSuccess parsed =>
      match requiredParams config with
      | Some required =>
          match validateRequired parsed required with
          | Some error => Threw error
          | None => Returned parsed
          end
      | None => Returned parsed
      end
  end.

(** [applyResponseOptimization(response)] *)
Definition applyResponseOptimization (response : value) : Outcome value :=
  let limits := Settings.limits_or_default settings in
  match JSON_stringify response with
  | None => Threw (TypeError "Cannot read properties of undefined (reading 'length')")
  | Some responseStr =>
      let responseSize := strlen responseStr in
      let listed :=
        match response with
        | VArr items =>
            if includes (name config) "_list"
               && (Settings.maxArrayLength limits <? arrlen items)%Z
            then Some (VObj [("data", VArr (slice0 (Settings.maxArrayLength limits) items));
                             ("meta", VObj [("total", VNum (arrlen items));
                                            ("returned", VNum (Settings.maxArrayLength limits));
                                            ("truncated", VBool true);
                                            ("hint", VStr ("Use perPage parameter to control response size. Max recommended: "
                                                           ++ Number_toString (Settings.maxArrayLength limits)))])])
            else None
        | _ => None
        end in
      match listed with
      | Some limited => Returned limited
      | None =>
          if (Settings.maxResponseSize limits <? responseSize)%Z
             && Settings.summarizeArrays limits
          then
            match ResponseOptimizer.createSummaryResponse response
                    (Some (getSummaryFields (name config))) with
            | Some summary => Returned summary
            | None => Threw (TypeError "Cannot read properties of null or undefined")
            end
          else Returned response
      end
  end.

(** [paramName in params] for a name that is not inherited from
    [Object.prototype]; [None] is the TypeError of [in] on a primitive. *)
Definition has_param (params : value) (paramName : string) : option bool :=
  match params with
  | VObj _ => Some (obj_has paramName (spread params))
  | VArr _ => Some ((paramName =? "length") || obj_has paramName (spread params))
  | _ => None
  end.

(** The loop of [separateParams]. *)
Fixpoint separate_loop (params : value) (names : list string)
    (pathParams otherParams : object) : option (object * object) :=
  match names with
  | [] => Some (pathParams, otherParams)
  | paramName :: rest =>
      match has_param params paramName with
      | None => None
      | Some true =>
          let text := ToString (get_prop_opt params paramName) in
          separate_loop params rest
            (obj_set paramName (VStr text) pathParams)
            (obj_delete paramName otherParams)
      | Some false => separate_loop params rest pathParams otherParams
      end
  end.

(** [separateParams(endpoint, params)]; [None] is a TypeError. *)
Definition separateParams (endpoint_ : string) (params : value)
    : option (object * object) :=
  separate_loop params (pathParamNames endpoint_ None) [] (spread params).

(** [replacePathParams(endpoint, pathParams)] *)
Definition replacePathParams (endpoint_ : string) (pathParams : object) : string :=
  fold_left
    (fun result kv =>
       replace_first ("{" ++ fst kv ++ "}") (encodeURIComponent (ToString (snd kv))) result)
    pathParams endpoint_.

(** The [switch (this.config.method)] of [execute]. *)
Definition send (finalEndpoint : string) (otherParams : value) : M MerakiApiResponse :=
  match method config with
  | GET => get upstream finalEndpoint otherParams
  | POST => post upstream finalEndpoint otherParams VUndefined
  | PUT => put upstream finalEndpoint otherParams VUndefined
  | DELETE => delete upstream finalEndpoint otherParams
  | COMPOSITE =>
      throw (Error "Error" ("Unsupported HTTP method: " ++ method_name (method config)))
  end.

(** The body of the [try] block of [execute], from validated parameters on. *)
Definition execute_validated (validatedParams : value) : M value :=
  match method config, customExecutor config with
  | COMPOSITE, Some executor =>
      result <- executor validatedParams ;;
      lift (applyResponseOptimization result)
  | _, _ =>
      resolved <-
        match endpoint config with
        | Some (EndpointFunction f) => lift (f validatedParams)
        | Some (EndpointString s) => ret s
        | None => ret EmptyString
        end ;;
      if resolved =? "" then
        throw (Error "Error"
                 ("Endpoint is required for method: " ++ method_name (method config)))
      else
        match separateParams resolved validatedParams with
        | None => throw (TypeError "Cannot use 'in' operator in a primitive")
        | Some (pathParams, otherParams) =>
            let finalEndpoint := replacePathParams resolved pathParams in
            response <- send finalEndpoint (VObj otherParams) ;;
            result <-
              match transformResponse config with
              | Some f => lift (f (result_data response))
              | None => ret (result_data response)
              end ;;
            lift (applyResponseOptimization result)
        end
  end.

(** [execute(params)] *)
Definition execute (params : value) : M value :=
  try_catch
    (defaultParams <-
       match Settings.getDefaultParams settings (name config) with
       | Some defaults => ret defaults
       | None => throw (Error "SyntaxError" "Invalid regular expression")
       end ;;
     let paramsWithDefaults := obj_assign defaultParams (spread params) in
     let coercedParams := coerceParameterTypes paramsWithDefaults in
     transformedParams <-
       match transformParams config with
       | Some f => lift (f (VObj coercedParams))
       | None => ret (VObj coercedParams)
       end ;;
     validatedParams <- lift (validateParams transformedParams) ;;
     execute_validated validatedParams)
    (fun error => throw (handleError error)).

End Tool.

End BaseTool.

(* ================================================================== *)
(** * The composite tool organization_security_events *)
(* ================================================================== *)

Module OrganizationTools.

Import HttpClient BaseTool.

(** The default [includedEventTypes] of the composite executor. *)
Definition DEFAULT_SECURITY_EVENT_TYPES : value :=
  VArr [VStr "security_event"; VStr "ids_alerted"; VStr "content_filtering_blocked";
        VStr "malware_blocked"; VStr "vpn_connectivity_change";
        VStr "firewall_blocked"; VStr "amp_blocked"].

(** [eventParams[key] = params[key]] under [if (params[key])]. *)
Definition copy_if_truthy (params : value) (key : string) (eventParams : object) : object :=
  if truthy (get_prop_opt params key)
  then obj_set key (get_prop_opt params key) eventParams
  else eventParams.

(** The [eventParams] object built for one network. *)
Definition eventParams_for (params : value) (networkId : value) : object :=
  let perPage := get_prop_opt params "perPage" in
  let eventParams :=
    [("networkId", networkId);
     ("productType", VStr "appliance");
     ("perPage", if truthy perPage then perPage else VNum 100)] in
  let eventParams := copy_if_truthy params "t0" eventParams in
  let eventParams := copy_if_truthy params "t1" eventParams in
  let eventParams := copy_if_truthy params "timespan" eventParams in
  let securityEventTypes := get_prop_opt params "securityEventTypes" in
  if truthy (length_opt securityEventTypes)
  then obj_set "includedEventTypes" securityEventTypes eventParams
  else obj_set "includedEventTypes" DEFAULT_SECURITY_EVENT_TYPES eventParams.

(** [{ ...event, networkId: network.id, networkName: network.name }] *)
Definition with_network (networkId networkName : value) (event : value) : value :=
  VObj (obj_set "networkName" networkName
          (obj_set "networkId" networkId (spread event))).

(** [eventsResponse.data.events?.map(...) || []]; [None] is a TypeError. *)
Definition eventsWithNetwork (networkId networkName : value)
    (eventsResponse : MerakiApiResponse) : option (list value) :=
  match get_prop (result_data eventsResponse) "events" with
  | None => None
  | Some events =>
      match events with
      | VUndefined | VNull => Some []
      | VArr items => Some (map (with_network networkId networkName) items)
      | _ => None
      end
  end.

(** The comparator handed to [sort]:
    [new Date(b.occurredAt).getTime() - new Date(a.occurredAt).getTime()],
    a NaN counting as 0 as [sort] reads it. *)
Definition by_occurredAt_desc `{Host} (a b : value) : Z :=
  match Date_getTime (get_prop_opt b "occurredAt"),
        Date_getTime (get_prop_opt a "occurredAt") with
  | Some tb, Some ta => (tb - ta)%Z
  | _, _ => 0%Z
  end.

(** With a consistent comparator [Array.prototype.sort] is a stable sort,
    the same in every engine: an item moves in front of another only when
    the comparator says so. *)
Fixpoint sort_insert (compare : value -> value -> Z) (x : value) (sorted : list value)
    : list value :=
  match sorted with
  | [] => [x]
  | y :: rest =>
      if (compare x y <=? 0)%Z then x :: y :: rest
      else y :: sort_insert compare x rest
  end.

Definition stable_sort (compare : value -> value -> Z) (items : list value) : list value :=
  fold_right (sort_insert compare) [] items.

(** [new Date(event.occurredAt).getTime()] is not NaN. *)
Definition has_time `{Host} (event : value) : bool :=
  match Date_getTime (get_prop_opt event "occurredAt") with
  | Some _ => true
  | None => false
  end.

(** [allSecurityEvents.sort((a, b) => ...)].  The comparator is consistent
    when every event has a time value; an event without one compares as
    equal to all the others, and the order is then the engine's. *)
Definition Array_sort `{Host} (items : list value) : list value :=
  if forallb has_time items then stable_sort by_occurredAt_desc items
  else Array_sort_engine by_occurredAt_desc items.

(** [items.slice(0, end)] for an [end] of any type. *)
Definition slice0_value `{Host} (end_ : value) (items : list value) : list value :=
  match end_ with
  | VUndefined => items
  | _ => slice0 (match ToNumber end_ with Some n => n | None => 0%Z end) items
  end.

Section Executor.
Context `{Host} (upstream : Upstream).

(** The body of the [try] block run for one network. *)
Definition collect_network (params network : value) (allSecurityEvents : list value)
    : M (list value) :=
  match get_prop network "id" with
  | None => throw (TypeError "Cannot read properties of null or undefined (reading 'id')")
  | Some networkId =>
      eventsResponse <-
        get upstream ("/networks/" ++ ToString networkId ++ "/events")
          (VObj [("params", VObj (eventParams_for params networkId))]) ;;
      match eventsWithNetwork networkId (get_prop_opt network "name") eventsResponse with
      | None => throw (TypeError "Cannot read properties of null or undefined (reading 'events')")
      | Some tagged => ret (allSecurityEvents ++ tagged)
      end
  end.

(** The [for (const network of networks)] loop: a network whose turn throws
    is skipped. *)
Fixpoint collect_networks (params : value) (networks : list value)
    (allSecurityEvents : list value) : M (list value) :=
  match networks with
  | [] => ret allSecurityEvents
  | network :: rest =>
      collected <-
        try_catch (collect_network params network allSecurityEvents)
          (fun _ => ret allSecurityEvents) ;;
      collect_networks params rest collected
  end.

(** The loop seen turn by turn: what the turns that return have collected,
    each from an empty list, and the trace after the last turn. *)
Fixpoint collected_in_turns (params : value) (networks : list value) (tr : Trace)
    : list value * Trace :=
  match networks with
  | [] => ([], tr)
  | network :: rest =>
      match collect_network params network [] tr with
      | (Returned tagged, tr') =>
          (tagged ++ fst (collected_in_turns params rest tr'),
           snd (collected_in_turns params rest tr'))
      | (Threw _, tr') => collected_in_turns params rest tr'
      end
  end.

(** What the executor does with the collected events. *)
Definition finish_events (params organizationId : value) (allSecurityEvents : list value)
    : value :=
  let sorted := Array_sort allSecurityEvents in
  let perPage := get_prop_opt params "perPage" in
  let page := if truthy perPage then slice0_value perPage sorted else sorted in
  VObj [("events", VArr page);
        ("total", VNum (arrlen page));
        ("organizationId", organizationId)].

(** [customExecutor(params, apiClient)] of [organization_security_events] *)
Definition security_events_executor (params : value) : M value :=
  match get_prop params "organizationId" with
  | None => throw (TypeError "Cannot read properties of null or undefined (reading 'organizationId')")
  | Some organizationId =>
      networksResponse <-
        get upstream ("/organizations/" ++ ToString organizationId ++ "/networks") VUndefined ;;
      match iterate (result_data networksResponse) with
      | None => throw (TypeError "networks is not iterable")
      | Some networks =>
          allSecurityEvents <- collect_networks params networks [] ;;
          ret (finish_events params organizationId allSecurityEvents)
      end
  end.

(** The descriptor.  Its Zod parser is the library's; the field schemas are
    those of the [z.object] literal. *)
Definition organization_security_events (parser : value -> SafeParseReturn) : ToolConfig := {|
  name := "organization_security_events";
  description :=
    "Get security event log for an organization by aggregating events from all networks";
  method := COMPOSITE;
  endpoint := None;
  inputSchema := {|
    shape :=
      [("organizationId", Zod "ZodString" None false);
       ("t0", Zod "ZodOptional" (Some (Zod "ZodString" None false)) false);
       ("t1", Zod "ZodOptional" (Some (Zod "ZodString" None false)) false);
       ("timespan", Zod "ZodOptional" (Some (Zod "ZodNumber" None true)) false);
       ("perPage", Zod "ZodOptional" (Some (Zod "ZodNumber" None true)) false);
       ("securityEventTypes",
        Zod "ZodOptional"
          (Some (Zod "ZodArray" None false)) false)];
    safeParseAsync := parser |};
  requiredParams := Some ["organizationId"];
  transformParams := None;
  transformResponse := None;
  customExecutor := Some security_events_executor
|}.

End Executor.

(** The [transformParams] hook of [organization_traffic_analysis],
    [organization_clients_bandwidth_usage] and
    [organization_top_networks_by_status]: a window of 24 hours is written
    into the parameters when they name no [timespan], [t0] or [t1].
    [execute] hands the hook the object [coerceParameterTypes] has made;
    on [null] and [undefined] the first read is a TypeError, and the other
    values, which are not objects either, are never met. *)
Definition default_timespan (params : value) : Outcome value :=
  match params with
  | VObj fields =>
      if negb (truthy (get_prop_opt params "timespan"))
         && negb (truthy (get_prop_opt params "t0"))
         && negb (truthy (get_prop_opt params "t1"))
      then Returned (VObj (obj_set "timespan" (VNum 86400) fields))
      else Returned params
  | _ => Threw (TypeError "Cannot read properties of undefined (reading 'timespan')")
  end.

(** The descriptor of [organization_top_networks_by_status]; its Zod parser
    is the library's. *)
Definition organization_top_networks_by_status (parser : value -> SafeParseReturn)
    : ToolConfig := {|
  name := "organization_top_networks_by_status";
  description := "Get top networks by status for an organization";
  method := GET;
  endpoint :=
    Some (EndpointFunction
            (fun params =>
               Returned ("/organizations/" ++ ToString (get_prop_opt params "organizationId")
                         ++ "/summary/top/networks/byStatus")%string));
  inputSchema := {|
    shape :=
      [("organizationId", Zod "ZodString" None false);
       ("t0", Zod "ZodOptional" (Some (Zod "ZodString" None false)) false);
       ("t1", Zod "ZodOptional" (Some (Zod "ZodString" None false)) false);
       ("timespan", Zod "ZodOptional" (Some (Zod "ZodNumber" None true)) false)];
    safeParseAsync := parser |};
  requiredParams := Some ["organizationId"];
  transformParams := Some default_timespan;
  transformResponse := None;
  customExecutor := None
|}.

End OrganizationTools.

(* ================================================================== *)
(** * The request handlers of the server *)
(* ================================================================== *)

Module Server.

Import HttpClient BaseTool.

(** What [\s] matches among the code units below 256. *)
Definition is_white_space (c : ascii) : bool :=
  is_space c || (nat_of_ascii c =? 160)%nat.

(** [name.replace(/\s+/g, '')] *)
Fixpoint remove_white_space (s : string) : string :=
  match s with
  | EmptyString => EmptyString
  | String c s' =>
      if is_white_space c then remove_white_space s'
      else String c (remove_white_space s')
  end.

(** [name.replace(/_{2,}/g, '_')] *)
Fixpoint collapse_underscores (s : string) : string :=
  match s with
  | EmptyString => EmptyString
  | String c s' =>
      if Ascii.eqb c "_" && String.prefix "_" s' then collapse_underscores s'
      else String c (collapse_underscores s')
  end.

(** [name.replace(/^_|_$/g, '')]: the match at the start ... *)
Definition strip_leading_underscore (s : string) : string :=
  match s with
  | String c s' => if Ascii.eqb c "_" then s' else s
  | EmptyString => s
  end.

(** ... and the one at the end, looked for in what follows the first. *)
Fixpoint strip_trailing_underscore (s : string) : string :=
  match s with
  | EmptyString => EmptyString
  | String c s' =>
      if Ascii.eqb c "_" && (s' =? "") then EmptyString
      else String c (strip_trailing_underscore s')
  end.

(** The clean-up of the requested tool name. *)
Definition clean_name (name : string) : string :=
  strip_trailing_underscore
    (strip_leading_underscore
       (collapse_underscores (trim (remove_white_space name)))).

(** [name.split("_")[0]] *)
Fixpoint toolCategory (name : string) : string :=
  match name with
  | EmptyString => EmptyString
  | String c name' =>
      if Ascii.eqb c "_" then EmptyString else String c (toolCategory name')
  end.

(** The tool configurations of the modules the server imports, one list
    for each [case] of its [switch]. *)
Record Registry : Type := {
  organizationTools : list ToolConfig;
  networkTools : list ToolConfig;
  deviceTools : list ToolConfig;
  applianceTools : list ToolConfig;
  switchTools : list ToolConfig;
  wirelessTools : list ToolConfig;
  cameraTools : list ToolConfig;
  systemsManagerTools : list ToolConfig
}.

(** The names in the [tools] map once every module has registered. *)
Definition registered_names (registry : Registry) : list string :=
  map name
    (organizationTools registry ++ networkTools registry ++ deviceTools registry
     ++ applianceTools registry ++ switchTools registry ++ wirelessTools registry
     ++ cameraTools registry ++ systemsManagerTools registry).

(** The [switch (toolCategory)]: the module imported, as the word its
    [execute] puts in its error and the configurations it has registered. *)
Definition handler_of (registry : Registry) (category : string)
    : option (string * list ToolConfig) :=
  if category =? "organization" then Some ("organization", organizationTools registry)
  else if category =? "network" then Some ("network", networkTools registry)
  else if category =? "device" then Some ("device", deviceTools registry)
  else if category =? "appliance" then Some ("appliance", applianceTools registry)
  else if category =? "switch" then Some ("switch", switchTools registry)
  else if category =? "wireless" then Some ("wireless", wirelessTools registry)
  else if category =? "camera" then Some ("camera", cameraTools registry)
  else if category =? "systemsManager"
  then Some ("systems manager", systemsManagerTools registry)
  else None.

(** An [McpError] as the handler of [CallToolRequestSchema] throws it: its
    [data] may be left out. *)
Record Rejection : Type := {
  rejection_code : ErrorCode;
  rejection_message : string;
  rejection_data : option McpData
}.

Definition double_quote : string := String (ascii_of_nat 34) EmptyString.

(** The [content] the handler answers with. *)
Definition text_content `{Host} (result : value) : value :=
  VObj [("content",
         VArr [VObj [("type", VStr "text");
                     ("text", match JSON_stringify result with
                              | Some text => VStr text
                              | None => VUndefined
                              end)]])].

Section Handler.
Context `{Host} (upstream : Upstream) (settings : Settings.MerakiMCPSettings)
        (registry : Registry).

(** [error.message] of an [McpError], which the SDK builds from the code
    and the message given to the constructor. *)
Variable McpError_message : ErrorCode -> string -> string.

(** [error.message] of what the [try] block throws. *)
Definition thrown_message (error : JsError) : string :=
  match error with
  | McpError code message _ => McpError_message code message
  | _ => error_message error
  end.

(** [execute(toolName, params)] of a tool module: the executor stored
    last under the name runs [BaseTool.execute]. *)
Definition module_execute (word : string) (configs : list ToolConfig)
    (toolName : string) (params : value) : M value :=
  match find (fun config => name config =? toolName) (rev configs) with
  | Some config => execute upstream settings config params
  | None => throw (Error "Error" ("Unknown " ++ word ++ " tool: " ++ toolName))
  end.

(** The [catch] clause of the handler: the error it throws. *)
Definition call_tool_catch (toolName : string) (error : JsError) : Rejection :=
  match error with
  | MerakiAPIError message statusCode details =>
      {| rejection_code := InternalError;
         rejection_message := "Meraki API Error: " ++ message;
         rejection_data := Some (DataApi statusCode details) |}
  | _ =>
      {| rejection_code := InternalError;
         rejection_message :=
           "Failed to execute tool " ++ double_quote ++ toolName ++ double_quote ++ ": "
           ++ thrown_message error;
         rejection_data := None |}
  end.

(** The handler of [CallToolRequestSchema], given [request.params.name]
    and [request.params.arguments].  The [McpError] thrown in the [default]
    case of the [switch] carries no data and is caught by the handler's own
    [catch]: its branch gives what that clause makes of it. *)
Definition call_tool (requested : string) (args : value)
    : Trace -> (Rejection + value) * Trace :=
  fun tr =>
    let toolName := clean_name requested in
    if negb (existsb (String.eqb toolName) (registered_names registry)) then
      (inl {| rejection_code := MethodNotFound;
              rejection_message :=
                "Tool " ++ double_quote ++ toolName ++ double_quote ++ " not found";
              rejection_data := None |}, tr)
    else
      match handler_of registry (toolCategory toolName) with
      | None =>
          (inl {| rejection_code := InternalError;
                  rejection_message :=
                    "Failed to execute tool " ++ double_quote ++ toolName ++ double_quote
                    ++ ": "
                    ++ McpError_message MethodNotFound
                         ("Unknown tool category for " ++ double_quote ++ toolName
                          ++ double_quote);
                  rejection_data := None |}, tr)
      | Some (word, configs) =>
          match module_execute word configs toolName
                  (if truthy args then args else VObj []) tr with
          | (Returned result, tr') => (inr (text_content result), tr')
          | (Threw error, tr') => (inl (call_tool_catch toolName error), tr')
          end
      end.

End Handler.

End Server.

(* ================================================================== *)
(** * A host to run the examples on *)
(* ================================================================== *)

(** [sample_host] answers as a JavaScript engine does on the inputs the
    examples below feed it: decimal integer text for [Number], regular
    expressions made of [^], [$], [.], [.*] and word characters, integer
    time values for [Date], values without text that needs escaping for
    [JSON.stringify], and ASCII text for [encodeURIComponent].  No example
    sorts events that lack a time value, so its [sort] for that case leaves
    the items where they are. *)
Module SampleHost.

Import HttpClient BaseTool.

Fixpoint all_digits (s : string) (acc : Z) : option Z :=
  match s with
  | EmptyString => Some acc
  | String c s' =>
      match digit_of c with
      | Some d => all_digits s' (10 * acc + d)%Z
      | None => None
      end
  end.

Definition sample_Number (s : string) : option Z :=
  match trim s with
  | EmptyString => Some 0%Z
  | String "-" (String c s') => option_map Z.opp (all_digits (String c s') 0)
  | String "+" (String c s') => all_digits (String c s') 0
  | s' => all_digits s' 0
  end.

Inductive token : Type :=
| Literal (c : ascii)
| AnyChar
| AnyRun.

Definition word_char (c : ascii) : bool :=
  let n := nat_of_ascii c in
  ((48 <=? n)%nat && (n <=? 57)%nat) || ((65 <=? n)%nat && (n <=? 90)%nat)
  || ((97 <=? n)%nat && (n <=? 122)%nat) || (n =? 95)%nat.

(** The tokens of a pattern body that ends in [$]. *)
Fixpoint tokens (s : string) : option (list token) :=
  match s with
  | EmptyString => None
  | String c s' =>
      if Ascii.eqb c "$" then
        match s' with EmptyString => Some [] | _ => None end
      else if Ascii.eqb c "." then
        match s' with
        | String "*" s'' => option_map (cons AnyRun) (tokens_after_star s'')
        | _ => option_map (cons AnyChar) (tokens s')
        end
      else if word_char c then option_map (cons (Literal c)) (tokens s')
      else None
  end
with tokens_after_star (s : string) : option (list token) :=
  match s with
  | EmptyString => None
  | String c s' =>
      if Ascii.eqb c "$" then
        match s' with EmptyString => Some [] | _ => None end
      else if Ascii.eqb c "." then option_map (cons AnyChar) (tokens s')
      else if word_char c then option_map (cons (Literal c)) (tokens s')
      else None
  end.

Definition line_end (c : ascii) : bool :=
  let n := nat_of_ascii c in (n =? 10)%nat || (n =? 13)%nat.

Fixpoint matches (ts : list token) : string -> bool :=
  match ts with
  | [] => fun s => s =? ""
  | Literal c :: ts' =>
      fun s =>
        match s with
        | String c' s' => Ascii.eqb c c' && matches ts' s'
        | EmptyString => false
        end
  | AnyChar :: ts' =>
      fun s =>
        match s with
        | String c' s' => negb (line_end c') && matches ts' s'
        | EmptyString => false
        end
  | AnyRun :: ts' =>
      fix run (s : string) : bool :=
        matches ts' s ||
        match s with
        | String c' s' => negb (line_end c') && run s'
        | EmptyString => false
        end
  end.

Definition sample_RegExp_test (source subject : string) : option bool :=
  match source with
  | String "^" body =>
      match tokens body with
      | Some ts => Some (matches ts subject)
      | None => None
      end
  | _ => None
  end.

Definition sample_Date_getTime (v : value) : option Z :=
  match v with
  | VNum n =>
      if (Z.abs n <=? 8640000000000000)%Z then Some n else None
  | _ => None
  end.

Definition quote : string := String (ascii_of_nat 34) EmptyString.

Fixpoint sample_stringify (v : value) : string :=
  match v with
  | VUndefined | VNull => "null"
  | VBool true => "true"
  | VBool false => "false"
  | VNum n => Number_toString n
  | VStr s => (quote ++ s ++ quote)%string
  | VArr items => ("[" ++ join "," (map sample_stringify items) ++ "]")%string
  | VObj fields =>
      ("{" ++ join ","
                (flat_map
                   (fun kv =>
                      if match snd kv with VUndefined => true | _ => false end then []
                      else [(quote ++ fst kv ++ quote ++ ":"
                             ++ sample_stringify (snd kv))%string])
                   fields)
           ++ "}")%string
  end.

Definition sample_JSON_stringify (v : value) : option string :=
  match v with
  | VUndefined => None
  | _ => Some (sample_stringify v)
  end.

Definition unreserved (c : ascii) : bool :=
  word_char c || existsb (Ascii.eqb c) (list_ascii_of_string "-.!~*'()").

Definition hex_digit (n : nat) : ascii :=
  if (n <? 10)%nat then ascii_of_nat (48 + n) else ascii_of_nat (55 + n).

Fixpoint sample_encodeURIComponent (s : string) : string :=
  match s with
  | EmptyString => EmptyString
  | String c s' =>
      if unreserved c then String c (sample_encodeURIComponent s')
      else
        let n := nat_of_ascii c in
        String "%" (String (hex_digit (n / 16)) (String (hex_digit (n mod 16))
          (sample_encodeURIComponent s')))
  end.

#[export] Instance sample_host : Host := {|
  Number_of_string := sample_Number;
  RegExp_test := sample_RegExp_test;
  Date_getTime := sample_Date_getTime;
  JSON_stringify := sample_JSON_stringify;
  encodeURIComponent := sample_encodeURIComponent;
  Array_sort_engine := fun _ items => items;
  Array_sort_engine_permutes := fun _ items => Permutation_refl items
|}.

End SampleHost.

(* ================================================================== *)
(** * Definitions used to state the properties *)
(* ================================================================== *)

Module Spec.

Import ResponseOptimizer HttpClient BaseTool OrganizationTools.

Section Bounding.
Variable options : OptimizationOptions.

(** The loop over the entries of an object, from a partial result. *)
Definition optimize_entries (fields optimized : object) : object :=
  fold_left
    (fun optimized kv =>
       optimize_entry options optimized (fst kv) (snd kv) (optimizeResponse options (snd kv)))
    fields optimized.

(** An entry that a second pass leaves alone. *)
Definition settled (kv : string * value) : Prop :=
  flag (removeNullFields options) && nullish (snd kv) = false
  /\ optimizeResponse options (snd kv) = snd kv.

(** A length limit that [slice] reads as a length. *)
Definition limit_is_length : Prop :=
  forall M, maxArrayLength options = Some M -> (0 <= M)%Z.

End Bounding.

(** The parameter objects that apply to a tool, in the order the spec
    gives them: the object of every matching pattern in declaration order,
    then the object filed under the tool's exact name. *)
Definition default_sources (matching : string -> bool) (table : object)
    (toolName : string) : list object :=
  map (fun entry => spread (snd entry)) (filter (fun entry => matching (fst entry)) table)
  ++ match obj_get toolName table with
     | Some params => [spread params]
     | None => []
     end.

(** Shallow merge with later sources overwriting earlier ones: the value of
    a key is the one given by the last source that has the key. *)
Fixpoint last_binding (k : string) (sources : list object) : option value :=
  match sources with
  | [] => None
  | source :: later =>
      match last_binding k later with
      | Some v => Some v
      | None => obj_get k source
      end
  end.

Section Pipeline.
Context `{Host} (settings : Settings.MerakiMCPSettings) (config : ToolConfig).

(** The parameters [execute] hands to validation: the settings' defaults
    merged under the caller's parameters, the types coerced, the
    pre-validation transform applied.  [None] when a default-parameter
    pattern does not compile. *)
Definition prepared (params : value) : option (Outcome value) :=
  match Settings.getDefaultParams settings (name config) with
  | None => None
  | Some defaultParams =>
      let coercedParams :=
        coerceParameterTypes config (obj_assign defaultParams (spread params)) in
      match transformParams config with
      | Some f => Some (f (VObj coercedParams))
      | None => Some (Returned (VObj coercedParams))
      end
  end.

End Pipeline.

(** The message of the error thrown for a schema failure: the path and the
    reason of the first issue. *)
Definition validation_message (errors : list ZodIssue) : string :=
  match errors with
  | firstError :: _ =>
      "Validation error: " ++ join "." (path firstError) ++ ": " ++ message firstError
  | [] => "Validation error: Invalid input"
  end.

Section Events.
Context `{Host} (upstream : Upstream).

(** [new Date(event.occurredAt).getTime()]; [None] is NaN. *)
Definition occurredAt_time (event : value) : option Z :=
  Date_getTime (get_prop_opt event "occurredAt").

(** [a] may stand before [b] in a list sorted by time, newest first. *)
Definition newer_or_equal (a b : value) : Prop :=
  match occurredAt_time a, occurredAt_time b with
  | Some ta, Some tb => (tb <= ta)%Z
  | _, _ => True
  end.

(** The event has a time value that [Date] can read. *)
Definition timed (event : value) : Prop := occurredAt_time event <> None.

(** The events sub-call of a child network, made at the trace [tr]: the
    request for the events of the network, and what it yields, the list
    found under [events] in the body of the response (no event when the
    body has no such field).  The sub-call fails, [None], when the network
    has no [id] to ask with, when the request throws, and when the body
    holds something else than a list there. *)
Definition sub_call (params network : value) (tr : Trace)
    : option (list value) * Trace :=
  match get_prop network "id" with
  | None => (None, tr)
  | Some networkId =>
      match get upstream ("/networks/" ++ ToString networkId ++ "/events")
              (VObj [("params", VObj (eventParams_for params networkId))]) tr with
      | (Returned response, tr') =>
          (match get_prop (result_data response) "events" with
           | Some (VArr items) => Some items
           | Some VUndefined | Some VNull => Some []
           | _ => None
           end, tr')
      | (Threw _, tr') => (None, tr')
      end
  end.

(** The surviving events in the words of the spec, each with the child
    network it comes from: the sub-calls are made in the order of the
    networks; a network whose sub-call fails is skipped, every other one
    contributes all the events of its response, in their order. *)
Fixpoint surviving (params : value) (networks : list value) (tr : Trace)
    : list (value * value) * Trace :=
  match networks with
  | [] => ([], tr)
  | network :: rest =>
      let later := surviving params rest (snd (sub_call params network tr)) in
      (match fst (sub_call params network tr) with
       | Some items => map (pair network) items
       | None => []
       end ++ fst later,
       snd later)
  end.

End Events.

(** [tagged] is [event] tagged with the id and the name of [network]: an
    object that holds them under [networkId] and [networkName] and has,
    under every other key, what [event] has there. *)
Definition tagged_with (network event tagged : value) : Prop :=
  exists fields,
    tagged = VObj fields
    /\ obj_get "networkId" fields = Some (get_prop_opt network "id")
    /\ obj_get "networkName" fields = Some (get_prop_opt network "name")
    /\ forall key,
         key <> "networkId" -> key <> "networkName" ->
         obj_get key fields = obj_get key (spread event).

(** Every array inside [v] holds at most [M] items and every string value
    at most [L] characters. *)
Fixpoint within_limits (M L : Z) (v : value) : bool :=
  match v with
  | VArr items => (arrlen items <=? M)%Z && forallb (within_limits M L) items
  | VObj fields => forallb (fun kv => within_limits M L (snd kv)) fields
  | VStr s => (strlen s <=? L)%Z
  | _ => true
  end.

(** No object inside [v] has a field that is [null] or [undefined]. *)
Fixpoint no_null_fields (v : value) : bool :=
  match v with
  | VArr items => forallb no_null_fields items
  | VObj fields =>
      forallb (fun kv => negb (nullish (snd kv)) && no_null_fields (snd kv)) fields
  | _ => true
  end.

(** A facet of a summary: the number of distinct values a field takes
    among the items, and up to five of them. *)
Definition facet_of (items : list value) (field : string) (facet : value) : Prop :=
  exists uniqueCount samples,
    facet = VObj [("uniqueCount", VNum uniqueCount); ("samples", VArr samples)]
    /\ (1 <= uniqueCount <= arrlen items)%Z
    /\ arrlen samples = Z.min 5 uniqueCount
    /\ Forall (fun sample =>
                 sample <> VUndefined
                 /\ exists item, In item items /\ get_prop item field = Some sample)
              samples.

(** What one character of a glob pattern stands for in a regular
    expression. *)
Definition glob_char (c : ascii) : string :=
  if Ascii.eqb c "*" then ".*"
  else if Ascii.eqb c "?" then "."
  else if Ascii.eqb c "[" then "\["
  else if Ascii.eqb c "]" then "\]"
  else String c EmptyString.

(** A glob pattern translated character by character. *)
Fixpoint glob_source (pattern : string) : string :=
  match pattern with
  | EmptyString => EmptyString
  | String c pattern' => (glob_char c ++ glob_source pattern')%string
  end.

(** The markers [isReadOnlyTool] looks for anywhere in a name. *)
Definition readOnlyMarkers : list string :=
  ["_get_"; "_list_"; "_statuses"; "_overview"].

(** The parameter object has the field, with a value other than [null]
    and [undefined]. *)
Definition present (params : object) (field : string) : bool :=
  match obj_get field params with
  | Some v => negb (nullish v)
  | None => false
  end.

(** The value a parameter has once [coerceParameterTypes] has run. *)
Definition coerced_value `{Host} (config : ToolConfig) (key : string) (value_ : value)
    : value :=
  match coerce_entry (shape (inputSchema config)) key value_ with
  | Some coerced => coerced
  | None => value_
  end.

Section Dispatch.
Variable config : ToolConfig.

(** The endpoint [execute] resolves from the validated parameters. *)
Definition resolved_endpoint (validatedParams : value) : Outcome string :=
  match endpoint config with
  | Some (EndpointFunction f) => f validatedParams
  | Some (EndpointString s) => Returned s
  | None => Returned EmptyString
  end.

(** The request a tool sends for its method; a composite tool sends none
    of its own. *)
Definition outgoing (finalEndpoint : string) (otherParams : value)
    : option AxiosRequestConfig :=
  match method config with
  | GET =>
      Some {| req_method := "GET"; req_url := finalEndpoint;
              req_params := otherParams; req_data := VUndefined |}
  | POST =>
      Some {| req_method := "POST"; req_url := finalEndpoint;
              req_params := VUndefined; req_data := otherParams |}
  | PUT =>
      Some {| req_method := "PUT"; req_url := finalEndpoint;
              req_params := VUndefined; req_data := otherParams |}
  | DELETE =>
      Some {| req_method := "DELETE"; req_url := finalEndpoint;
              req_params := otherParams; req_data := VUndefined |}
  | COMPOSITE => None
  end.

(** The response body after the tool's [transformResponse], if it has one. *)
Definition transformed_response (body : value) : Outcome value :=
  match transformResponse config with
  | Some f => f body
  | None => Returned body
  end.

End Dispatch.

(** The MCP error code [MerakiAPIError.toMcpError] gives an HTTP status. *)
Definition code_of_status (statusCode : Z) : ErrorCode :=
  if (statusCode =? 400)%Z then InvalidParams
  else if (statusCode =? 401)%Z then InvalidRequest
  else if (statusCode =? 403)%Z then InvalidRequest
  else if (statusCode =? 404)%Z then MethodNotFound
  else InternalError.

(** The parameters name a time window. *)
Definition has_time_window (params : value) : bool :=
  truthy (get_prop_opt params "timespan")
  || truthy (get_prop_opt params "t0")
  || truthy (get_prop_opt params "t1").

(** The text holds no white space. *)
Definition no_white (s : string) : bool :=
  forallb (fun c => negb (Server.is_white_space c)) (list_ascii_of_string s).

(** A tool name that needs no clean-up: no white space, no run of
    underscores, no underscore at either end. *)
Definition tidy (name : string) : bool :=
  no_white name
  && negb (includes name "__")
  && negb (startsWith name "_")
  && negb (endsWith name "_").

End Spec.

(* ================================================================== *)
(** * Sample data *)
(* ================================================================== *)

Module Examples.

Import ResponseOptimizer.

(** An option set that only bounds arrays, at two items. *)
Definition two_items : OptimizationOptions := {|
  maxArrayLength := Some 2%Z;
  truncateLongStrings := None;
  maxStringLength := None;
  removeNullFields := None;
  compactFormat := None
|}.

(** A list of 51 items, each with a null field. *)
Definition sparse_items : value := VArr (repeat (VObj [("id", VNull)]) 51).

(** What [formatToolResponse] makes of [sparse_items] ... *)
Definition sparse_summary : value :=
  VObj [("totalCount", VNum 51);
        ("firstItems", VArr (repeat (VObj [("id", VNull)]) 5));
        ("summary", VObj [])].

(** ... and of that summary in turn. *)
Definition sparse_summary_again : value :=
  VObj [("totalCount", VNum 51);
        ("firstItems", VArr (repeat (VObj []) 5));
        ("summary", VObj [])].

(** A payload bounded by [BaseTool.applyResponseOptimization]. *)
Definition listed_payload : value :=
  VObj [("data", VArr [VObj [("id", VNum 1); ("note", VNull)]]);
        ("meta", VObj [("total", VNum 3); ("returned", VNum 1);
                       ("truncated", VBool true)])].

(** An option set whose array limit is negative. *)
Definition negative_limit : OptimizationOptions := {|
  maxArrayLength := Some (-1)%Z;
  truncateLongStrings := None;
  maxStringLength := None;
  removeNullFields := None;
  compactFormat := None
|}.

(** Auto-approval is on for everything, and one tool is excluded. *)
Definition all_but_delete : Settings.MerakiMCPSettings := {|
  Settings.autoApprove := Some {|
    Settings.enabled := true;
    Settings.tools := {|
      Settings.all := Some true;
      Settings.patterns := Some ["organization_*"];
      Settings.specific := Some ["organization_delete"];
      Settings.exclude := Some ["organization_delete"] |};
    Settings.readOnlyByDefault := Some true |};
  Settings.responseLimits := None;
  Settings.defaultParams := None
|}.

(** Two patterns and an exact name, all giving [a]. *)
Definition three_sources : Settings.MerakiMCPSettings := {|
  Settings.autoApprove := None;
  Settings.responseLimits := None;
  Settings.defaultParams := Some [
    ("*_list", VObj [("a", VNum 1)]);
    ("network_*", VObj [("a", VNum 2)]);
    ("network_clients_list", VObj [("a", VNum 3)])]
|}.

(** An upstream that gives every request the same response. *)
Definition always (response : AxiosResponse) : Upstream :=
  fun _ _ => Resolved response.

Definition events_request : AxiosRequestConfig := {|
  req_method := "GET";
  req_url := "/networks/N_1/events";
  req_params := VUndefined;
  req_data := VUndefined
|}.

(** A 429 whose retry-after hint is 2 seconds. *)
Definition rate_limited : AxiosResponse := {|
  status := 429;
  data := VObj [("errors", VArr [VStr "API rate limit exceeded"])];
  headers := [("retry-after", "2")]
|}.

Definition unavailable : AxiosResponse := {|
  status := 503;
  data := VNull;
  headers := []
|}.

(** The no-break space, U+00A0. *)
Definition no_break_space : string := String (ascii_of_nat 160) EmptyString.

(** A 429 whose hint is a number of seconds that is not a double. *)
Definition rate_limited_for_long : AxiosResponse := {|
  status := 429;
  data := VNull;
  headers := [("retry-after", "9007199254740993")]
|}.

(** A 429 whose body holds its message as a text, not as a list. *)
Definition slow_down : AxiosResponse := {|
  status := 429;
  data := VObj [("errors", VStr "slow down")];
  headers := [("retry-after", "2")]
|}.

(** A 400 of the same make. *)
Definition bad_request_text : AxiosResponse := {|
  status := 400;
  data := VObj [("errors", VStr "networkId is invalid")];
  headers := []
|}.

(** A parser for [z.object({ networkId: z.string(), clientId: z.string() })]. *)
Definition string_field_issue (params : value) (field : string) : list BaseTool.ZodIssue :=
  match get_prop_opt params field with
  | VStr _ => []
  | VUndefined => [{| BaseTool.path := [field]; BaseTool.message := "Required" |}]
  | _ => [{| BaseTool.path := [field]; BaseTool.message := "Expected string" |}]
  end.

Definition client_get_parser (params : value) : BaseTool.SafeParseReturn :=
  match string_field_issue params "networkId" ++ string_field_issue params "clientId" with
  | [] =>
      BaseTool.ParseSuccess
        (VObj [("networkId", get_prop_opt params "networkId");
               ("clientId", get_prop_opt params "clientId")])
  | issues => BaseTool.ParseFailure issues
  end.

(** The descriptor of [network_client_get]. *)
Definition network_client_get : BaseTool.ToolConfig := {|
  BaseTool.name := "network_client_get";
  BaseTool.description := "Get detailed information about a specific client";
  BaseTool.method := BaseTool.GET;
  BaseTool.endpoint :=
    Some (BaseTool.EndpointFunction
            (fun params =>
               Returned ("/networks/" ++ ToString (get_prop_opt params "networkId")
                         ++ "/clients/" ++ ToString (get_prop_opt params "clientId"))%string));
  BaseTool.inputSchema := {|
    BaseTool.shape :=
      [("networkId", BaseTool.Zod "ZodString" None false);
       ("clientId", BaseTool.Zod "ZodString" None false)];
    BaseTool.safeParseAsync := client_get_parser |};
  BaseTool.requiredParams := Some ["networkId"; "clientId"];
  BaseTool.transformParams := None;
  BaseTool.transformResponse := None;
  BaseTool.customExecutor := None
|}.

Definition network (id name_ : string) : value :=
  VObj [("id", VStr id); ("name", VStr name_)].

Definition event (occurredAt : Z) (type : string) : value :=
  VObj [("occurredAt", VNum occurredAt); ("type", VStr type)].

Definition tagged_event (occurredAt : Z) (type id name_ : string) : value :=
  VObj [("occurredAt", VNum occurredAt); ("type", VStr type);
        ("networkId", VStr id); ("networkName", VStr name_)].

Definition five_networks : list value :=
  [network "N_1" "Lab"; network "N_2" "HQ"; network "N_3" "Depot";
   network "N_4" "Store"; network "N_5" "Plant"].

Definition ok (body : value) : Reply :=
  Resolved {| status := 200; data := body; headers := [] |}.

(** The organization has five networks.  [N_1] has no appliance (400),
    the call for [N_3] times out, the three others return one, two and
    three events. *)
Definition five_networks_upstream : Upstream :=
  fun _ config =>
    let url := req_url config in
    if url =? "/organizations/org_1/networks" then ok (VArr five_networks)
    else if url =? "/networks/N_1/events" then
      Resolved {| status := 400;
                  data := VObj [("errors", VArr [VStr "productType is not applicable to this network"])];
                  headers := [] |}
    else if url =? "/networks/N_2/events" then
      ok (VObj [("events", VArr [event 50 "ids_alerted"])])
    else if url =? "/networks/N_3/events" then
      Failed "AxiosError" (Some "ECONNABORTED") "timeout of 30000ms exceeded"
    else if url =? "/networks/N_4/events" then
      ok (VObj [("events", VArr [event 20 "malware_blocked"; event 60 "firewall_blocked"])])
    else if url =? "/networks/N_5/events" then
      ok (VObj [("events", VArr [event 10 "amp_blocked"; event 40 "security_event";
                                 event 30 "ids_alerted"])])
    else Resolved {| status := 404; data := VNull; headers := [] |}.

Definition org_1_params : value := VObj [("organizationId", VStr "org_1")].

(** A parser for the schema of [organization_security_events], on
    parameters that name the organization only. *)
Definition organization_parser (params : value) : BaseTool.SafeParseReturn :=
  match string_field_issue params "organizationId" with
  | [] => BaseTool.ParseSuccess (VObj [("organizationId", get_prop_opt params "organizationId")])
  | issues => BaseTool.ParseFailure issues
  end.

Definition networks_request : AxiosRequestConfig := {|
  req_method := "GET";
  req_url := "/organizations/org_1/networks";
  req_params := VUndefined;
  req_data := VUndefined
|}.

(** A payload with a null field, a long string and three items. *)
Definition verbose_payload : value :=
  VObj [("items", VArr [VObj [("id", VNum 1); ("note", VNull)]; VNum 2; VNum 3]);
        ("notes", VStr "abcdefgh");
        ("owner", VNull)].

(** An option set that keeps two items and five characters. *)
Definition terse : OptimizationOptions := {|
  maxArrayLength := Some 2%Z;
  truncateLongStrings := Some true;
  maxStringLength := Some 5%Z;
  removeNullFields := Some true;
  compactFormat := None
|}.

(** A list of 31 items, each with a null field. *)
Definition medium_items : list value := repeat (VObj [("id", VNull)]) 31.

(** A list of 51 items: a client, then fifty holes. *)
Definition holed_items : list value :=
  VObj [("mac", VStr "00:11:22:33:44:55")] :: repeat VNull 50.

(** An upstream that is rate limited until the client has waited once. *)
Definition recovering (body : value) : Upstream :=
  fun history _ =>
    if existsb (fun e => match e with Slept _ => true | Sent _ => false end) history
    then ok body
    else Resolved rate_limited.

(** An upstream that never answers in time. *)
Definition timing_out : Upstream :=
  fun _ _ => Failed "AxiosError" (Some "ECONNABORTED") "timeout of 30000ms exceeded".

(** A 400 whose body holds its errors as one string. *)
Definition malformed : AxiosResponse := {|
  status := 400;
  data := VObj [("errors", VStr "Invalid network")];
  headers := []
|}.

Definition not_found : AxiosResponse := {|
  status := 404;
  data := VNull;
  headers := []
|}.

Definition client_params : value :=
  VObj [("networkId", VStr "N_1"); ("clientId", VStr "k74272e")].

Definition client_request : AxiosRequestConfig := {|
  req_method := "GET";
  req_url := "/networks/N_1/clients/k74272e";
  req_params := client_params;
  req_data := VUndefined
|}.

Definition client_body : value :=
  VObj [("id", VStr "k74272e"); ("description", VStr "printer")].

(** A parser for [z.object({ serial: z.string().optional() })]. *)
Definition optional_serial_parser (params : value) : BaseTool.SafeParseReturn :=
  match get_prop_opt params "serial" with
  | VUndefined => BaseTool.ParseSuccess (VObj [])
  | VStr serial => BaseTool.ParseSuccess (VObj [("serial", VStr serial)])
  | _ => BaseTool.ParseFailure
           [{| BaseTool.path := ["serial"]; BaseTool.message := "Expected string" |}]
  end.

(** A descriptor whose schema leaves [serial] optional while its
    [requiredParams] lists it. *)
Definition device_lookup : BaseTool.ToolConfig := {|
  BaseTool.name := "device_lookup";
  BaseTool.description := "Look a device up by serial";
  BaseTool.method := BaseTool.GET;
  BaseTool.endpoint := Some (BaseTool.EndpointString "/devices");
  BaseTool.inputSchema := {|
    BaseTool.shape :=
      [("serial",
        BaseTool.Zod "ZodOptional" (Some (BaseTool.Zod "ZodString" None false)) false)];
    BaseTool.safeParseAsync := optional_serial_parser |};
  BaseTool.requiredParams := Some ["serial"];
  BaseTool.transformParams := None;
  BaseTool.transformResponse := None;
  BaseTool.customExecutor := None
|}.

(** A parser for [z.object({})], which strips every field. *)
Definition empty_object_parser (params : value) : BaseTool.SafeParseReturn :=
  match params with
  | VObj _ => BaseTool.ParseSuccess (VObj [])
  | _ => BaseTool.ParseFailure
           [{| BaseTool.path := []; BaseTool.message := "Expected object" |}]
  end.

(** The descriptor of [organization_list]. *)
Definition organization_list : BaseTool.ToolConfig := {|
  BaseTool.name := "organization_list";
  BaseTool.description := "List the organizations that the user has privileges on";
  BaseTool.method := BaseTool.GET;
  BaseTool.endpoint := Some (BaseTool.EndpointString "/organizations");
  BaseTool.inputSchema := {|
    BaseTool.shape := [];
    BaseTool.safeParseAsync := empty_object_parser |};
  BaseTool.requiredParams := None;
  BaseTool.transformParams := None;
  BaseTool.transformResponse := None;
  BaseTool.customExecutor := None
|}.

(** Settings whose default-parameter table has a key that is no regular
    expression once translated. *)
Definition broken_defaults : Settings.MerakiMCPSettings := {|
  Settings.autoApprove := None;
  Settings.responseLimits := None;
  Settings.defaultParams := Some [
    ("*_list", VObj [("perPage", VNum 25)]);
    ("network_(", VObj [("perPage", VNum 10)])]
|}.

(** Settings that keep two items of a list. *)
Definition two_per_list : Settings.MerakiMCPSettings := {|
  Settings.autoApprove := None;
  Settings.responseLimits := Some {|
    Settings.maxArrayLength := 2;
    Settings.maxResponseSize := 30000;
    Settings.summarizeArrays := true;
    Settings.truncateLongStrings := None;
    Settings.maxStringLength := None |};
  Settings.defaultParams := None
|}.

(** The organization has two networks, neither with an appliance. *)
Definition no_appliance_upstream : Upstream :=
  fun _ config =>
    if req_url config =? "/organizations/org_1/networks"
    then ok (VArr [network "N_1" "Lab"; network "N_2" "HQ"])
    else Resolved {| status := 400;
                     data := VObj [("errors",
                                    VArr [VStr "productType is not applicable to this network"])];
                     headers := [] |}.

(** Part of the default settings as a settings file would give them, and
    a settings file that changes one limit. *)
Definition default_limits : object :=
  [("responseLimits",
    VObj [("maxArrayLength", VNum 50); ("summarizeArrays", VBool true)]);
   ("defaultParams", VObj [("*_list", VObj [("perPage", VNum 25)])])].

Definition user_limits : object :=
  [("responseLimits", VObj [("maxArrayLength", VNum 10)])].

(** Auto-approval by pattern alone: the lists of an organization, the
    list of its administrators apart. *)
Definition organization_lists_policy : Settings.AutoApproveSettings := {|
  Settings.enabled := true;
  Settings.tools := {|
    Settings.all := Some false;
    Settings.patterns := Some ["organization_*_list"];
    Settings.specific := Some [];
    Settings.exclude := Some ["organization_admins_list"] |};
  Settings.readOnlyByDefault := Some false
|}.

Definition organization_lists_only : Settings.MerakiMCPSettings := {|
  Settings.autoApprove := Some organization_lists_policy;
  Settings.responseLimits := None;
  Settings.defaultParams := None
|}.

(** Three tools, each registered by the module of its category. *)
Definition sample_registry : Server.Registry := {|
  Server.organizationTools := [organization_list];
  Server.networkTools := [network_client_get];
  Server.deviceTools := [device_lookup];
  Server.applianceTools := [];
  Server.switchTools := [];
  Server.wirelessTools := [];
  Server.cameraTools := [];
  Server.systemsManagerTools := []
|}.

(** [error.message] of an [McpError] as the MCP SDK builds it, with the
    JSON-RPC number of the code. *)
Definition sdk_message (code : ErrorCode) (message : string) : string :=
  "MCP error "
  ++ decimal (match code with
              | InvalidRequest => -32600
              | MethodNotFound => -32601
              | InvalidParams => -32602
              | InternalError => -32603
              end)
  ++ ": " ++ message.

End Examples.

(* ================================================================== *)
(** * Properties *)
(* ================================================================== *)

Import ResponseOptimizer.
Import Spec Examples.

(** ** Objects *)

Section ObjectFacts.

Lemma obj_set_keys_fresh (k : string) (v : value) (o : object) :
  ~ In k (keys o) -> obj_set k v o = o ++ [(k, v)].
Proof.
  induction o as [|[k' v'] o IH]; simpl; intros Hfresh.
  - reflexivity.
  - destruct (String.eqb_spec k' k) as [->|Hne].
    + exfalso. apply Hfresh. now left.
    + rewrite IH; [reflexivity|]. intros Hin. apply Hfresh. now right.
Qed.

Lemma obj_set_keys (k : string) (v : value) (o : object) :
  keys (obj_set k v o) = if existsb (String.eqb k) (keys o) then keys o else keys o ++ [k].
Proof.
  induction o as [|[k' v'] o IH]; simpl.
  - reflexivity.
  - rewrite (String.eqb_sym k k').
    destruct (String.eqb_spec k' k) as [->|Hne]; simpl.
    + reflexivity.
    + rewrite IH. now destruct (existsb (String.eqb k) (keys o)).
Qed.

Lemma existsb_eqb_In (k : string) (l : list string) :
  existsb (String.eqb k) l = true <-> In k l.
Proof.
  rewrite existsb_exists. split.
  - intros [x [Hin Heq]]. apply String.eqb_eq in Heq. now subst.
  - intros Hin. exists k. split; [assumption|apply String.eqb_refl].
Qed.

Lemma obj_set_NoDup (k : string) (v : value) (o : object) :
  NoDup (keys o) -> NoDup (keys (obj_set k v o)).
Proof.
  intros Hnd. rewrite obj_set_keys.
  destruct (existsb (String.eqb k) (keys o)) eqn:E; [assumption|].
  apply NoDup_app; [assumption|repeat constructor; intros []|].
  intros x Hx [<-|[]].
  apply existsb_eqb_In in Hx. congruence.
Qed.

Lemma obj_set_Forall (P : string * value -> Prop) (k : string) (v : value) (o : object) :
  P (k, v) -> Forall P o -> Forall P (obj_set k v o).
Proof.
  intros Hkv. induction 1 as [|[k' v'] o Hx Ho IH]; simpl.
  - now repeat constructor.
  - destruct (k' =? k); constructor; assumption.
Qed.

Lemma obj_get_set (k k' : string) (v : value) (o : object) :
  obj_get k' (obj_set k v o) = if k =? k' then Some v else obj_get k' o.
Proof.
  induction o as [|[k0 v0] o IH]; simpl.
  - reflexivity.
  - destruct (String.eqb_spec k0 k) as [->|Hne]; simpl.
    + now destruct (k =? k').
    + rewrite IH. destruct (String.eqb_spec k0 k') as [->|Hne'].
      * destruct (String.eqb_spec k k'); [congruence|reflexivity].
      * reflexivity.
Qed.

(** [Object.assign]: a key of the source takes the source's value, any
    other key keeps the target's. *)
Lemma obj_get_assign (k : string) (source target : object) :
  NoDup (keys source) ->
  obj_get k (obj_assign target source) =
    match obj_get k source with
    | Some v => Some v
    | None => obj_get k target
    end.
Proof.
  unfold obj_assign. revert target.
  induction source as [|[k0 v0] source IH]; simpl; intros target Hnd.
  - reflexivity.
  - inversion Hnd as [|? ? Hfresh Hnd']; subst.
    rewrite IH by assumption. rewrite obj_get_set. simpl.
    destruct (String.eqb_spec k0 k) as [->|Hne]; [|reflexivity].
    destruct (obj_get k source) eqn:Eget; [|reflexivity].
    exfalso. apply Hfresh. clear -Eget.
    induction source as [|[k1 v1] source IH]; simpl in *; [discriminate|].
    destruct (String.eqb_spec k1 k); [now left|right; auto].
Qed.

Lemma obj_assign_nil (target : object) : obj_assign target [] = target.
Proof. reflexivity. Qed.

End ObjectFacts.

(** ** Arrays and strings *)

Section SliceFacts.

Lemma slice0_map {A B} (f : A -> B) (e : Z) (l : list A) :
  slice0 e (map f l) = map f (slice0 e l).
Proof. unfold slice0. rewrite length_map. now destruct (e <? 0)%Z; rewrite firstn_map. Qed.

Lemma slice0_opt_map {A B} (f : A -> B) (e : option Z) (l : list A) :
  slice0_opt e (map f l) = map f (slice0_opt e l).
Proof. destruct e; simpl; [apply slice0_map|reflexivity]. Qed.

Lemma slice0_nonneg {A} (e : Z) (l : list A) :
  (0 <= e)%Z -> slice0 e l = firstn (Z.to_nat e) l.
Proof. intros He. unfold slice0. destruct (Z.ltb_spec e 0); [lia|reflexivity]. Qed.

Lemma slice0_all {A} (e : Z) (l : list A) :
  (arrlen l <= e)%Z -> slice0 e l = l.
Proof.
  intros He. unfold arrlen in He. rewrite slice0_nonneg by lia.
  apply firstn_all2. lia.
Qed.

Lemma arrlen_slice0 {A} (e : Z) (l : list A) :
  (0 <= e <= arrlen l)%Z -> arrlen (slice0 e l) = e.
Proof.
  intros He. unfold arrlen in *. rewrite slice0_nonneg by lia.
  rewrite length_firstn. lia.
Qed.

Lemma substring0_length (n : nat) (s : string) :
  (n <= String.length s)%nat -> String.length (String.substring 0 n s) = n.
Proof.
  revert s. induction n as [|n IH]; intros [|c s]; simpl; intros Hn;
    try reflexivity; try lia.
  rewrite IH; [reflexivity|lia].
Qed.

Lemma substring0_app (n : nat) (s t : string) :
  (n <= String.length s)%nat ->
  String.substring 0 n (String.substring 0 n s ++ t) = String.substring 0 n s.
Proof.
  revert s. induction n as [|n IH]; intros [|c s]; simpl; intros Hn; try lia.
  - now destruct t.
  - now destruct t.
  - rewrite IH; [reflexivity|lia].
Qed.

Lemma string_length_app (s t : string) :
  String.length (s ++ t) = (String.length s + String.length t)%nat.
Proof. induction s as [|c s IH]; simpl; [reflexivity|now rewrite IH]. Qed.

End SliceFacts.

(** ** optimizeResponse *)

Section OptimizeResponse.
Variable options : OptimizationOptions.

Abbreviation optimize := (optimizeResponse options).
Abbreviation optimize_entries := (Spec.optimize_entries options).
Abbreviation settled := (Spec.settled options).
Abbreviation limit_is_length := (Spec.limit_is_length options).

(** The array case as the source writes it: slice, then map. *)
Lemma optimizeResponse_array (items : list value) :
  optimize (VArr items) =
    let optimized := map optimize (slice0_opt (maxArrayLength options) items) in
    if gt_opt (arrlen items) (maxArrayLength options)
    then VObj [("data", VArr optimized);
               ("_meta", truncation_meta (arrlen items) (arrlen optimized))]
    else VArr optimized.
Proof. simpl. now rewrite slice0_opt_map. Qed.

Lemma optimizeResponse_object (fields : object) :
  optimize (VObj fields) = VObj (optimize_entries fields []).
Proof. reflexivity. Qed.

Lemma nullish_optimizeResponse (v : value) : nullish (optimize v) = nullish v.
Proof.
  destruct v; try reflexivity.
  - simpl. now destruct (_ && _).
  - rewrite optimizeResponse_array. simpl.
    now destruct (gt_opt _ _).
Qed.

Lemma optimize_entries_settled (fields optimized : object) :
  Forall (fun kv => optimize (optimize (snd kv)) = optimize (snd kv)) fields ->
  Forall settled optimized -> NoDup (keys optimized) ->
  Forall settled (optimize_entries fields optimized)
  /\ NoDup (keys (optimize_entries fields optimized)).
Proof.
  intros Hfields. revert optimized.
  induction Hfields as [|[k v] fields Hv _ IH]; simpl; intros optimized Hs Hnd.
  - now split.
  - apply IH; unfold optimize_entry; simpl in *;
      destruct (flag (removeNullFields options) && nullish v) eqn:Eskip; try assumption.
    + apply obj_set_Forall; [|assumption].
      split; simpl; [|assumption].
      now rewrite nullish_optimizeResponse.
    + now apply obj_set_NoDup.
Qed.

Lemma optimize_entries_fixed (fields optimized : object) :
  Forall settled fields -> NoDup (keys optimized ++ keys fields) ->
  optimize_entries fields optimized = optimized ++ fields.
Proof.
  intros Hs. revert optimized.
  induction Hs as [|[k v] fields [Hkeep Hfix] _ IH]; simpl; intros optimized Hnd.
  - now rewrite app_nil_r.
  - unfold optimize_entry. simpl in *. rewrite Hkeep, Hfix.
    rewrite obj_set_keys_fresh.
    + rewrite IH.
      * now rewrite <- app_assoc.
      * unfold keys in *. rewrite map_app. simpl. now rewrite <- app_assoc.
    + apply NoDup_remove_2 in Hnd. intros Hin. apply Hnd.
      apply in_or_app. now left.
Qed.

Lemma truncation_meta_fixed (total returned : Z) :
  optimize (truncation_meta total returned) = truncation_meta total returned.
Proof.
  unfold truncation_meta. simpl. unfold optimize_entry. simpl.
  now rewrite !andb_false_r.
Qed.

Lemma optimizeResponse_truncated (kept : list value) (total returned : Z) :
  optimize (VObj [("data", VArr kept); ("_meta", truncation_meta total returned)]) =
    VObj [("data", optimize (VArr kept)); ("_meta", truncation_meta total returned)].
Proof.
  rewrite optimizeResponse_object. unfold optimize_entries.
  cbn [fold_left fst snd]. unfold optimize_entry.
  rewrite truncation_meta_fixed.
  destruct (optimize (VArr kept)) eqn:E;
    unfold truncation_meta; cbn [nullish]; rewrite !andb_false_r; reflexivity.
Qed.

Lemma optimizeResponse_idempotent (data : value) :
  limit_is_length -> optimize (optimize data) = optimize data.
Proof.
  intros Hlimit.
  induction data as [| |b|n|s|items IH|fields IH] using value_ind; try reflexivity.
  - (* strings *)
    simpl. destruct (flag (truncateLongStrings options)) eqn:Etrunc; simpl;
      [|now rewrite Etrunc].
    destruct (maxStringLength options) as [L|] eqn:EL; simpl;
      [|now rewrite Etrunc, EL].
    destruct (Z.ltb_spec L (strlen s)) as [Hlong|Hshort]; simpl;
      rewrite Etrunc, EL; simpl.
    + unfold strlen, substring0 in *.
      assert (Hn : (Z.to_nat L <= String.length s)%nat) by lia.
      pose proof (substring0_length _ _ Hn) as Hlen.
      rewrite string_length_app, Hlen. simpl String.length.
      destruct (Z.ltb_spec L (Z.of_nat (Z.to_nat L + 15))) as [_|Hbad]; [|lia].
      now rewrite substring0_app.
    + destruct (Z.ltb_spec L (strlen s)); [lia|reflexivity].
  - (* arrays *)
    assert (Hmap : map optimize (map optimize items) = map optimize items).
    { rewrite map_map. apply map_ext_Forall. exact IH. }
    rewrite optimizeResponse_array. cbv zeta.
    destruct (maxArrayLength options) as [M|] eqn:EM; simpl slice0_opt; simpl gt_opt.
    + specialize (Hlimit M EM).
      destruct (Z.ltb_spec M (arrlen items)) as [Hlong|Hshort].
      * rewrite optimizeResponse_truncated.
        rewrite optimizeResponse_array, EM. cbv zeta. simpl slice0_opt; simpl gt_opt.
        set (kept := map optimize (slice0 M items)).
        assert (Hkept : arrlen kept = M).
        { subst kept. unfold arrlen. rewrite length_map.
          apply (arrlen_slice0 M items). lia. }
        rewrite Hkept, Z.ltb_irrefl.
        rewrite (slice0_all M kept) by lia.
        subst kept. rewrite <- slice0_map, <- slice0_map, Hmap. reflexivity.
      * rewrite (slice0_all M items) by lia.
        rewrite optimizeResponse_array, EM. cbv zeta. simpl slice0_opt; simpl gt_opt.
        unfold arrlen at 1. rewrite length_map. fold (arrlen items).
        destruct (Z.ltb_spec M (arrlen items)); [lia|].
        rewrite slice0_all by (unfold arrlen in *; rewrite length_map; lia).
        now rewrite Hmap.
    + cbv iota. rewrite optimizeResponse_array, EM. simpl. now rewrite Hmap.
  - (* objects *)
    rewrite !optimizeResponse_object. f_equal.
    destruct (optimize_entries_settled fields [] IH) as [Hs Hnd];
      [constructor|constructor|].
    now rewrite optimize_entries_fixed.
Qed.

End OptimizeResponse.

(** ** Structural bounding of arrays (C2) *)

(** C2 (amended): with a configured maximum [M >= 0], an array longer than
    [M] becomes [{data, _meta}] where [data] holds the first [M] items, each
    optimized recursively, and [_meta] is
    [{totalCount = original length, returnedCount = M, truncated = true}];
    an array of length at most [M] becomes the array of its recursively
    optimized items, with no metadata, and is returned unchanged when every
    item is already a fixed point of [optimizeResponse]. *)
Theorem optimizeResponse_array_bounding
    (options : OptimizationOptions) (M : Z) (items : list value) :
  maxArrayLength options = Some M -> (0 <= M)%Z ->
  ((M < arrlen items)%Z ->
     optimizeResponse options (VArr items) =
       VObj [("data",
              VArr (map (optimizeResponse options) (firstn (Z.to_nat M) items)));
             ("_meta",
              VObj [("totalCount", VNum (arrlen items));
                    ("returnedCount", VNum M);
                    ("truncated", VBool true)])]
     /\ arrlen (map (optimizeResponse options) (firstn (Z.to_nat M) items)) = M)
  /\ ((arrlen items <= M)%Z ->
     optimizeResponse options (VArr items) = VArr (map (optimizeResponse options) items)
     /\ (Forall (fun item => optimizeResponse options item = item) items ->
         optimizeResponse options (VArr items) = VArr items)).
Proof.
  intros HM Hpos. rewrite optimizeResponse_array, HM. cbv zeta.
  simpl slice0_opt. simpl gt_opt. split.
  - intros Hlong.
    assert (Hlen : arrlen (map (optimizeResponse options) (slice0 M items)) = M).
    { unfold arrlen. rewrite length_map. apply (arrlen_slice0 M items). lia. }
    destruct (Z.ltb_spec M (arrlen items)) as [_|Hbad]; [|lia].
    rewrite Hlen. rewrite slice0_nonneg in * by assumption.
    split; [reflexivity|assumption].
  - intros Hshort.
    destruct (Z.ltb_spec M (arrlen items)) as [Hbad|_]; [lia|].
    rewrite slice0_all by assumption.
    split; [reflexivity|].
    intros Hfixed. f_equal.
    rewrite <- (map_id items) at 2. now apply map_ext_Forall.
Qed.

Lemma optimizeResponse_array_bounding_witness :
  optimizeResponse two_items (VArr [VNum 1; VNum 2; VNum 3]) =
    VObj [("data", VArr [VNum 1; VNum 2]);
          ("_meta", VObj [("totalCount", VNum 3); ("returnedCount", VNum 2);
                          ("truncated", VBool true)])]
  /\ optimizeResponse two_items (VArr [VNum 1; VNum 2]) = VArr [VNum 1; VNum 2].
Proof.
  split.
  - apply (optimizeResponse_array_bounding two_items 2 [VNum 1; VNum 2; VNum 3]);
      [reflexivity | lia | reflexivity].
  - apply (optimizeResponse_array_bounding two_items 2 [VNum 1; VNum 2]);
      [reflexivity | lia | unfold arrlen; simpl; lia | repeat constructor].
Defined.

(** C2, as stated, fails: the items that are kept are themselves optimized,
    so neither the truncated prefix nor a short array is returned verbatim;
    and a negative limit is read by [slice] as a count from the end, so
    that [returnedCount] is not the limit. *)
Lemma optimizeResponse_array_items_not_verbatim :
  (arrlen [VObj [("id", VNum 1); ("note", VNull)]] <= 100)%Z
  /\ optimizeResponse DEFAULT_OPTIONS (VArr [VObj [("id", VNum 1); ("note", VNull)]])
     = VArr [VObj [("id", VNum 1)]]
  /\ VArr [VObj [("id", VNum 1)]] <> VArr [VObj [("id", VNum 1); ("note", VNull)]]
  /\ optimizeResponse
       {| maxArrayLength := Some 1%Z; truncateLongStrings := Some true;
          maxStringLength := Some 500%Z; removeNullFields := Some true;
          compactFormat := Some true |}
       (VArr [VObj [("id", VNum 1); ("note", VNull)]; VObj [("id", VNum 2)]])
     = VObj [("data", VArr [VObj [("id", VNum 1)]]);
             ("_meta", VObj [("totalCount", VNum 2); ("returnedCount", VNum 1);
                             ("truncated", VBool true)])]
  /\ [VObj [("id", VNum 1)]] <> firstn 1 [VObj [("id", VNum 1); ("note", VNull)];
                                           VObj [("id", VNum 2)]]
  /\ optimizeResponse negative_limit (VArr [VNum 1; VNum 2; VNum 3])
     = VObj [("data", VArr [VNum 1; VNum 2]);
             ("_meta", VObj [("totalCount", VNum 3); ("returnedCount", VNum 2);
                             ("truncated", VBool true)])].
Proof.
  repeat split; try reflexivity; try discriminate.
Qed.

(** ** Idempotence of bounding (C3) *)

(** C3 (amended): [optimizeResponse] is idempotent for every input and every
    option set whose [maxArrayLength] is absent or non-negative; the payload
    it makes of a truncated array passes the guard of [formatToolResponse];
    and [formatToolResponse] hands every payload that passes the guard (an
    object with a truthy [meta], [_meta] or [_summary]) to [JSON.stringify]
    as it is. *)
Theorem bounding_idempotent
    (options : OptimizationOptions) (data : value) (toolName : string) :
  limit_is_length options ->
  optimizeResponse options (optimizeResponse options data) = optimizeResponse options data
  /\ (forall items M,
        data = VArr items -> maxArrayLength options = Some M -> (M < arrlen items)%Z ->
        already_optimized (optimizeResponse options data) = true)
  /\ (already_optimized data = true ->
      formatToolResponse_payload data toolName = Some data).
Proof.
  intros Hlimit. split; [|split].
  - now apply optimizeResponse_idempotent.
  - intros items M -> HM Hlong.
    rewrite optimizeResponse_array, HM. cbv zeta. simpl gt_opt.
    destruct (Z.ltb_spec M (arrlen items)) as [_|Hbad]; [|lia].
    reflexivity.
  - intros Hguard. unfold formatToolResponse_payload. now rewrite Hguard.
Qed.

Lemma bounding_idempotent_witness :
  optimizeResponse two_items
    (optimizeResponse two_items (VArr [VNum 1; VNum 2; VNum 3]))
  = optimizeResponse two_items (VArr [VNum 1; VNum 2; VNum 3])
  /\ formatToolResponse_payload listed_payload "network_clients_list" = Some listed_payload.
Proof.
  assert (Hlimit : limit_is_length two_items).
  { intros M HM. injection HM as <-. lia. }
  split.
  - apply (bounding_idempotent two_items (VArr [VNum 1; VNum 2; VNum 3]) "" Hlimit).
  - apply (bounding_idempotent two_items listed_payload "network_clients_list" Hlimit).
    reflexivity.
Defined.

(** C3, as stated, fails in three ways.  The summary that
    [formatToolResponse] makes of a long list carries none of the fields its
    guard looks for, so a second call bounds it again; [optimizeResponse]
    has no guard at all and rewrites a payload that carries [meta]; and with
    a negative array limit [optimizeResponse] is not idempotent. *)
Lemma bounding_applied_again :
  (formatToolResponse_payload sparse_items "organization_admins_list" = Some sparse_summary
   /\ formatToolResponse_payload sparse_summary "organization_admins_list"
      = Some sparse_summary_again
   /\ sparse_summary_again <> sparse_summary)
  /\ (already_optimized listed_payload = true
      /\ optimizeResponse DEFAULT_OPTIONS listed_payload <> listed_payload)
  /\ (optimizeResponse negative_limit (VArr [VNum 1; VNum 2; VNum 3])
      = VObj [("data", VArr [VNum 1; VNum 2]);
              ("_meta", truncation_meta 3 2)]
      /\ optimizeResponse negative_limit
           (optimizeResponse negative_limit (VArr [VNum 1; VNum 2; VNum 3]))
         = VObj [("data", VObj [("data", VArr [VNum 1]); ("_meta", truncation_meta 2 1)]);
                 ("_meta", truncation_meta 3 2)]).
Proof.
  repeat split; try reflexivity; vm_compute; discriminate.
Qed.

(** ** The policy matcher (C7, C8, C10) *)

Section Policy.
Import Settings.
Context `{Host}.

(** C7: a tool named in the exclude list is never auto-approved, whatever
    the [all] flag, the [specific] list, the pattern list and the read-only
    toggle say: [shouldAutoApprove] returns [false]. *)
Theorem exclude_list_overrides
    (settings : MerakiMCPSettings) (aa : AutoApproveSettings)
    (excluded : list string) (toolName : string) :
  autoApprove settings = Some aa ->
  exclude (tools aa) = Some excluded ->
  In toolName excluded ->
  shouldAutoApprove settings toolName = Some false.
Proof.
  intros Haa Hex Hin. unfold shouldAutoApprove. rewrite Haa.
  destruct (enabled aa); simpl; [|reflexivity].
  assert (Hhit : includes_name (exclude (tools aa)) toolName = true).
  { rewrite Hex. simpl. now apply existsb_eqb_In. }
  now rewrite Hhit.
Qed.

(** C10: while [autoApprove.enabled] is false (or [autoApprove] is absent)
    no tool is auto-approved: [shouldAutoApprove] returns [false] for every
    name, listed, matching a pattern, or read-only by its name. *)
Theorem disabled_approves_nothing
    (settings : MerakiMCPSettings) (toolName : string) :
  (forall aa, autoApprove settings = Some aa -> enabled aa = false) ->
  shouldAutoApprove settings toolName = Some false.
Proof.
  intros Hoff. unfold shouldAutoApprove.
  destruct (autoApprove settings) as [aa|] eqn:Haa; [|reflexivity].
  rewrite (Hoff aa eq_refl). reflexivity.
Qed.

(** *** Default parameters *)

Lemma last_binding_app (k : string) (earlier later : list object) :
  last_binding k (earlier ++ later) =
    match last_binding k later with
    | Some v => Some v
    | None => last_binding k earlier
    end.
Proof.
  induction earlier as [|source earlier IH]; simpl.
  - now destruct (last_binding k later).
  - rewrite IH. now destruct (last_binding k later).
Qed.

Lemma obj_get_assign_all (k : string) (sources : list object) (defaults : object) :
  Forall (fun source => NoDup (keys source)) sources ->
  obj_get k (fold_left obj_assign sources defaults) =
    match last_binding k sources with
    | Some v => Some v
    | None => obj_get k defaults
    end.
Proof.
  intros Hwf. revert defaults.
  induction Hwf as [|source sources Hsource _ IH]; simpl; intros defaults.
  - reflexivity.
  - rewrite IH, obj_get_assign by assumption.
    now destruct (last_binding k sources).
Qed.

Lemma apply_pattern_defaults_fold
    (matching : string -> bool) (toolName : string) (entries defaults : object) :
  (forall pattern params, In (pattern, params) entries ->
     matchesPattern toolName pattern = Some (matching pattern)) ->
  apply_pattern_defaults toolName entries defaults =
    Some (fold_left obj_assign
            (map (fun entry => spread (snd entry))
                 (filter (fun entry => matching (fst entry)) entries))
            defaults).
Proof.
  revert defaults.
  induction entries as [|[pattern params] entries IH]; simpl; intros defaults Hcompile.
  - reflexivity.
  - rewrite (Hcompile pattern params) by now left.
    destruct (matching pattern); simpl; apply IH;
      intros p q Hin; apply (Hcompile p q); now right.
Qed.

Lemma spread_falsy (v : value) : truthy v = false -> spread v = [].
Proof.
  destruct v as [| |b|n|s|items|fields]; simpl; try reflexivity; try discriminate.
  destruct s; [reflexivity|discriminate].
Qed.

(** C8: [getDefaultParams] resolves every key to the value given by the
    last source that has it, the sources being the objects of the matching
    patterns in declaration order followed by the object filed under the
    exact tool name; so a key of the exact-name object always resolves to
    the exact-name value, whatever the matching patterns give it. *)
Theorem default_params_resolution
    (settings : MerakiMCPSettings) (table : object) (toolName : string)
    (matching : string -> bool) :
  defaultParams settings = Some table ->
  (forall pattern params, In (pattern, params) table ->
     matchesPattern toolName pattern = Some (matching pattern)) ->
  Forall (fun entry => NoDup (keys (spread (snd entry)))) table ->
  exists defaults,
    getDefaultParams settings toolName = Some defaults
    /\ (forall k,
          obj_get k defaults = last_binding k (default_sources matching table toolName))
    /\ (forall exact k v,
          obj_get toolName table = Some exact ->
          obj_get k (spread exact) = Some v ->
          obj_get k defaults = Some v).
Proof.
  intros Htable Hcompile Hwf.
  assert (Hsources :
    Forall (fun source => NoDup (keys source))
      (map (fun entry => spread (snd entry))
           (filter (fun entry => matching (fst entry)) table))).
  { apply Forall_map. apply Forall_forall. intros entry Hin.
    apply filter_In in Hin. destruct Hin as [Hin _].
    rewrite Forall_forall in Hwf. now apply Hwf. }
  assert (Hexact : forall exact, obj_get toolName table = Some exact ->
                                 NoDup (keys (spread exact))).
  { intros exact Hget. rewrite Forall_forall in Hwf.
    clear -Hget Hwf. induction table as [|[k0 v0] table IH]; simpl in *; [discriminate|].
    destruct (k0 =? toolName).
    - injection Hget as <-. apply (Hwf (k0, v0)). now left.
    - apply IH; try assumption. intros entry Hin. apply Hwf. now right. }
  set (patterned := fold_left obj_assign
         (map (fun entry => spread (snd entry))
              (filter (fun entry => matching (fst entry)) table)) []).
  assert (Hcode : getDefaultParams settings toolName =
                  Some (match obj_get toolName table with
                        | Some params => obj_assign patterned (spread params)
                        | None => patterned
                        end)).
  { unfold getDefaultParams. rewrite Htable.
    rewrite (apply_pattern_defaults_fold matching) by assumption.
    fold patterned.
    destruct (obj_get toolName table) as [params|]; [|reflexivity].
    destruct (truthy params) eqn:Etruthy; [reflexivity|].
    now rewrite (spread_falsy params Etruthy). }
  assert (Hkeys : forall k,
    obj_get k (match obj_get toolName table with
               | Some params => obj_assign patterned (spread params)
               | None => patterned
               end)
    = last_binding k (default_sources matching table toolName)).
  { intros k. unfold default_sources. rewrite last_binding_app.
    destruct (obj_get toolName table) as [params|] eqn:Hget; simpl.
    - rewrite obj_get_assign by now apply Hexact.
      destruct (obj_get k (spread params)); [reflexivity|].
      unfold patterned. rewrite obj_get_assign_all by assumption.
      now destruct (last_binding k _).
    - unfold patterned. rewrite obj_get_assign_all by assumption.
      now destruct (last_binding k _). }
  eexists. split; [exact Hcode|]. split; [exact Hkeys|].
  intros exact k v Hget Hk. rewrite Hkeys.
  unfold default_sources. rewrite last_binding_app, Hget. simpl. now rewrite Hk.
Qed.

End Policy.

Section PolicyExamples.
Import Settings SampleHost.

Lemma exclude_list_overrides_witness :
  shouldAutoApprove all_but_delete "organization_delete" = Some false
  /\ shouldAutoApprove all_but_delete "organization_update" = Some true.
Proof.
  split; [|reflexivity].
  apply (exclude_list_overrides all_but_delete
           {| enabled := true;
              tools := {| all := Some true; patterns := Some ["organization_*"];
                          specific := Some ["organization_delete"];
                          exclude := Some ["organization_delete"] |};
              readOnlyByDefault := Some true |}
           ["organization_delete"] "organization_delete");
    [reflexivity | reflexivity | now left].
Defined.

Lemma disabled_approves_nothing_witness :
  shouldAutoApprove DEFAULT_SETTINGS "network_clients_list" = Some false
  /\ isReadOnlyTool "network_clients_list" = true.
Proof.
  split; [|reflexivity].
  apply (disabled_approves_nothing DEFAULT_SETTINGS "network_clients_list").
  intros aa Haa. injection Haa as <-. reflexivity.
Defined.

Lemma default_params_resolution_witness :
  exists defaults,
    getDefaultParams three_sources "network_clients_list" = Some defaults
    /\ obj_get "a" defaults = Some (VNum 3).
Proof.
  destruct (default_params_resolution three_sources
              [("*_list", VObj [("a", VNum 1)]);
               ("network_*", VObj [("a", VNum 2)]);
               ("network_clients_list", VObj [("a", VNum 3)])]
              "network_clients_list" (fun _ => true) eq_refl)
    as [defaults [Hcode [_ Hexact]]].
  - intros pattern params [Hin|[Hin|[Hin|[]]]]; injection Hin as <- <-; reflexivity.
  - repeat constructor; simpl; intros [].
  - exists defaults. split; [exact Hcode|].
    apply (Hexact (VObj [("a", VNum 3)]) "a" (VNum 3)); reflexivity.
Defined.

End PolicyExamples.


(** ** The dispatcher (C5, C6) *)

Section Dispatcher.
Import HttpClient.
Context `{Host} (upstream : Upstream).

(** [executeRequest] as the source writes it: the recursive call is to
    [executeRequest] itself, with [retryCount + 1]. *)
Lemma executeRequest_unfold (config : AxiosRequestConfig) (retryCount : nat) (tr : Trace) :
  executeRequest upstream config retryCount tr =
    try_catch
      (response <- request upstream config ;;
       if (status response =? 429)%Z && (retryCount <? MAX_RETRIES)%nat then
         delay (getRetryAfter response) ;;;
         executeRequest upstream config (retryCount + 1)
       else executeRequest_settle response)
      (fun error => throw (executeRequest_catch error)) tr.
Proof.
  unfold executeRequest.
  destruct (Nat.ltb_spec retryCount MAX_RETRIES) as [Hlt|Hge].
  - replace (MAX_RETRIES - retryCount)%nat
      with (S (MAX_RETRIES - (retryCount + 1)))%nat by lia.
    simpl executeRequest_aux.
    destruct (Nat.ltb_spec retryCount MAX_RETRIES) as [_|Hbad]; [reflexivity|lia].
  - replace (MAX_RETRIES - retryCount)%nat with 0%nat by lia.
    simpl executeRequest_aux.
    destruct (Nat.ltb_spec retryCount MAX_RETRIES) as [Hbad|_]; [lia|].
    unfold try_catch, bind.
    destruct (request upstream config tr) as [[response|e] tr']; [|reflexivity].
    now rewrite !andb_false_r.
Qed.

(** The [catch] clause leaves its own errors alone. *)
Lemma executeRequest_catch_twice (error : JsError) :
  executeRequest_catch (executeRequest_catch error) = executeRequest_catch error.
Proof. now destruct error. Qed.

Lemma api_error_message (response : AxiosResponse) (message : string) :
  getErrorMessage response = Some message ->
  executeRequest_catch (api_error response) =
    MerakiAPIError message (status response) (DetailValue (data response)).
Proof. intros Hmsg. unfold api_error. now rewrite Hmsg. Qed.

(** A response that is not a success and not a 429 ends the call at once. *)
Lemma executeRequest_terminal (config : AxiosRequestConfig) (retryCount : nat)
    (response : AxiosResponse) (tr : Trace) :
  upstream tr config = Resolved response ->
  (status response < 200 \/ 300 <= status response)%Z ->
  status response <> 429%Z ->
  executeRequest upstream config retryCount tr =
    (Threw (executeRequest_catch (api_error response)), tr ++ [Sent config]).
Proof.
  intros Hreply Hfail Hnot429. rewrite executeRequest_unfold.
  unfold try_catch, bind, request. rewrite Hreply.
  assert (E429 : (status response =? 429)%Z = false) by now apply Z.eqb_neq.
  destruct (Z.leb_spec 400 (status response)) as [Hhigh|Hlow].
  - unfold handleErrorResponse. rewrite E429. reflexivity.
  - rewrite E429. simpl. unfold executeRequest_settle.
    destruct (Z.leb_spec 200 (status response)); destruct (Z.ltb_spec (status response) 300);
      simpl; try reflexivity; lia.
Qed.

(** One rate-limited attempt that may still be retried: the request, the
    wait, then the next attempt. *)
Lemma executeRequest_rate_limited (config : AxiosRequestConfig) (retryCount : nat)
    (response : AxiosResponse) (tr : Trace) :
  upstream tr config = Resolved response ->
  status response = 429%Z ->
  (retryCount < MAX_RETRIES)%nat ->
  executeRequest upstream config retryCount tr =
    match executeRequest upstream config (retryCount + 1)
            (tr ++ [Sent config] ++ [Slept (getRetryAfter response)]) with
    | (Returned result, tr') => (Returned result, tr')
    | (Threw error, tr') => (Threw (executeRequest_catch error), tr')
    end.
Proof.
  intros Hreply H429 Hlt. rewrite executeRequest_unfold.
  unfold try_catch, bind, request. rewrite Hreply, H429. simpl.
  unfold handleErrorResponse. rewrite H429. simpl.
  destruct (Nat.ltb_spec retryCount MAX_RETRIES) as [_|Hbad]; [|lia].
  unfold delay, emit. rewrite H429. simpl. rewrite <- app_assoc. simpl.
  now destruct (executeRequest upstream config (retryCount + 1) _) as [[result|error] tr'].
Qed.

(** A rate-limited attempt with no retry left surfaces the 429. *)
Lemma executeRequest_exhausted (config : AxiosRequestConfig) (retryCount : nat)
    (response : AxiosResponse) (tr : Trace) :
  upstream tr config = Resolved response ->
  status response = 429%Z ->
  (MAX_RETRIES <= retryCount)%nat ->
  executeRequest upstream config retryCount tr =
    (Threw (executeRequest_catch (api_error response)), tr ++ [Sent config]).
Proof.
  intros Hreply H429 Hge. rewrite executeRequest_unfold.
  unfold try_catch, bind, request. rewrite Hreply, H429. simpl.
  unfold handleErrorResponse. rewrite H429. simpl.
  destruct (Nat.ltb_spec retryCount MAX_RETRIES) as [Hbad|_]; [lia|].
  unfold executeRequest_settle. rewrite H429. reflexivity.
Qed.

Lemma request_trace (config : AxiosRequestConfig) (tr : Trace) :
  snd (request upstream config tr) = tr ++ [Sent config].
Proof.
  unfold request. destruct (upstream tr config) as [response|name code message];
    [|reflexivity].
  destruct (400 <=? status response)%Z; [|reflexivity].
  unfold handleErrorResponse. now destruct (status response =? 429)%Z.
Qed.

Lemma executeRequest_settle_trace (response : AxiosResponse) (tr : Trace) :
  snd (executeRequest_settle response tr) = tr.
Proof.
  unfold executeRequest_settle.
  now destruct ((200 <=? status response)%Z && (status response <? 300)%Z).
Qed.

(** Whatever the upstream answers, one call sends at least one request and
    at most [MAX_RETRIES + 1]. *)
Lemma executeRequest_appends (config : AxiosRequestConfig) (retryCount : nat)
    (tr : Trace) :
  exists added,
    snd (executeRequest upstream config retryCount tr) = tr ++ added
    /\ (1 <= List.length (requests added) <= MAX_RETRIES - retryCount + 1)%nat.
Proof.
  remember (MAX_RETRIES - retryCount)%nat as budget eqn:Hbudget.
  revert retryCount tr Hbudget.
  induction budget as [|budget IH]; intros retryCount tr Hbudget;
    rewrite executeRequest_unfold; unfold try_catch, bind;
    pose proof (request_trace config tr) as Hsent;
    destruct (request upstream config tr) as [[response|e] tr1]; simpl in Hsent; subst tr1;
    try (exists [Sent config]; split; [reflexivity|simpl; lia]).
  - exists [Sent config]. split; [|simpl; lia].
    destruct (Nat.ltb_spec retryCount MAX_RETRIES) as [Hbad|_]; [lia|].
    rewrite andb_false_r.
    pose proof (executeRequest_settle_trace response (tr ++ [Sent config])) as Hsettle.
    now destruct (executeRequest_settle response (tr ++ [Sent config])) as [[result|e] tr2].
  - destruct ((status response =? 429)%Z && (retryCount <? MAX_RETRIES)%nat).
    + unfold delay, emit.
      destruct (IH (retryCount + 1)%nat
                  ((tr ++ [Sent config]) ++ [Slept (getRetryAfter response)]))
        as [added [Htrace Hcount]]; [lia|].
      exists ([Sent config] ++ [Slept (getRetryAfter response)] ++ added).
      split; [|simpl; lia].
      destruct (executeRequest upstream config (retryCount + 1) _) as [[result|error] tr'];
        simpl in *; rewrite Htrace; now rewrite <- !app_assoc.
    + exists [Sent config]. split; [|simpl; lia].
      pose proof (executeRequest_settle_trace response (tr ++ [Sent config])) as Hsettle.
      now destruct (executeRequest_settle response (tr ++ [Sent config])) as [[result|e] tr2].
Qed.

End Dispatcher.

Section Numbers.

(** Up to 2^53 in magnitude an integer is its own double. *)
Lemma round_to_double_exact (n : Z) :
  (Z.abs n <= MAX_EXACT)%Z -> round_to_double n = n.
Proof.
  intros Hsmall. unfold round_to_double.
  destruct (Z.leb_spec (Z.log2 (Z.abs n) - 52) 0) as [_|Hbig]; [reflexivity|].
  assert (Hpos : (0 < Z.abs n)%Z).
  { destruct (Z.abs n) eqn:E; try lia. simpl in Hbig. lia. }
  pose proof (Z.log2_spec (Z.abs n) Hpos) as [Hlow _].
  assert (Hpow : (2 ^ 53 <= 2 ^ Z.log2 (Z.abs n))%Z)
    by (apply Z.pow_le_mono_r; lia).
  assert (Habs : Z.abs n = MAX_EXACT) by (unfold MAX_EXACT in *; lia).
  unfold MAX_EXACT in Habs.
  destruct (Z.abs_spec n) as [[_ Heq]|[_ Heq]]; rewrite Heq in Habs.
  - subst n. reflexivity.
  - replace n with (-9007199254740992)%Z by lia. reflexivity.
Qed.

(** Up to 2^53 in magnitude an integer is the Number it gives. *)
Lemma Number_of_integer_exact (n : Z) :
  (Z.abs n <= MAX_EXACT)%Z -> Number_of_integer n = Finite n.
Proof.
  intros Hsmall. unfold Number_of_integer.
  assert (Hfinite : (MAX_EXACT < OVERFLOW)%Z) by (vm_compute; reflexivity).
  destruct (Z.ltb_spec (Z.abs n) OVERFLOW) as [_|Hbig]; [|lia].
  now rewrite round_to_double_exact.
Qed.

(** A product of at most 2^53 in magnitude is exact. *)
Lemma Number_mul_exact (a b : Z) :
  (Z.abs (a * b) <= MAX_EXACT)%Z -> Number_mul (Finite a) b = Finite (a * b).
Proof. apply Number_of_integer_exact. Qed.

End Numbers.

Section RetryAfterFacts.
Import HttpClient.

Ltac read_digit :=
  cbn [NilEmpty.string_of_uint Pos.of_uint_acc Pos.of_uint read_digits];
  match goal with
  | |- context [digit_of ?c] =>
      let v := eval vm_compute in (digit_of c) in
      change (digit_of c) with v
  end;
  cbv iota beta.

(** Reading the digits of a decimal numeral after a positive prefix. *)
Lemma read_digits_acc (d : Decimal.uint) (acc : positive) :
  read_digits (NilEmpty.string_of_uint d) true (Z.pos acc) =
    Some (Z.pos (Pos.of_uint_acc d acc)).
Proof.
  revert acc. induction d; intros acc; [reflexivity|..];
    read_digit; rewrite <- IHd; f_equal; lia.
Qed.

Lemma read_digits_zero (d : Decimal.uint) :
  read_digits (NilEmpty.string_of_uint d) true 0 = Some (Z.of_N (Pos.of_uint d)).
Proof.
  induction d; [reflexivity|..]; read_digit;
    try exact IHd; apply read_digits_acc.
Qed.

Lemma read_digits_uint (d : Decimal.uint) :
  d <> Decimal.Nil ->
  read_digits (NilEmpty.string_of_uint d) false 0 = Some (Z.of_N (Pos.of_uint d)).
Proof.
  destruct d; intros Hd; [congruence|..]; read_digit;
    try apply read_digits_zero; apply read_digits_acc.
Qed.

Lemma to_uint_not_Nil (p : positive) : Pos.to_uint p <> Decimal.Nil.
Proof.
  intros Hnil. pose proof (DecimalPos.Unsigned.of_to p) as Hof.
  rewrite Hnil in Hof. discriminate.
Qed.

Lemma leading_integer_digits (d : Decimal.uint) :
  d <> Decimal.Nil ->
  leading_integer (NilEmpty.string_of_uint d) = Some (Z.of_N (Pos.of_uint d)).
Proof.
  intros Hd. rewrite <- (read_digits_uint d Hd).
  destruct d; [congruence|..]; reflexivity.
Qed.

Lemma NilZero_string_of_uint (d : Decimal.uint) :
  d <> Decimal.Nil -> NilZero.string_of_uint d = NilEmpty.string_of_uint d.
Proof. destruct d; [congruence|..]; reflexivity. Qed.

Lemma leading_integer_minus (s : string) :
  leading_integer (String "-" s) = option_map Z.opp (read_digits s false 0).
Proof. reflexivity. Qed.

(** The integer [parseInt] reads in the decimal text of [n] is [n]. *)
Lemma leading_integer_decimal (n : Z) : leading_integer (decimal n) = Some n.
Proof.
  unfold decimal. destruct n as [|p|p]; [reflexivity| |];
    cbn [Z.to_int NilZero.string_of_int];
    rewrite NilZero_string_of_uint by apply to_uint_not_Nil.
  - rewrite leading_integer_digits by apply to_uint_not_Nil.
    now rewrite DecimalPos.Unsigned.of_to.
  - rewrite leading_integer_minus, read_digits_uint by apply to_uint_not_Nil.
    now rewrite DecimalPos.Unsigned.of_to.
Qed.

(** [parseInt] reads back the decimal text of an integer, as a double. *)
Lemma parseInt10_decimal (n : Z) : parseInt10 (decimal n) = Some (Number_of_integer n).
Proof. unfold parseInt10. now rewrite leading_integer_decimal. Qed.

Lemma decimal_not_empty (n : Z) : decimal n <> "".
Proof.
  intros Hempty. pose proof (leading_integer_decimal n) as Hparse.
  rewrite Hempty in Hparse. discriminate.
Qed.

Lemma parseInt10_empty : parseInt10 "" = None.
Proof. reflexivity. Qed.

(** The wait when there is no hint. *)
Lemma getRetryAfter_absent (response : AxiosResponse) :
  header RETRY_AFTER (headers response) = None ->
  getRetryAfter response = Finite INITIAL_BACKOFF_MS.
Proof. intros Hnone. unfold getRetryAfter. now rewrite Hnone. Qed.

(** The wait when the hint does not start with a number. *)
Lemma getRetryAfter_unreadable (response : AxiosResponse) (hint : string) :
  header RETRY_AFTER (headers response) = Some hint ->
  parseInt10 hint = None ->
  getRetryAfter response = Finite INITIAL_BACKOFF_MS.
Proof.
  intros Hhint Hparse. unfold getRetryAfter. rewrite Hhint, Hparse.
  now destruct (negb (hint =? "")).
Qed.

(** The wait when the hint starts with a number. *)
Lemma getRetryAfter_parsed (response : AxiosResponse) (hint : string)
    (seconds : IntegerOrInfinity) :
  header RETRY_AFTER (headers response) = Some hint ->
  parseInt10 hint = Some seconds ->
  getRetryAfter response = Number_mul seconds 1000.
Proof.
  intros Hhint Hparse. unfold getRetryAfter. rewrite Hhint, Hparse.
  destruct hint; [discriminate|reflexivity].
Qed.

(** The wait for a hint in decimal digits, in double arithmetic. *)
Lemma getRetryAfter_decimal (response : AxiosResponse) (seconds : Z) :
  header RETRY_AFTER (headers response) = Some (decimal seconds) ->
  getRetryAfter response = Number_mul (Number_of_integer seconds) 1000.
Proof.
  intros Hhint. apply (getRetryAfter_parsed response (decimal seconds)); [assumption|].
  apply parseInt10_decimal.
Qed.

(** While the product stays within 2^53 the wait is exact. *)
Lemma getRetryAfter_exact (response : AxiosResponse) (seconds : Z) :
  (Z.abs (seconds * 1000) <= MAX_EXACT)%Z ->
  header RETRY_AFTER (headers response) = Some (decimal seconds) ->
  getRetryAfter response = Finite (seconds * 1000).
Proof.
  intros Hsafe Hhint. rewrite (getRetryAfter_decimal response seconds Hhint).
  rewrite Number_of_integer_exact by lia.
  now apply Number_mul_exact.
Qed.

End RetryAfterFacts.

Section DispatcherClaims.
Import HttpClient.
Context `{Host} (upstream : Upstream).

(** The message of an error response can be read unless its [errors] field
    has a length above 0 and is not a list. *)
Lemma getErrorMessage_None (response : AxiosResponse) :
  getErrorMessage response = None <->
  gt_zero (length_opt (get_prop_opt (data response) "errors")) = true
  /\ isArray (get_prop_opt (data response) "errors") = false.
Proof.
  unfold getErrorMessage.
  destruct (gt_zero (length_opt (get_prop_opt (data response) "errors"))).
  - destruct (get_prop_opt (data response) "errors"); simpl; split;
      try easy; intros [_ Hbad]; discriminate.
  - split; [|now intros [Hbad _]].
    destruct (truthy (get_prop_opt (data response) "error")); [discriminate|].
    now destruct (data response).
Qed.

(** What the caller gets when the message cannot be read: the TypeError
    of [join] goes through the [catch] clause of [executeRequest]. *)
Lemma api_error_unreadable (response : AxiosResponse) :
  getErrorMessage response = None ->
  exists details,
    executeRequest_catch (api_error response) =
      MerakiAPIError "Unknown error occurred" 0 details.
Proof. intros Hnone. unfold api_error. rewrite Hnone. eexists. reflexivity. Qed.



End DispatcherClaims.

Section DispatcherExamples.
Import HttpClient SampleHost.





End DispatcherExamples.

(** ** Numbers and text as the engine has them *)

Section EngineExamples.
Import HttpClient BaseTool.

(** [String(n)]: all the digits up to 2^53, the shortest digits that read
    back as the same double beyond, the exponent form from 10^21 on. *)
Example Number_toString_values :
  map Number_toString
    [0; -5; 9007199254740991; 9007199254740993; 2 ^ 60; 2 ^ 64; 10 ^ 21; 2 ^ 70;
     - 10 ^ 23]%Z
  = ["0"; "-5"; "9007199254740991"; "9007199254740992"; "1152921504606847000";
     "18446744073709552000"; "1e+21"; "1.1805916207174113e+21"; "-1e+23"].
Proof. vm_compute. reflexivity. Qed.

(** [parseInt(s, 10)]: white space (the no-break space included) and a
    sign are skipped, the digits are read up to the first other
    character, and the result is a double. *)
Example parseInt10_values :
  map parseInt10
    ["42"; " 42px"; no_break_space ++ "7"; "-3.9"; "1e3"; "abc"; "";
     "9007199254740993"]%string
  = [Some (Finite 42); Some (Finite 42); Some (Finite 7); Some (Finite (-3));
     Some (Finite 1); None; None; Some (Finite 9007199254740992)].
Proof. vm_compute. reflexivity. Qed.

Example getRetryAfter_rounds :
  getRetryAfter rate_limited_for_long = Finite 9007199254740992000.
Proof. vm_compute. reflexivity. Qed.

(** A number of seconds too large for a double is [Infinity], and so is
    the wait. *)
Example getRetryAfter_overflows :
  parseInt10 (decimal (10 ^ 309)) = Some (Infinite false)
  /\ parseInt10 (decimal (10 ^ 308)) = Some (Finite (round_to_double (10 ^ 308)))
  /\ Number_mul (Finite (round_to_double (10 ^ 308))) 1000 = Infinite false
  /\ Number_mul (Finite (2 ^ 60)) 1000 = Finite 1152921504606846976000.
Proof. vm_compute. repeat split; reflexivity. Qed.

(** [trim] strips the no-break space as it strips the space. *)
Example comma_list_no_break_space :
  comma_list ("a," ++ no_break_space ++ "b , ,c" ++ no_break_space) =
    [VStr "a"; VStr "b"; VStr "c"].
Proof. vm_compute. reflexivity. Qed.

(** [separateParams] puts the text of a number into the path as [String]
    prints it. *)
Example separateParams_number_text :
  separateParams "/devices/{serial}/switch/ports/{portId}/x/{big}"
    (VObj [("serial", VStr "Q2XX"); ("portId", VNum 12); ("big", VNum (10 ^ 21));
           ("enabled", VBool true)])
  = Some ([("serial", VStr "Q2XX"); ("portId", VStr "12"); ("big", VStr "1e+21")],
          [("enabled", VBool true)]).
Proof. vm_compute. reflexivity. Qed.

(** [toLowerCase] on the capital letters of Latin-1. *)
Example toLowerCase_latin1 :
  toLowerCase (String (ascii_of_nat 201) (String (ascii_of_nat 215) "COLE"))
  = String (ascii_of_nat 233) (String (ascii_of_nat 215) "cole").
Proof. vm_compute. reflexivity. Qed.

End EngineExamples.

(** ** Validation comes before dispatch (C1) *)

Section Execution.
Import HttpClient BaseTool.
Context `{Host} (upstream : Upstream) (settings : Settings.MerakiMCPSettings)
        (config : ToolConfig).

Abbreviation prepared := (Spec.prepared settings config).

(** [execute] is the preparation, then [validateParams], then the rest. *)
Lemma execute_prepared (params transformed : value) (tr : Trace) :
  prepared params = Some (Returned transformed) ->
  execute upstream settings config params tr =
    try_catch
      (validatedParams <- lift (validateParams config transformed) ;;
       execute_validated upstream settings config validatedParams)
      (fun error => throw (handleError error)) tr.
Proof.
  unfold prepared, execute, try_catch, bind, ret, lift.
  destruct (Settings.getDefaultParams settings (name config)) as [defaults|];
    [|discriminate].
  destruct (transformParams config) as [f|]; intros Hprepared;
    injection Hprepared as Hprepared; now rewrite ?Hprepared.
Qed.

(** Whatever [validateParams] throws reaches the caller through
    [handleError], and the trace is as it was. *)
Lemma execute_invalid (params transformed : value) (error : JsError) (tr : Trace) :
  prepared params = Some (Returned transformed) ->
  validateParams config transformed = Threw error ->
  execute upstream settings config params tr = (Threw (handleError error), tr).
Proof.
  intros Hprepared Hinvalid. rewrite (execute_prepared params transformed) by assumption.
  unfold try_catch, bind, lift. now rewrite Hinvalid.
Qed.

(** X13: when the schema accepts the prepared parameters and the parsed
    value lacks a parameter of [requiredParams] (or holds it as [null]),
    [execute] throws an [McpError] with code [InvalidParams] whose message
    and data name the field, and the trace is as it was: nothing has been
    sent. *)
Lemma missing_required_precedes_dispatch
    (params transformed parsed : value) (required : list string) (field : string)
    (tr : Trace) :
  prepared params = Some (Returned transformed) ->
  safeParseAsync (inputSchema config) transformed = ParseSuccess parsed ->
  requiredParams config = Some required ->
  validateRequired parsed required =
    Some (ValidationError field "This field is required" VUndefined) ->
  execute upstream settings config params tr =
    (Threw (McpError InvalidParams
              ("Validation error for field '" ++ field ++ "': This field is required")
              (DataField field VUndefined)), tr).
Proof.
  intros Hprepared Hschema Hrequired Hmissing.
  rewrite (execute_invalid params transformed
             (ValidationError field "This field is required" VUndefined) tr Hprepared).
  - reflexivity.
  - unfold validateParams. now rewrite Hschema, Hrequired, Hmissing.
Qed.

(** C1: when the schema rejects the parameters [execute] has prepared
    (defaults injected, types coerced, pre-validation transform applied),
    [execute] throws and the trace is unchanged: no request has been sent
    and nothing has been waited for.  What it throws is not the typed
    validation error of the claim.  [validateParams] raises a plain
    [Error], so the caller gets an [McpError] with code [InternalError] and
    the data [{originalError: "Error"}], the shape of any untyped fault;
    the check of the required parameters two lines further down, in the
    same function, raises a [ValidationError] and gives [InvalidParams]
    with the field (X13 below). *)
Theorem validation_failure_precedes_dispatch
    (params transformed : value) (errors : list ZodIssue) (tr : Trace) :
  prepared params = Some (Returned transformed) ->
  safeParseAsync (inputSchema config) transformed = ParseFailure errors ->
  execute upstream settings config params tr =
    (Threw (McpError InternalError (validation_message errors) (DataOriginal "Error")), tr)
  /\ requests (snd (execute upstream settings config params tr)) = requests tr.
Proof.
  intros Hprepared Hschema.
  assert (Hthrown :
    validateParams config transformed = Threw (Error "Error" (validation_message errors))).
  { unfold validateParams. rewrite Hschema. now destruct errors. }
  rewrite (execute_invalid params transformed _ tr Hprepared Hthrown).
  split; reflexivity.
Qed.

End Execution.

Section ExecutionExamples.
Import HttpClient BaseTool SampleHost.

(** The failing input of C1: [network_client_get] called without its
    [clientId]. *)
Lemma validation_failure_precedes_dispatch_witness :
  execute (always unavailable) Settings.DEFAULT_SETTINGS network_client_get
    (VObj [("networkId", VStr "N_1")]) [] =
    (Threw (McpError InternalError "Validation error: clientId: Required"
              (DataOriginal "Error")),
     []).
Proof.
  apply (validation_failure_precedes_dispatch (always unavailable)
           Settings.DEFAULT_SETTINGS network_client_get
           (VObj [("networkId", VStr "N_1")])
           (VObj [("networkId", VStr "N_1")])
           [{| path := ["clientId"]; message := "Required" |}] []);
    reflexivity.
Defined.

(** With valid parameters the same call does reach the upstream. *)
Example valid_call_is_dispatched :
  execute (always unavailable) Settings.DEFAULT_SETTINGS network_client_get
    (VObj [("networkId", VStr "N_1"); ("clientId", VStr "k74272e")]) [] =
    (Threw (McpError InternalError "Service Unavailable"
              (DataApi 503 (DetailValue VNull))),
     [Sent {| req_method := "GET"; req_url := "/networks/N_1/clients/k74272e";
              req_params := VObj [("networkId", VStr "N_1"); ("clientId", VStr "k74272e")];
              req_data := VUndefined |}]).
Proof. reflexivity. Qed.

End ExecutionExamples.

(** ** The composite aggregation (C4) *)

Section Sorting.
Import OrganizationTools.
Context `{Host}.

Lemma by_occurredAt_desc_le (a b : value) :
  (by_occurredAt_desc a b <= 0)%Z -> newer_or_equal a b.
Proof.
  unfold by_occurredAt_desc, newer_or_equal, occurredAt_time.
  destruct (Date_getTime (get_prop_opt b "occurredAt"));
    destruct (Date_getTime (get_prop_opt a "occurredAt")); try easy. lia.
Qed.

Lemma by_occurredAt_desc_gt (a b : value) :
  (0 < by_occurredAt_desc a b)%Z -> newer_or_equal b a.
Proof.
  unfold by_occurredAt_desc, newer_or_equal, occurredAt_time.
  destruct (Date_getTime (get_prop_opt b "occurredAt"));
    destruct (Date_getTime (get_prop_opt a "occurredAt")); try easy. lia.
Qed.

Lemma sort_insert_Permutation (compare : value -> value -> Z) (x : value) (l : list value) :
  Permutation (sort_insert compare x l) (x :: l).
Proof.
  induction l as [|y l IH]; simpl.
  - reflexivity.
  - destruct (compare x y <=? 0)%Z; [reflexivity|].
    rewrite IH. apply perm_swap.
Qed.

Lemma stable_sort_Permutation (compare : value -> value -> Z) (l : list value) :
  Permutation (stable_sort compare l) l.
Proof.
  induction l as [|x l IH]; simpl.
  - reflexivity.
  - rewrite sort_insert_Permutation. now constructor.
Qed.

(** Whichever way the engine sorts, it loses no event and adds none. *)
Lemma Array_sort_Permutation (l : list value) : Permutation (Array_sort l) l.
Proof.
  unfold Array_sort. destruct (forallb has_time l).
  - apply stable_sort_Permutation.
  - apply Array_sort_engine_permutes.
Qed.

Lemma sort_insert_Sorted (x : value) (l : list value) :
  Sorted newer_or_equal l -> Sorted newer_or_equal (sort_insert by_occurredAt_desc x l).
Proof.
  induction 1 as [|y l Hsorted IH Hhead]; simpl.
  - repeat constructor.
  - destruct (Z.leb_spec (by_occurredAt_desc x y) 0) as [Hle|Hgt].
    + constructor; [now constructor|]. constructor. now apply by_occurredAt_desc_le.
    + constructor; [assumption|].
      destruct l as [|z l]; simpl.
      * constructor. now apply by_occurredAt_desc_gt.
      * destruct (by_occurredAt_desc x z <=? 0)%Z; constructor.
        -- now apply by_occurredAt_desc_gt.
        -- now inversion Hhead.
Qed.

Lemma stable_sort_Sorted (l : list value) :
  Sorted newer_or_equal (stable_sort by_occurredAt_desc l).
Proof.
  induction l as [|x l IH]; simpl; [constructor|now apply sort_insert_Sorted].
Qed.

Lemma newer_or_equal_trans (a b c : value) :
  timed b -> newer_or_equal a b -> newer_or_equal b c -> newer_or_equal a c.
Proof.
  unfold timed, newer_or_equal.
  destruct (occurredAt_time a), (occurredAt_time b), (occurredAt_time c);
    try easy. lia.
Qed.

(** Among events that all have a time value, sorted pairwise is sorted
    throughout. *)
Lemma Sorted_newer_StronglySorted (l : list value) :
  Forall timed l -> Sorted newer_or_equal l -> StronglySorted newer_or_equal l.
Proof.
  induction l as [|a l IH]; intros Htimed Hsorted; [constructor|].
  inversion Htimed as [|? ? Ha Hl]; subst.
  inversion Hsorted as [|? ? Hrest Hhead]; subst.
  specialize (IH Hl Hrest). constructor; [assumption|].
  destruct l as [|b l]; [constructor|].
  inversion Hhead as [|? ? Hab]; subst.
  inversion IH as [|? ? _ Hb]; subst.
  inversion Hl as [|? ? Htb _]; subst.
  constructor; [assumption|].
  eapply Forall_impl; [|exact Hb].
  intros c Hbc. now apply (newer_or_equal_trans a b c).
Qed.

Lemma has_time_timed (l : list value) : Forall timed l -> forallb has_time l = true.
Proof.
  intros Htimed. apply forallb_forall. intros event Hin.
  rewrite Forall_forall in Htimed. specialize (Htimed event Hin).
  unfold timed, occurredAt_time in Htimed. unfold has_time.
  now destruct (Date_getTime (get_prop_opt event "occurredAt")).
Qed.

(** Events that all have a time value come out newest first. *)
Lemma Array_sort_StronglySorted (l : list value) :
  Forall timed l -> StronglySorted newer_or_equal (Array_sort l).
Proof.
  intros Htimed. unfold Array_sort. rewrite (has_time_timed l Htimed).
  apply Sorted_newer_StronglySorted; [|apply stable_sort_Sorted].
  apply Forall_forall. intros event Hin.
  rewrite Forall_forall in Htimed. apply Htimed.
  now apply (Permutation_in _ (stable_sort_Permutation by_occurredAt_desc l)).
Qed.

Lemma firstn_incl {A} (n : nat) (l : list A) (x : A) :
  In x (firstn n l) -> In x l.
Proof.
  revert l. induction n as [|n IH]; intros [|y l]; simpl; try easy.
  intros [->|Hin]; [now left|right; now apply IH].
Qed.

Lemma slice0_firstn {A} (e : Z) (l : list A) : exists n, slice0 e l = firstn n l.
Proof. unfold slice0. destruct (e <? 0)%Z; eexists; reflexivity. Qed.

Lemma slice0_value_firstn (e : value) (l : list value) :
  exists n, slice0_value e l = firstn n l.
Proof.
  unfold slice0_value. destruct e; try apply slice0_firstn.
  exists (List.length l). now rewrite firstn_all.
Qed.

End Sorting.

Section Aggregation.
Import HttpClient BaseTool OrganizationTools.
Context `{Host} (upstream : Upstream).

Abbreviation sub_call := (Spec.sub_call upstream).
Abbreviation surviving := (Spec.surviving upstream).

(** The tag the executor puts on an event of a network. *)
Abbreviation tag :=
  (fun survivor : value * value =>
     with_network (get_prop_opt (fst survivor) "id") (get_prop_opt (fst survivor) "name")
       (snd survivor)).

Lemma collect_network_app (params network : value) (collected : list value) (tr : Trace) :
  collect_network upstream params network collected tr =
    match collect_network upstream params network [] tr with
    | (Returned tagged, tr') => (Returned (collected ++ tagged), tr')
    | (Threw error, tr') => (Threw error, tr')
    end.
Proof.
  unfold collect_network.
  destruct (get_prop network "id") as [networkId|]; [|reflexivity].
  unfold bind.
  destruct (get upstream _ _ tr) as [[eventsResponse|error] tr']; [|reflexivity].
  now destruct (eventsWithNetwork networkId (get_prop_opt network "name") eventsResponse).
Qed.

(** The loop never throws, and collects what its turns collect. *)
Lemma collect_networks_turns (params : value) (networks collected : list value)
    (tr : Trace) :
  collect_networks upstream params networks collected tr =
    (Returned (collected ++ fst (collected_in_turns upstream params networks tr)),
     snd (collected_in_turns upstream params networks tr)).
Proof.
  revert collected tr.
  induction networks as [|network rest IH]; simpl; intros collected tr.
  - unfold ret. now rewrite app_nil_r.
  - unfold bind, try_catch. rewrite collect_network_app.
    destruct (collect_network upstream params network [] tr) as [[tagged|error] tr'].
    + rewrite IH. simpl. now rewrite app_assoc.
    + unfold ret. now rewrite IH.
Qed.

(** The turn of a network whose sub-call yields events returns them, each
    tagged with that network; the turn of a network whose sub-call fails
    throws.  Either way the trace is the one the sub-call leaves. *)
Lemma collect_network_sub_call (params network : value) (tr : Trace) :
  match fst (sub_call params network tr) with
  | Some items =>
      collect_network upstream params network [] tr =
        (Returned (map (fun event => tag (network, event)) items),
         snd (sub_call params network tr))
  | None =>
      exists error,
        collect_network upstream params network [] tr =
          (Threw error, snd (sub_call params network tr))
  end.
Proof.
  unfold Spec.sub_call, collect_network.
  destruct (get_prop network "id") as [networkId|] eqn:Hid; simpl.
  - unfold bind.
    destruct (get upstream _ _ tr) as [[response|error] tr']; simpl.
    + unfold eventsWithNetwork.
      assert (Hsame : get_prop_opt network "id" = networkId)
        by (unfold get_prop_opt; now rewrite Hid).
      destruct (get_prop (result_data response) "events") as [events|]; simpl.
      * destruct events; simpl; try (eexists; reflexivity); try reflexivity.
        now rewrite Hsame.
      * eexists; reflexivity.
    + eexists; reflexivity.
  - eexists; reflexivity.
Qed.

(** What the turns collect is the surviving events of the spec, tagged. *)
Lemma collected_in_turns_surviving (params : value) (networks : list value) (tr : Trace) :
  collected_in_turns upstream params networks tr =
    (map tag (fst (surviving params networks tr)), snd (surviving params networks tr)).
Proof.
  revert tr. induction networks as [|network rest IH]; intros tr; [reflexivity|].
  cbn [collected_in_turns Spec.surviving fst snd].
  pose proof (collect_network_sub_call params network tr) as Hturn.
  destruct (fst (sub_call params network tr)) as [items|].
  - rewrite Hturn, IH. cbn [fst snd]. now rewrite map_app, map_map.
  - destruct Hturn as [error ->]. now rewrite IH.
Qed.

Lemma tag_tagged_with (network event : value) :
  tagged_with network event (tag (network, event)).
Proof.
  eexists. split; [reflexivity|]. cbn [fst snd].
  split; [|split].
  - rewrite obj_get_set. simpl. now rewrite obj_get_set, String.eqb_refl.
  - now rewrite obj_get_set, String.eqb_refl.
  - intros key Hid Hname. rewrite !obj_get_set.
    destruct (String.eqb_spec "networkName" key) as [Heq|_]; [congruence|].
    destruct (String.eqb_spec "networkId" key) as [Heq|_]; [congruence|reflexivity].
Qed.

Lemma surviving_tagged (survivors : list (value * value)) :
  Forall2 (fun survivor event => tagged_with (fst survivor) (snd survivor) event)
    survivors (map tag survivors).
Proof.
  induction survivors as [|[network event] survivors IH]; simpl; constructor;
    [apply tag_tagged_with|exact IH].
Qed.


End Aggregation.

Section AggregationExamples.
Import HttpClient BaseTool OrganizationTools SampleHost.


(** The same call through [execute]: validation passes, the executor runs,
    and the response optimization leaves its result as it is. *)
Example security_events_through_execute :
  fst (execute five_networks_upstream Settings.DEFAULT_SETTINGS
         (organization_security_events five_networks_upstream organization_parser)
         org_1_params [])
  = fst (security_events_executor five_networks_upstream org_1_params []).
Proof. reflexivity. Qed.

End AggregationExamples.

(* ================================================================== *)
(** * Further properties *)
(* ================================================================== *)

(** ** What [optimizeResponse] guarantees of its output *)

Section OptimizedOutput.
Variable options : OptimizationOptions.

Lemma forallb_firstn {A} (f : A -> bool) (n : nat) (l : list A) :
  forallb f l = true -> forallb f (firstn n l) = true.
Proof.
  revert l. induction n as [|n IH]; intros [|x l]; simpl; try reflexivity.
  intros Hall. apply andb_true_iff in Hall. destruct Hall as [Hx Hl].
  now rewrite Hx, IH.
Qed.

Lemma forallb_slice0 {A} (f : A -> bool) (e : Z) (l : list A) :
  forallb f l = true -> forallb f (slice0 e l) = true.
Proof. unfold slice0. destruct (e <? 0)%Z; apply forallb_firstn. Qed.

Lemma arrlen_slice0_le {A} (e : Z) (l : list A) :
  (0 <= e)%Z -> (arrlen (slice0 e l) <= e)%Z.
Proof.
  intros He. rewrite slice0_nonneg by assumption. unfold arrlen.
  rewrite length_firstn. lia.
Qed.

Lemma obj_set_forallb (f : string * value -> bool) (k : string) (v : value) (o : object) :
  f (k, v) = true -> forallb f o = true -> forallb f (obj_set k v o) = true.
Proof.
  intros Hkv. induction o as [|[k' v'] o IH]; simpl.
  - now rewrite Hkv.
  - intros Hall. apply andb_true_iff in Hall. destruct Hall as [Hx Ho].
    destruct (k' =? k); simpl.
    + now rewrite Hkv, Ho.
    + now rewrite Hx, IH.
Qed.

(** What holds of every field the loop writes holds of the object it
    builds. *)
Lemma optimize_entries_forallb (f : string * value -> bool) (fields optimized : object) :
  Forall (fun kv =>
            flag (removeNullFields options) && nullish (snd kv) = false ->
            f (fst kv, optimizeResponse options (snd kv)) = true) fields ->
  forallb f optimized = true ->
  forallb f (Spec.optimize_entries options fields optimized) = true.
Proof.
  intros Hfields. revert optimized.
  induction Hfields as [|[k v] fields Hv _ IH]; simpl; intros optimized Hacc.
  - assumption.
  - apply IH. unfold optimize_entry. simpl in *.
    destruct (flag (removeNullFields options) && nullish v); [assumption|].
    apply obj_set_forallb; auto.
Qed.

(** X1: with an array limit [M >= 0] and string truncation at [L >= 0]
    characters, every array anywhere inside the output of
    [optimizeResponse] holds at most [M] items and every string value at
    most [L + 15] characters, the length of the suffix
    ["... [truncated]"] included. *)
Theorem optimizeResponse_within_limits (M L : Z) (data : value) :
  maxArrayLength options = Some M -> (0 <= M)%Z ->
  truncateLongStrings options = Some true ->
  maxStringLength options = Some L -> (0 <= L)%Z ->
  within_limits M (L + 15) (optimizeResponse options data) = true.
Proof.
  intros HM HMpos Htrunc HL HLpos.
  induction data as [| |b|n|s|items IH|fields IH] using value_ind; try reflexivity.
  - simpl. rewrite Htrunc, HL. simpl.
    destruct (Z.ltb_spec L (strlen s)) as [Hlong|Hshort]; simpl.
    + apply Z.leb_le. unfold strlen, substring0 in *.
      rewrite string_length_app, substring0_length by lia. simpl. lia.
    + apply Z.leb_le. lia.
  - rewrite optimizeResponse_array, HM. cbv zeta. simpl slice0_opt. simpl gt_opt.
    assert (Hitems : forallb (within_limits M (L + 15))
                       (map (optimizeResponse options) (slice0 M items)) = true).
    { rewrite <- slice0_map. apply forallb_slice0.
      rewrite forallb_forall. intros x Hx. apply in_map_iff in Hx.
      destruct Hx as [item [<- Hin]]. rewrite Forall_forall in IH. now apply IH. }
    assert (Hlen : (arrlen (map (optimizeResponse options) (slice0 M items)) <= M)%Z).
    { unfold arrlen. rewrite length_map. now apply arrlen_slice0_le. }
    destruct (M <? arrlen items)%Z; simpl; rewrite Hitems;
      apply Z.leb_le in Hlen; now rewrite Hlen.
  - rewrite optimizeResponse_object. simpl.
    apply optimize_entries_forallb; [|reflexivity].
    eapply Forall_impl; [|exact IH]. intros kv Hkv _. exact Hkv.
Qed.

(** X2: with [removeNullFields] on, no object anywhere inside the output
    of [optimizeResponse], inside arrays as well, has a field whose value
    is [null] or [undefined]. *)
Theorem optimizeResponse_no_null_fields (data : value) :
  removeNullFields options = Some true ->
  no_null_fields (optimizeResponse options data) = true.
Proof.
  intros Hremove.
  induction data as [| |b|n|s|items IH|fields IH] using value_ind; try reflexivity.
  - simpl. now destruct (_ && _).
  - rewrite optimizeResponse_array. cbv zeta.
    assert (Hitems : forallb no_null_fields
                       (map (optimizeResponse options)
                            (slice0_opt (maxArrayLength options) items)) = true).
    { rewrite <- slice0_opt_map.
      assert (Hall : forallb no_null_fields (map (optimizeResponse options) items) = true).
      { rewrite forallb_forall. intros x Hx. apply in_map_iff in Hx.
        destruct Hx as [item [<- Hin]]. rewrite Forall_forall in IH. now apply IH. }
      destruct (maxArrayLength options); simpl; [now apply forallb_slice0|assumption]. }
    destruct (gt_opt _ _); simpl; now rewrite Hitems.
  - rewrite optimizeResponse_object. simpl.
    apply optimize_entries_forallb; [|reflexivity].
    eapply Forall_impl; [|exact IH]. intros [k v] Hkv Hkeep. simpl in *.
    rewrite Hremove in Hkeep. simpl in Hkeep.
    rewrite nullish_optimizeResponse, Hkeep. now rewrite Hkv.
Qed.

End OptimizedOutput.

(** ** Summaries of long lists *)

Section Summaries.

Lemma Set_of_length_ge (seen values : list value) :
  (List.length seen <= List.length (Set_of seen values))%nat.
Proof.
  revert seen. induction values as [|v values IH]; simpl; intros seen.
  - now rewrite length_rev.
  - destruct (existsb (sameValueZero v) seen); [apply IH|].
    specialize (IH (v :: seen)). simpl in IH. lia.
Qed.

Lemma Set_of_length_le (seen values : list value) :
  (List.length (Set_of seen values) <= List.length seen + List.length values)%nat.
Proof.
  revert seen. induction values as [|v values IH]; simpl; intros seen.
  - rewrite length_rev. lia.
  - destruct (existsb (sameValueZero v) seen).
    + specialize (IH seen). lia.
    + specialize (IH (v :: seen)). simpl in IH. lia.
Qed.

Lemma Set_of_In (seen values : list value) (x : value) :
  In x (Set_of seen values) -> In x seen \/ In x values.
Proof.
  revert seen. induction values as [|v values IH]; simpl; intros seen Hin.
  - left. now apply in_rev.
  - destruct (existsb (sameValueZero v) seen).
    + destruct (IH seen Hin); auto.
    + destruct (IH (v :: seen) Hin) as [[<-|Hseen]|Hrest]; auto.
Qed.

Lemma map_throwing_length {A B} (f : A -> option B) (l : list A) (ys : list B) :
  map_throwing f l = Some ys -> List.length ys = List.length l.
Proof.
  revert ys. induction l as [|x l IH]; simpl; intros ys Hmap.
  - now injection Hmap as <-.
  - destruct (f x); [|discriminate].
    destruct (map_throwing f l) as [ys'|]; [|discriminate].
    injection Hmap as <-. simpl. now rewrite (IH ys').
Qed.

Lemma map_throwing_In {A B} (f : A -> option B) (l : list A) (ys : list B) (y : B) :
  map_throwing f l = Some ys -> In y ys -> exists x, In x l /\ f x = Some y.
Proof.
  revert ys. induction l as [|x l IH]; simpl; intros ys Hmap Hin.
  - injection Hmap as <-. destruct Hin.
  - destruct (f x) as [y0|] eqn:Hx; [|discriminate].
    destruct (map_throwing f l) as [ys'|]; [|discriminate].
    injection Hmap as <-. destruct Hin as [<-|Hin].
    + exists x. auto.
    + destruct (IH ys' eq_refl Hin) as [x' [Hin' Hx']]. exists x'. auto.
Qed.

Lemma map_throwing_None {A B} (f : A -> option B) (l : list A) (x : A) :
  In x l -> f x = None -> map_throwing f l = None.
Proof.
  induction l as [|x0 l IH]; simpl; intros Hin Hx; [destruct Hin|].
  destruct Hin as [->|Hin].
  - now rewrite Hx.
  - destruct (f x0); [|reflexivity]. now rewrite IH.
Qed.

Lemma arrlen_firstn {A} (n : nat) (l : list A) :
  arrlen (firstn n l) = Z.min (Z.of_nat n) (arrlen l).
Proof. unfold arrlen. rewrite length_firstn. lia. Qed.

(** What [summarize_field] adds to the summary is a facet of the field. *)
Lemma summarize_field_facet (items : list value) (summary summary' : object)
    (field : string) (P : string * value -> Prop) :
  (forall facet, facet_of items field facet -> P (field, facet)) ->
  Forall P summary ->
  summarize_field items summary field = Some summary' ->
  Forall P summary'.
Proof.
  intros Hfacet Hsummary. unfold summarize_field.
  destruct (map_throwing (fun item => get_prop item field) items) as [read|] eqn:Hread;
    [|discriminate].
  set (values := filter _ read).
  destruct (Z.ltb_spec 0 (arrlen values)) as [Hsome|Hnone];
    intros Hret; injection Hret as <-; [|assumption].
  apply obj_set_Forall; [|assumption].
  apply Hfacet. eexists _, _. split; [reflexivity|].
  assert (Hvalues : (List.length values <= List.length items)%nat).
  { rewrite <- (map_throwing_length _ _ _ Hread). apply filter_length_le. }
  assert (Hge : (1 <= List.length (Set_of [] values))%nat).
  { destruct values as [|v values']; [unfold arrlen in Hsome; simpl in Hsome; lia|].
    simpl. pose proof (Set_of_length_ge [v] values'). simpl in *. lia. }
  pose proof (Set_of_length_le [] values) as Hle. simpl in Hle.
  split; [unfold arrlen; lia|]. split.
  - rewrite slice0_nonneg by lia. now rewrite arrlen_firstn.
  - apply Forall_forall. intros sample Hin.
    rewrite slice0_nonneg in Hin by lia. apply firstn_incl in Hin.
    apply Set_of_In in Hin. destruct Hin as [[]|Hin].
    apply filter_In in Hin. destruct Hin as [Hin Hdefined]. split.
    + intros ->. discriminate.
    + now apply (map_throwing_In _ _ _ _ Hread).
Qed.

Lemma summarize_fields_facets (items : list value) (fields : list string)
    (summary summary' : object) (P : string * value -> Prop) :
  (forall field facet, In field fields -> facet_of items field facet -> P (field, facet)) ->
  Forall P summary ->
  summarize_fields items summary fields = Some summary' ->
  Forall P summary'.
Proof.
  revert summary. induction fields as [|field fields IH]; simpl; intros summary HP Hsummary.
  - intros Hret. now injection Hret as <-.
  - destruct (summarize_field items summary field) as [summary1|] eqn:Hfield; [|discriminate].
    apply IH; [intros f facet Hin; apply HP; now right|].
    apply (summarize_field_facet items summary summary1 field P); [|assumption|assumption].
    intros facet. apply HP. now left.
Qed.

(** X3: for a list of more than 50 items, [createSummaryResponse] returns
    (when it returns) [{totalCount, firstItems, summary}] where
    [totalCount] is the length of the list, [firstItems] its first five
    items as they are, and every entry of [summary] belongs to one of the
    summary fields and holds [{uniqueCount, samples}] with
    [1 <= uniqueCount <= totalCount], [min(5, uniqueCount)] samples, each
    sample being the value, other than [undefined], that some item has for
    the field. *)
Theorem createSummaryResponse_long
    (items : list value) (summaryFields : option (list string)) (result : value) :
  (50 < arrlen items)%Z ->
  createSummaryResponse (VArr items) summaryFields = Some result ->
  exists summary,
    result = VObj [("totalCount", VNum (arrlen items));
                   ("firstItems", VArr (firstn 5 items));
                   ("summary", VObj summary)]
    /\ arrlen (firstn 5 items) = 5%Z
    /\ Forall (fun entry =>
                 (exists fields, summaryFields = Some fields /\ In (fst entry) fields)
                 /\ facet_of items (fst entry) (snd entry))
              summary.
Proof.
  intros Hlong. unfold createSummaryResponse.
  destruct (Z.eqb_spec (arrlen items) 0) as [Hzero|_]; [lia|].
  destruct (Z.ltb_spec 50 (arrlen items)) as [_|Hshort]; [|lia].
  set (P := fun entry : string * value =>
              (exists fields, summaryFields = Some fields /\ In (fst entry) fields)
              /\ facet_of items (fst entry) (snd entry)).
  assert (Hfacets : forall summary,
    match summaryFields with
    | Some fields =>
        if truthy (nth 0 items VUndefined) && typeof_object (nth 0 items VUndefined)
        then summarize_fields items [] fields
        else Some []
    | None => Some []
    end = Some summary -> Forall P summary).
  { intros summary. destruct summaryFields as [fields|].
    - destruct (_ && _).
      + apply summarize_fields_facets; [|constructor].
        intros field facet Hin Hfacet. split; [|assumption]. now exists fields.
      + intros Hret. injection Hret as <-. constructor.
    - intros Hret. injection Hret as <-. constructor. }
  destruct (match summaryFields with Some _ => _ | None => _ end) as [summary|];
    [|discriminate].
  intros Hret. injection Hret as <-. exists summary.
  split; [now rewrite slice0_nonneg by lia|].
  split; [rewrite arrlen_firstn; lia|]. now apply Hfacets.
Qed.

(** The decimal text of a natural number starts with a digit. *)
Lemma decimal_head (n : Z) :
  (0 <= n)%Z -> exists c rest, decimal n = String c rest /\ HttpClient.digit_of c <> None.
Proof.
  intros Hn. unfold decimal. destruct n as [|p|p]; [| |lia].
  - eexists _, _. split; [reflexivity|discriminate].
  - simpl. destruct (Pos.to_uint p); simpl; eexists _, _; (split; [reflexivity|discriminate]).
Qed.

(** A name that does not start with a digit is no index. *)
Lemma obj_get_indexed {A} (wrap : A -> value) (k : string) (i : nat) (l : list A) :
  (forall c rest, k = String c rest -> HttpClient.digit_of c = None) ->
  obj_get k (indexed wrap i l) = None.
Proof.
  intros Hk. revert i. induction l as [|x l IH]; simpl; intros i; [reflexivity|].
  destruct (String.eqb_spec (decimal (Z.of_nat i)) k) as [Heq|_]; [|apply IH].
  destruct (decimal_head (Z.of_nat i)) as [c [rest [Hdec Hdigit]]]; [lia|].
  exfalso. apply Hdigit. apply (Hk c rest). congruence.
Qed.

(** An array never passes the guard of [formatToolResponse]. *)
Lemma already_optimized_array (items : list value) :
  already_optimized (VArr items) = false.
Proof.
  unfold already_optimized, get_prop_opt, get_prop. simpl.
  rewrite !obj_get_indexed; [reflexivity| | |];
    intros c rest Heq; injection Heq as <- _; reflexivity.
Qed.

(** X4: a list of more than 50 items whose first item is an object and
    which holds a [null] or [undefined] item cannot be summarized by field:
    [createSummaryResponse] throws a TypeError when given at least one
    summary field, and so does [formatToolResponse] for every tool it has
    summary fields for. *)
Theorem createSummaryResponse_null_item
    (items : list value) (item : value) (field : string) (fields : list string)
    (toolName : string) :
  (50 < arrlen items)%Z ->
  In item items -> nullish item = true ->
  truthy (nth 0 items VUndefined) && typeof_object (nth 0 items VUndefined) = true ->
  createSummaryResponse (VArr items) (Some (field :: fields)) = None
  /\ (summary_fields_of_tool toolName <> None ->
      formatToolResponse_payload (VArr items) toolName = None).
Proof.
  intros Hlong Hin Hnull Hfirst.
  assert (Hthrows : forall f fs, createSummaryResponse (VArr items) (Some (f :: fs)) = None).
  { intros f fs. unfold createSummaryResponse.
    destruct (Z.eqb_spec (arrlen items) 0) as [Hzero|_]; [lia|].
    destruct (Z.ltb_spec 50 (arrlen items)) as [_|Hshort]; [|lia].
    rewrite Hfirst. simpl. unfold summarize_field.
    rewrite (map_throwing_None _ items item Hin); [reflexivity|].
    now destruct item. }
  split; [apply Hthrows|].
  intros Hknown. unfold formatToolResponse_payload.
  rewrite already_optimized_array. simpl.
  destruct (Z.ltb_spec 30 (arrlen items)) as [_|Hbad]; [|lia].
  destruct (summary_fields_of_tool toolName) as [[|f fs]|] eqn:Efields;
    [|apply Hthrows|congruence].
  unfold summary_fields_of_tool in Efields.
  repeat match type of Efields with
         | context [if ?b then _ else _] => destruct b
         end; discriminate.
Qed.

(** X5: a list of 31 to 50 items goes through [formatToolResponse]
    untouched, whatever the tool: it is too long for the basic
    optimization and too short for a summary, so its [null] fields stay
    and its long strings are not truncated. *)
Theorem formatToolResponse_medium_array (items : list value) (toolName : string) :
  (30 < arrlen items <= 50)%Z ->
  formatToolResponse_payload (VArr items) toolName = Some (VArr items).
Proof.
  intros [Hlow Hhigh]. unfold formatToolResponse_payload.
  rewrite already_optimized_array. simpl.
  destruct (Z.ltb_spec 30 (arrlen items)) as [_|Hbad]; [|lia].
  destruct (Z.eqb_spec (arrlen items) 0) as [Hzero|_]; [lia|].
  destruct (Z.ltb_spec 50 (arrlen items)) as [Hbad|_]; [lia|reflexivity].
Qed.

End Summaries.

(** ** How a call of the dispatcher ends *)

Section DispatcherOutcomes.
Import HttpClient.
Context `{Host} (upstream : Upstream).

Lemma executeRequest_catch_api (error : JsError) :
  exists message statusCode details,
    executeRequest_catch error = MerakiAPIError message statusCode details.
Proof. destruct error; simpl; eexists _, _, _; reflexivity. Qed.

Lemma network_error_api (name : string) (code : option string) (message : string) :
  exists text details, network_error name code message = MerakiAPIError text 0 details.
Proof.
  unfold network_error.
  repeat match goal with |- context [if ?b then _ else _] => destruct b end;
    eexists _, _; reflexivity.
Qed.

(** A response with a 2xx status ends the call with its body and headers. *)
Lemma executeRequest_success (config : AxiosRequestConfig) (retryCount : nat)
    (response : AxiosResponse) (tr : Trace) :
  upstream tr config = Resolved response ->
  (200 <= status response < 300)%Z ->
  executeRequest upstream config retryCount tr =
    (Returned {| result_data := data response; result_headers := headers response |},
     tr ++ [Sent config]).
Proof.
  intros Hreply [Hlow Hhigh]. rewrite executeRequest_unfold.
  unfold try_catch, bind, request. rewrite Hreply.
  destruct (Z.leb_spec 400 (status response)) as [Hbad|_]; [lia|].
  destruct (Z.eqb_spec (status response) 429) as [Hbad|_]; [lia|]. simpl.
  unfold executeRequest_settle.
  destruct (Z.leb_spec 200 (status response)) as [_|Hbad]; [|lia].
  destruct (Z.ltb_spec (status response) 300) as [_|Hbad]; [|lia].
  reflexivity.
Qed.

(** A transport failure ends the call at once. *)
Lemma executeRequest_failed (config : AxiosRequestConfig) (retryCount : nat)
    (name : string) (code : option string) (message : string) (tr : Trace) :
  upstream tr config = Failed name code message ->
  executeRequest upstream config retryCount tr =
    (Threw (network_error name code message), tr ++ [Sent config]).
Proof.
  intros Hreply. rewrite executeRequest_unfold.
  unfold try_catch, bind, request. rewrite Hreply.
  unfold handleNetworkError, throw.
  destruct (network_error_api name code message) as [text [details ->]]. reflexivity.
Qed.

(** X7: a call of [executeRequest] ends in one of two ways, whatever the
    upstream does.  It returns only the body and headers of a response
    with a 2xx status, and that response is the upstream's answer to the
    last request of the trace; or it throws, and what it throws is always
    a [MerakiAPIError]. *)
Theorem executeRequest_outcome (config : AxiosRequestConfig) (retryCount : nat)
    (tr : Trace) :
  match fst (executeRequest upstream config retryCount tr) with
  | Returned result =>
      exists before response,
        snd (executeRequest upstream config retryCount tr) = before ++ [Sent config]
        /\ upstream before config = Resolved response
        /\ (200 <= status response < 300)%Z
        /\ result = {| result_data := data response;
                       result_headers := headers response |}
  | Threw error =>
      exists message statusCode details,
        error = MerakiAPIError message statusCode details
  end.
Proof.
  remember (MAX_RETRIES - retryCount)%nat as budget eqn:Hbudget.
  revert retryCount tr Hbudget.
  assert (Hother : forall retryCount tr,
    (forall response, upstream tr config = Resolved response -> status response <> 429%Z) ->
    match fst (executeRequest upstream config retryCount tr) with
    | Returned result =>
        exists before response,
          snd (executeRequest upstream config retryCount tr) = before ++ [Sent config]
          /\ upstream before config = Resolved response
          /\ (200 <= status response < 300)%Z
          /\ result = {| result_data := data response;
                         result_headers := headers response |}
    | Threw error =>
        exists message statusCode details,
          error = MerakiAPIError message statusCode details
    end).
  { intros retryCount tr Hnot429.
    destruct (upstream tr config) as [response|name code message] eqn:Hreply.
    - specialize (Hnot429 response eq_refl).
      destruct (Z.le_gt_cases 200 (status response)) as [Hlow|Hlow];
        [destruct (Z.lt_ge_cases (status response) 300) as [Hhigh|Hhigh]|].
      + rewrite (executeRequest_success config retryCount response tr Hreply) by lia.
        simpl. exists tr, response. repeat split; auto.
      + rewrite (executeRequest_terminal upstream config retryCount response tr Hreply)
          by (auto; lia).
        simpl. apply executeRequest_catch_api.
      + rewrite (executeRequest_terminal upstream config retryCount response tr Hreply)
          by (auto; lia).
        simpl. apply executeRequest_catch_api.
    - rewrite (executeRequest_failed config retryCount name code message tr Hreply). simpl.
      destruct (network_error_api name code message) as [text [details ->]].
      eexists _, _, _. reflexivity. }
  induction budget as [|budget IH]; intros retryCount tr Hbudget;
    destruct (upstream tr config) as [response|name code message] eqn:Hreply;
    try (apply Hother; intros response' Hreply'; congruence);
    (destruct (Z.eq_dec (status response) 429) as [H429|Hnot429];
     [|apply Hother; intros response' Hreply'; congruence]).
  - rewrite (executeRequest_exhausted upstream config retryCount response tr Hreply H429)
      by lia.
    simpl. apply executeRequest_catch_api.
  - rewrite (executeRequest_rate_limited upstream config retryCount response tr Hreply H429)
      by lia.
    specialize (IH (retryCount + 1)%nat
                  (tr ++ [Sent config] ++ [Slept (getRetryAfter response)])).
    destruct (executeRequest upstream config (retryCount + 1) _) as [[result|error] tr'].
    + apply IH. lia.
    + simpl. apply executeRequest_catch_api.
Qed.


(** X9: a request that fails in transport (a timeout, an unknown host, a
    broken connection) is never retried: [executeRequest] throws after the
    one request, and the [MerakiAPIError] it throws has status code 0; for
    a timeout ([ECONNABORTED]) its message is ["Request timeout"]. *)
Theorem transport_failure_is_terminal (config : AxiosRequestConfig) (retryCount : nat)
    (name : string) (code : option string) (message : string) (tr : Trace) :
  upstream tr config = Failed name code message ->
  executeRequest upstream config retryCount tr =
    (Threw (network_error name code message), tr ++ [Sent config])
  /\ (exists text details, network_error name code message = MerakiAPIError text 0 details)
  /\ (code = Some "ECONNABORTED" ->
      network_error name code message =
        MerakiAPIError "Request timeout" 0 (DetailValue VNull)).
Proof.
  intros Hreply. split; [now apply executeRequest_failed|].
  split; [apply network_error_api|]. now intros ->.
Qed.

(** X11: an error response whose body has a non-empty string, not a list,
    under [errors] loses its status.  Building the message calls [join] on
    the string, the TypeError of that is caught by [executeRequest], and
    what the caller gets is a [MerakiAPIError] with the message
    ["Unknown error occurred"] and status code 0 in place of the HTTP
    status. *)
Theorem malformed_error_body_hides_status (config : AxiosRequestConfig)
    (retryCount : nat) (response : AxiosResponse) (text : string) (tr : Trace) :
  upstream tr config = Resolved response ->
  (400 <= status response)%Z -> status response <> 429%Z ->
  get_prop_opt (data response) "errors" = VStr text -> text <> "" ->
  exists details,
    executeRequest upstream config retryCount tr =
      (Threw (MerakiAPIError "Unknown error occurred" 0 details), tr ++ [Sent config]).
Proof.
  intros Hreply Hhigh Hnot429 Herrors Htext.
  rewrite (executeRequest_terminal upstream config retryCount response tr Hreply)
    by (auto; lia).
  unfold api_error, getErrorMessage. rewrite Herrors.
  assert (Hlen : gt_zero (length_opt (VStr text)) = true).
  { unfold gt_zero, length_opt, get_prop_opt. simpl.
    destruct text as [|c text]; [congruence|].
    apply Z.ltb_lt. unfold strlen. simpl. lia. }
  rewrite Hlen. simpl. eexists. reflexivity.
Qed.

End DispatcherOutcomes.

(** ** The retry-after hint *)

Section RetryAfter.
Import HttpClient.

(** X10: a [retry-after] header that holds a number of seconds in decimal
    digits gives a wait of that many seconds in double arithmetic: 1000
    times the double nearest to the number, rounded to a double again, or
    an infinity when either overflows.  While the number times 1000 is at
    most 2^53 in magnitude, nothing is rounded and the wait is exactly the
    number times 1000. *)
Theorem getRetryAfter_seconds (response : AxiosResponse) (seconds : Z) :
  header RETRY_AFTER (headers response) = Some (decimal seconds) ->
  getRetryAfter response = Number_mul (Number_of_integer seconds) 1000
  /\ ((Z.abs (seconds * 1000) <= MAX_EXACT)%Z ->
      getRetryAfter response = Finite (seconds * 1000)).
Proof.
  intros Hheader. split.
  - now apply getRetryAfter_decimal.
  - intros Hsafe. now apply getRetryAfter_exact.
Qed.

End RetryAfter.

(** ** Required parameters, and how [execute] ends *)

Section Required.

(** X14: on a parameter object, [validateRequired] throws for the first
    name of the required list, in the order of the list, that the object
    lacks or holds as [null] or [undefined], and the [ValidationError]
    names that field; it returns normally exactly when there is no such
    name. *)
Theorem validateRequired_first_missing (params : object) (required : list string) :
  validateRequired (VObj params) required =
    match find (fun field => negb (present params field)) required with
    | Some field => Some (ValidationError field "This field is required" VUndefined)
    | None => None
    end.
Proof.
  induction required as [|field rest IH]; simpl; [reflexivity|].
  unfold present at 1. destruct (obj_get field params) as [v|]; simpl.
  - destruct (nullish v); simpl; [reflexivity|exact IH].
  - reflexivity.
Qed.

End Required.

Section ExecutionOutcomes.
Import HttpClient BaseTool.
Context `{Host} (upstream : Upstream) (settings : Settings.MerakiMCPSettings)
        (config : ToolConfig).

Abbreviation prepared := (Spec.prepared settings config).
Abbreviation resolved_endpoint := (Spec.resolved_endpoint config).
Abbreviation outgoing := (Spec.outgoing config).
Abbreviation transformed_response := (Spec.transformed_response config).

(** X12: nothing but an [McpError] ever leaves [execute]: whatever the
    settings, the hooks of the tool, the parser and the upstream do, an
    error thrown by [execute] is an [McpError], one that [handleError]
    would hand on as it is. *)
Theorem execute_throws_McpError (params : value) (tr : Trace) :
  match fst (execute upstream settings config params tr) with
  | Returned _ => True
  | Threw error =>
      handleError error = error
      /\ exists code message data, error = McpError code message data
  end.
Proof.
  unfold execute, try_catch.
  match goal with
  | |- context [bind ?m ?k tr] => destruct (bind m k tr) as [[result|error] tr']
  end; simpl; [exact I|].
  destruct error; simpl; split; try reflexivity; eexists _, _, _; reflexivity.
Qed.

(** Once the parameters are validated, a tool with an endpoint sends one
    request through [executeRequest] and optimizes what comes back. *)
Lemma execute_validated_dispatch (validated : value) (resolved : string)
    (pathParams otherParams : object) (req : AxiosRequestConfig) (tr : Trace) :
  resolved_endpoint validated = Returned resolved ->
  resolved <> "" ->
  separateParams resolved validated = Some (pathParams, otherParams) ->
  outgoing (replacePathParams resolved pathParams) (VObj otherParams) = Some req ->
  execute_validated upstream settings config validated tr =
    (response <- executeRequest upstream req 0 ;;
     result <- lift (transformed_response (result_data response)) ;;
     lift (applyResponseOptimization settings config result)) tr.
Proof.
  intros Hendpoint Hnonempty Hseparate Hrequest.
  assert (Hresolved :
    match endpoint config with
    | Some (EndpointFunction f) => lift (f validated)
    | Some (EndpointString s) => ret s
    | None => ret EmptyString
    end = lift (Returned resolved)).
  { unfold Spec.resolved_endpoint in Hendpoint.
    destruct (endpoint config) as [[s|f]|]; unfold ret, lift;
      now rewrite ?Hendpoint; try (injection Hendpoint as ->). }
  assert (Hsend : send upstream config (replacePathParams resolved pathParams)
                    (VObj otherParams) = executeRequest upstream req 0).
  { unfold send, Spec.outgoing in *.
    destruct (method config); try congruence; injection Hrequest as <-; reflexivity. }
  assert (Htransform : forall response,
    match transformResponse config with
    | Some f => lift (f (result_data response))
    | None => ret (result_data response)
    end = lift (transformed_response (result_data response))).
  { intros response. unfold Spec.transformed_response.
    now destruct (transformResponse config). }
  assert (Hmethod : method config <> COMPOSITE).
  { intros Hcomposite. unfold Spec.outgoing in Hrequest.
    now rewrite Hcomposite in Hrequest. }
  unfold execute_validated.
  destruct (method config); try congruence;
    rewrite Hresolved; unfold bind at 1, lift at 1;
    (destruct (String.eqb_spec resolved "") as [Hempty|_]; [congruence|]);
    rewrite Hseparate, Hsend; unfold bind;
    destruct (executeRequest upstream req 0 tr) as [[response|error] tr1];
    try reflexivity; now rewrite Htransform.
Qed.

Lemma execute_dispatch (params transformed validated : value) (resolved : string)
    (pathParams otherParams : object) (req : AxiosRequestConfig) (tr : Trace) :
  prepared params = Some (Returned transformed) ->
  validateParams config transformed = Returned validated ->
  resolved_endpoint validated = Returned resolved ->
  resolved <> "" ->
  separateParams resolved validated = Some (pathParams, otherParams) ->
  outgoing (replacePathParams resolved pathParams) (VObj otherParams) = Some req ->
  execute upstream settings config params tr =
    try_catch
      (response <- executeRequest upstream req 0 ;;
       result <- lift (transformed_response (result_data response)) ;;
       lift (applyResponseOptimization settings config result))
      (fun error => throw (handleError error)) tr.
Proof.
  intros Hprepared Hvalid Hendpoint Hnonempty Hseparate Hrequest.
  rewrite (execute_prepared upstream settings config params transformed tr Hprepared).
  unfold try_catch, bind at 1, lift at 1. rewrite Hvalid.
  now rewrite (execute_validated_dispatch validated resolved pathParams otherParams req tr).
Qed.

(** X16: a call with valid parameters that the upstream answers with a
    2xx status sends exactly one request, the one of the tool's method
    with the endpoint filled in and the remaining parameters as query (GET,
    DELETE) or body (POST, PUT), and returns what
    [applyResponseOptimization] makes of the response body after
    [transformResponse]. *)
Theorem execute_success (params transformed validated result final : value)
    (resolved : string) (pathParams otherParams : object)
    (req : AxiosRequestConfig) (response : AxiosResponse) (tr : Trace) :
  prepared params = Some (Returned transformed) ->
  validateParams config transformed = Returned validated ->
  resolved_endpoint validated = Returned resolved ->
  resolved <> "" ->
  separateParams resolved validated = Some (pathParams, otherParams) ->
  outgoing (replacePathParams resolved pathParams) (VObj otherParams) = Some req ->
  upstream tr req = Resolved response ->
  (200 <= status response < 300)%Z ->
  transformed_response (data response) = Returned result ->
  applyResponseOptimization settings config result = Returned final ->
  execute upstream settings config params tr = (Returned final, tr ++ [Sent req]).
Proof.
  intros Hprepared Hvalid Hendpoint Hnonempty Hseparate Hrequest Hreply Hok
    Htransform Hoptimize.
  rewrite (execute_dispatch params transformed validated resolved pathParams otherParams
             req tr) by assumption.
  unfold try_catch, bind.
  rewrite (executeRequest_success upstream req 0 response tr Hreply Hok).
  unfold lift. simpl result_data. now rewrite Htransform, Hoptimize.
Qed.


End ExecutionOutcomes.

(** ** The number of attempts *)

Section Attempts.
Import HttpClient.
Context `{Host} (upstream : Upstream).

(** X6: whatever the upstream answers, one call of [executeRequest] only
    adds to the trace, and what it adds holds at least one request and at
    most [MAX_RETRIES - retryCount + 1] of them: never more than four for
    a call that starts at [retryCount = 0]. *)
Theorem executeRequest_attempts_bounded (config : AxiosRequestConfig) (retryCount : nat)
    (tr : Trace) :
  (exists added,
     snd (executeRequest upstream config retryCount tr) = tr ++ added
     /\ (1 <= List.length (requests added) <= MAX_RETRIES - retryCount + 1)%nat)
  /\ (exists added,
        snd (executeRequest upstream config 0 tr) = tr ++ added
        /\ (1 <= List.length (requests added) <= 4)%nat).
Proof.
  split; [apply executeRequest_appends|].
  destruct (executeRequest_appends upstream config 0 tr) as [added [Htrace Hcount]].
  exists added. split; [assumption|]. unfold MAX_RETRIES in Hcount. lia.
Qed.

End Attempts.

(** ** The approval policy and its patterns *)

Section Approval.
Import Settings.
Context `{Host}.

Lemma any_pattern_matches_existsb (matching : string -> bool) (toolName : string)
    (pats : list string) :
  (forall pattern, In pattern pats ->
     matchesPattern toolName pattern = Some (matching pattern)) ->
  any_pattern_matches toolName pats = Some (existsb matching pats).
Proof.
  induction pats as [|pattern pats IH]; simpl; intros Hcompile; [reflexivity|].
  rewrite (Hcompile pattern) by now left.
  destruct (matching pattern); simpl; [reflexivity|].
  apply IH. intros p Hin. apply Hcompile. now right.
Qed.

(** X17: when every pattern of the list compiles, [shouldAutoApprove]
    approves a tool exactly when auto-approval is enabled, the tool is not
    on the exclude list, and one of these holds: [all] is set, the tool is
    on the [specific] list, some pattern matches its name, or
    [readOnlyByDefault] is set and [isReadOnlyTool] takes the name for a
    read-only one. *)
Theorem shouldAutoApprove_decision
    (settings : MerakiMCPSettings) (aa : AutoApproveSettings)
    (matching : string -> bool) (toolName : string) :
  autoApprove settings = Some aa ->
  (forall pats pattern, patterns (tools aa) = Some pats -> In pattern pats ->
     matchesPattern toolName pattern = Some (matching pattern)) ->
  shouldAutoApprove settings toolName =
    Some (enabled aa
          && negb (includes_name (exclude (tools aa)) toolName)
          && (flag (all (tools aa))
              || includes_name (specific (tools aa)) toolName
              || match patterns (tools aa) with
                 | Some pats => existsb matching pats
                 | None => false
                 end
              || (flag (readOnlyByDefault aa) && isReadOnlyTool toolName))).
Proof.
  intros Haa Hcompile. unfold shouldAutoApprove. rewrite Haa.
  destruct (enabled aa); simpl; [|reflexivity].
  destruct (includes_name (exclude (tools aa)) toolName); simpl; [reflexivity|].
  destruct (flag (all (tools aa))); simpl; [reflexivity|].
  destruct (includes_name (specific (tools aa)) toolName); simpl; [reflexivity|].
  destruct (patterns (tools aa)) as [pats|] eqn:Hpats.
  - rewrite (any_pattern_matches_existsb matching) by (intros p; now apply Hcompile).
    destruct (existsb matching pats); simpl; [reflexivity|].
    now destruct (_ && _).
  - simpl. now destruct (_ && _).
Qed.

End Approval.

Section ReadOnlyNames.
Import Settings.

Lemma toLowerCase_app (a b : string) :
  toLowerCase (a ++ b) = (toLowerCase a ++ toLowerCase b)%string.
Proof. induction a as [|c a IH]; simpl; [reflexivity|now rewrite IH]. Qed.

Lemma lower_ascii_twice (c : ascii) : lower_ascii (lower_ascii c) = lower_ascii c.
Proof.
  destruct c as [[] [] [] [] [] [] [] []]; reflexivity.
Qed.

Lemma toLowerCase_twice (s : string) : toLowerCase (toLowerCase s) = toLowerCase s.
Proof.
  induction s as [|c s IH]; simpl; [reflexivity|].
  now rewrite lower_ascii_twice, IH.
Qed.

Lemma prefix_app (p s : string) : String.prefix p (p ++ s) = true.
Proof.
  induction p as [|c p IH]; simpl; [now destruct s|].
  destruct (Ascii.ascii_dec c c); [exact IH|congruence].
Qed.

Lemma endsWith_app (a p : string) : endsWith (a ++ p) p = true.
Proof.
  induction a as [|c a IH]; cbn [append].
  - destruct p; cbn [endsWith]; now rewrite String.eqb_refl.
  - cbn [endsWith]. rewrite IH. apply orb_true_r.
Qed.

Lemma includes_app (a m b : string) : includes (a ++ m ++ b) m = true.
Proof.
  induction a as [|c a IH]; cbn [append].
  - pose proof (prefix_app m b) as Hprefix.
    destruct (m ++ b)%string; cbn [includes]; now rewrite Hprefix.
  - cbn [includes]. rewrite IH. apply orb_true_r.
Qed.

Ltac lower_literal :=
  unfold isReadOnlyTool; rewrite !toLowerCase_app;
  repeat match goal with
         | |- context [toLowerCase (String ?c ?s)] =>
             let v := eval vm_compute in (toLowerCase (String c s)) in
             change (toLowerCase (String c s)) with v
         end.

(** X18: [isReadOnlyTool] goes by the name alone.  Every name that starts
    with one of the read-only prefixes ([get], [list], ...), every name
    that ends with one of the suffixes ([_get], [_list], [_status], ...)
    and every name that holds one of the markers [_get_], [_list_],
    [_statuses], [_overview] anywhere is taken for read-only, whatever the
    rest of the name says; and the case of the letters plays no part. *)
Theorem isReadOnlyTool_by_name :
  Forall (fun prefix_ => forall rest, isReadOnlyTool (prefix_ ++ rest) = true)
         readOnlyPrefixes
  /\ Forall (fun suffix => forall start, isReadOnlyTool (start ++ suffix) = true)
            readOnlySuffixes
  /\ Forall (fun marker => forall start rest,
               isReadOnlyTool (start ++ marker ++ rest) = true)
            readOnlyMarkers
  /\ (forall toolName, isReadOnlyTool (toLowerCase toolName) = isReadOnlyTool toolName).
Proof.
  split; [|split; [|split]].
  - unfold readOnlyPrefixes. repeat apply Forall_cons; try apply Forall_nil;
      intros rest; lower_literal;
      match goal with
      | |- context [existsb (startsWith ?s) readOnlyPrefixes] =>
          assert (Hstarts : existsb (startsWith s) readOnlyPrefixes = true)
      end;
      try (apply existsb_exists; eexists; split; [|apply prefix_app];
           unfold readOnlyPrefixes; simpl; tauto);
      now rewrite Hstarts.
  - unfold readOnlySuffixes. repeat apply Forall_cons; try apply Forall_nil;
      intros start; lower_literal;
      match goal with
      | |- context [existsb (endsWith ?s) readOnlySuffixes] =>
          assert (Hends : existsb (endsWith s) readOnlySuffixes = true)
      end;
      try (apply existsb_exists; eexists; split; [|apply endsWith_app];
           unfold readOnlySuffixes; simpl; tauto);
      rewrite Hends; now destruct (existsb _ readOnlyPrefixes).
  - unfold readOnlyMarkers. repeat apply Forall_cons; try apply Forall_nil;
      intros start rest; lower_literal;
      match goal with
      | |- context [existsb (startsWith ?s) readOnlyPrefixes] =>
          destruct (existsb (startsWith s) readOnlyPrefixes); [reflexivity|];
          destruct (existsb (endsWith s) readOnlySuffixes); [reflexivity|]
      end;
      rewrite includes_app; now rewrite ?orb_true_r.
  - intros toolName. unfold isReadOnlyTool. now rewrite toLowerCase_twice.
Qed.

End ReadOnlyNames.

Section Globs.
Import Settings.

Lemma string_app_assoc (a b c : string) :
  ((a ++ b) ++ c)%string = (a ++ b ++ c)%string.
Proof. induction a as [|x a IH]; simpl; [reflexivity|now rewrite IH]. Qed.

Lemma replaceAll_app (c : ascii) (by_ a b : string) :
  replaceAll c by_ (a ++ b) = (replaceAll c by_ a ++ replaceAll c by_ b)%string.
Proof.
  induction a as [|c' a IH]; simpl; [reflexivity|].
  rewrite IH. destruct (Ascii.eqb c' c); simpl; [|reflexivity].
  now rewrite string_app_assoc.
Qed.

Lemma regexPattern_cons (c : ascii) (pattern : string) :
  regexPattern (String c pattern) = (glob_char c ++ regexPattern pattern)%string.
Proof.
  unfold regexPattern, glob_char.
  repeat (cbn [replaceAll];
          match goal with
          | |- context [Ascii.eqb c ?x] =>
              destruct (Ascii.eqb_spec c x) as [->|?];
              [rewrite ?replaceAll_app; reflexivity|]
          end).
  reflexivity.
Qed.

Lemma glob_source_app (a b : string) :
  glob_source (a ++ b) = (glob_source a ++ glob_source b)%string.
Proof.
  induction a as [|c a IH]; simpl; [reflexivity|].
  rewrite IH. now rewrite string_app_assoc.
Qed.

(** X19: the four replacements of [matchesPattern] amount to one pass
    over the glob, character by character: [*] becomes [.*], [?] becomes
    [.], the two square brackets are escaped, and every other character,
    the dot, the parentheses and the backslash among them, goes into the
    regular expression as it is; so the translation of a concatenation is
    the concatenation of the translations. *)
Theorem regexPattern_by_character (pattern : string) :
  regexPattern pattern = glob_source pattern
  /\ (forall rest,
        regexPattern (pattern ++ rest) = (regexPattern pattern ++ regexPattern rest)%string).
Proof.
  assert (Hsource : forall p, regexPattern p = glob_source p).
  { induction p as [|c p IH]; [reflexivity|].
    rewrite regexPattern_cons, IH. reflexivity. }
  split; [apply Hsource|].
  intros rest. rewrite !Hsource. apply glob_source_app.
Qed.

End Globs.

(** ** Default parameters that do not compile, and the merge of settings *)

Section BrokenPattern.
Import Settings HttpClient BaseTool.
Context `{Host} (upstream : Upstream) (settings : MerakiMCPSettings)
        (config : ToolConfig).

Lemma apply_pattern_defaults_throws (toolName pattern : string) (params : value)
    (entries defaults : object) :
  In (pattern, params) entries ->
  matchesPattern toolName pattern = None ->
  apply_pattern_defaults toolName entries defaults = None.
Proof.
  revert defaults. induction entries as [|[p q] entries IH]; simpl; intros defaults Hin Hbad.
  - destruct Hin.
  - destruct Hin as [Heq|Hin].
    + injection Heq as -> ->. now rewrite Hbad.
    + destruct (matchesPattern toolName p) as [[|]|]; auto.
Qed.

(** X20: one key of the default-parameter table that does not compile as
    a regular expression once translated makes [getDefaultParams] throw,
    wherever the key stands in the table; [execute] then fails for the tool
    with an [McpError] of code [InternalError] that reports a SyntaxError,
    before the parameters are looked at and before anything is sent. *)
Theorem broken_default_pattern_fails_every_call
    (table : object) (pattern : string) (entry params : value) (tr : Trace) :
  defaultParams settings = Some table ->
  In (pattern, entry) table ->
  matchesPattern (name config) pattern = None ->
  getDefaultParams settings (name config) = None
  /\ exists message,
       execute upstream settings config params tr =
         (Threw (McpError InternalError message (DataOriginal "SyntaxError")), tr).
Proof.
  intros Htable Hin Hbad.
  assert (Hnone : getDefaultParams settings (name config) = None).
  { unfold getDefaultParams. rewrite Htable.
    now rewrite (apply_pattern_defaults_throws _ pattern entry table [] Hin Hbad). }
  split; [assumption|].
  unfold execute, try_catch, bind. rewrite Hnone. simpl.
  eexists. reflexivity.
Qed.

End BrokenPattern.

Section DeepMerge.
Import Settings.

Lemma obj_get_In (k : string) (v : value) (o : object) :
  obj_get k o = Some v -> In k (keys o).
Proof.
  induction o as [|[k' v'] o IH]; simpl; [discriminate|].
  destruct (String.eqb_spec k' k); [now left|right; auto].
Qed.

(** The loop of [deepMerge] leaves a key it has not met as it was. *)
Lemma deepMerge_loop (t s output : object) (k : string) :
  NoDup (keys s) ->
  obj_get k
    (fold_left
       (fun output kv =>
          if isObject (snd kv) then
            match obj_get (fst kv) t with
            | None => obj_set (fst kv) (snd kv) output
            | Some below => obj_set (fst kv) (deepMerge below (snd kv)) output
            end
          else obj_set (fst kv) (snd kv) output)
       s output) =
    match obj_get k s with
    | None => obj_get k output
    | Some given =>
        if isObject given then
          match obj_get k t with
          | None => Some given
          | Some below => Some (deepMerge below given)
          end
        else Some given
    end.
Proof.
  revert output. induction s as [|[k0 v0] s IH]; simpl; intros output Hnd; [reflexivity|].
  inversion Hnd as [|? ? Hfresh Hnd']; subst.
  rewrite IH by assumption.
  destruct (String.eqb_spec k0 k) as [->|Hne].
  - destruct (obj_get k s) as [v|] eqn:Hget.
    + exfalso. apply Hfresh. now apply (obj_get_In k v).
    + destruct (isObject v0); [destruct (obj_get k t)|];
        rewrite obj_get_set, String.eqb_refl; reflexivity.
  - destruct (obj_get k s) as [v|]; [reflexivity|].
    destruct (isObject v0); [destruct (obj_get k0 t)|];
      rewrite obj_get_set; now destruct (String.eqb_spec k0 k).
Qed.

(** X21: [deepMerge] of two objects is an object in which a key the
    source lacks keeps the target's value; a key the source gives a value
    that is no object (a number, a string, a list, [null]) takes the
    source's value; a key the source gives an object takes that object when
    the target lacks the key and the merge of the two values when it has
    it.  Where the target's value is no object that merge is the spread of
    the target's value, so the source's object is lost. *)
Theorem deepMerge_lookup (target source : object) (key : string) :
  NoDup (keys source) ->
  exists merged,
    deepMerge (VObj target) (VObj source) = VObj merged
    /\ obj_get key merged =
         match obj_get key source with
         | None => obj_get key target
         | Some given =>
             match given, obj_get key target with
             | VObj _, Some below => Some (deepMerge below given)
             | _, _ => Some given
             end
         end
    /\ (forall below given,
          isObject below = false -> deepMerge below given = VObj (spread below)).
Proof.
  intros Hnd. eexists. split; [reflexivity|]. split.
  - rewrite deepMerge_loop by assumption.
    destruct (obj_get key source) as [given|]; [|reflexivity].
    destruct given; reflexivity.
  - intros below given Hbelow. destruct below; try discriminate; now destruct given.
Qed.

End DeepMerge.

(** ** The steps of the tool engine *)

Section Coercion.
Import BaseTool.
Context `{Host} (config : ToolConfig).

Abbreviation coerced_value := (Spec.coerced_value config).

Lemma obj_set_middle (k : string) (v v0 : value) (before after : object) :
  ~ In k (keys before) ->
  obj_set k v (before ++ (k, v0) :: after) = before ++ (k, v) :: after.
Proof.
  induction before as [|[k' v'] before IH]; simpl; intros Hfresh.
  - now rewrite String.eqb_refl.
  - destruct (String.eqb_spec k' k) as [->|Hne].
    + exfalso. apply Hfresh. now left.
    + rewrite IH; [reflexivity|]. intros Hin. apply Hfresh. now right.
Qed.

(** X22: [coerceParameterTypes] works parameter by parameter.  It keeps
    the keys and their order, gives every key the coerced value of its own
    value, and leaves every value that is not a string as it is. *)
Theorem coerceParameterTypes_pointwise (params : object) :
  NoDup (keys params) ->
  coerceParameterTypes config params =
    map (fun kv => (fst kv, coerced_value (fst kv) (snd kv))) params
  /\ keys (coerceParameterTypes config params) = keys params
  /\ (forall key value_,
        In (key, value_) params -> (forall text, value_ <> VStr text) ->
        In (key, value_) (coerceParameterTypes config params)).
Proof.
  intros Hnd.
  assert (Hloop : forall rest done,
    NoDup (keys (done ++ rest)) ->
    fold_left
      (fun result kv =>
         match coerce_entry (shape (inputSchema config)) (fst kv) (snd kv) with
         | Some coerced => obj_set (fst kv) coerced result
         | None => result
         end)
      rest (done ++ rest) =
    done ++ map (fun kv => (fst kv, coerced_value (fst kv) (snd kv))) rest).
  { induction rest as [|[k v] rest IH]; simpl; intros done Hnd'; [reflexivity|].
    assert (Hfresh : ~ In k (keys done)).
    { unfold keys in Hnd'. rewrite map_app in Hnd'. simpl in Hnd'.
      apply NoDup_remove_2 in Hnd'. intros Hin. apply Hnd'.
      apply in_or_app. now left. }
    unfold Spec.coerced_value at 1. simpl.
    destruct (coerce_entry (shape (inputSchema config)) k v) as [coerced|].
    - rewrite obj_set_middle by assumption.
      change (done ++ (k, coerced) :: rest) with (done ++ [(k, coerced)] ++ rest).
      rewrite app_assoc, IH; [now rewrite <- app_assoc|].
      rewrite <- app_assoc. simpl.
      unfold keys in *. rewrite map_app in *. exact Hnd'.
    - change (done ++ (k, v) :: rest) with (done ++ [(k, v)] ++ rest).
      rewrite app_assoc, IH; [now rewrite <- app_assoc|].
      now rewrite <- app_assoc. }
  assert (Hmap : coerceParameterTypes config params =
                 map (fun kv => (fst kv, coerced_value (fst kv) (snd kv))) params).
  { unfold coerceParameterTypes. apply (Hloop params []). exact Hnd. }
  split; [exact Hmap|]. rewrite Hmap. split.
  - unfold keys. rewrite map_map. reflexivity.
  - intros key value_ Hin Hnotstring. apply in_map_iff.
    exists (key, value_). split; [|assumption]. simpl. f_equal.
    unfold Spec.coerced_value, coerce_entry.
    destruct (nullish value_); [reflexivity|].
    destruct (find _ _) as [[k fieldSchema]|]; [|reflexivity].
    destruct (unwrap_field fieldSchema) as [typeName_ innerSchema].
    destruct value_; try reflexivity. now contradiction (Hnotstring s).
Qed.

End Coercion.

Section PathParameters.
Import BaseTool.
Context `{Host}.

Lemma obj_delete_filter (k : string) (o : object) :
  obj_delete k o = filter (fun kv => negb (fst kv =? k)) o.
Proof.
  induction o as [|[k' v'] o IH]; simpl; [reflexivity|].
  rewrite IH. now destruct (k' =? k).
Qed.

Lemma filter_absent (k : string) (o : object) (keep : string * value -> bool) :
  obj_get k o = None ->
  filter (fun kv => negb (fst kv =? k)) (filter keep o) = filter keep o.
Proof.
  induction o as [|[k' v'] o IH]; simpl; [reflexivity|].
  destruct (String.eqb_spec k' k) as [->|Hne]; [discriminate|].
  intros Habsent. destruct (keep (k', v')); simpl.
  - destruct (String.eqb_spec k' k); [congruence|]. simpl. now rewrite IH.
  - now apply IH.
Qed.

Lemma filter_filter {A} (f g : A -> bool) (l : list A) :
  filter f (filter g l) = filter (fun x => g x && f x) l.
Proof.
  induction l as [|x l IH]; simpl; [reflexivity|].
  destruct (g x); simpl; [destruct (f x)|]; now rewrite IH.
Qed.

Lemma separate_loop_object (o : object) (names done : list string)
    (pathParams : object) :
  exists pathParams',
    separate_loop (VObj o) names pathParams
      (filter (fun kv => negb (existsb (String.eqb (fst kv)) done)) o)
    = Some (pathParams',
            filter (fun kv => negb (existsb (String.eqb (fst kv)) (done ++ names))) o)
    /\ forall k,
         obj_get k pathParams' =
           if existsb (String.eqb k) names
           then match obj_get k o with
                | Some v => Some (VStr (ToString v))
                | None => obj_get k pathParams
                end
           else obj_get k pathParams.
Proof.
  revert done pathParams.
  induction names as [|paramName names IH]; simpl; intros done pathParams.
  - exists pathParams. rewrite app_nil_r. split; reflexivity.
  - unfold obj_has. simpl.
    destruct (obj_get paramName o) as [v|] eqn:Hget.
    + destruct (IH (done ++ [paramName])
                  (obj_set paramName (VStr (ToString v)) pathParams))
        as [pathParams' [Hloop Hkeys]].
      exists pathParams'. split.
      * unfold get_prop_opt. simpl. rewrite Hget.
        rewrite obj_delete_filter, filter_filter.
        rewrite <- app_assoc in Hloop. simpl in Hloop. rewrite <- Hloop.
        f_equal. apply filter_ext. intros [k' v']. simpl.
        rewrite existsb_app. simpl. rewrite orb_false_r, negb_orb.
        now rewrite (String.eqb_sym k' paramName).
      * intros k. rewrite Hkeys, obj_get_set.
        rewrite (String.eqb_sym k paramName).
        destruct (String.eqb_spec paramName k) as [->|Hne]; simpl.
        -- rewrite Hget. now destruct (existsb (String.eqb k) names).
        -- reflexivity.
    + destruct (IH (done ++ [paramName]) pathParams) as [pathParams' [Hloop Hkeys]].
      exists pathParams'. split.
      * rewrite <- app_assoc in Hloop. simpl in Hloop. rewrite <- Hloop.
        f_equal.
        rewrite <- (filter_absent paramName o
                      (fun kv => negb (existsb (String.eqb (fst kv)) done)) Hget).
        rewrite filter_filter. apply filter_ext. intros [k' v']. simpl.
        rewrite existsb_app. simpl. rewrite orb_false_r, negb_orb.
        now rewrite (String.eqb_sym k' paramName).
      * intros k. rewrite Hkeys.
        rewrite (String.eqb_sym k paramName).
        destruct (String.eqb_spec paramName k) as [->|Hne]; simpl; [|reflexivity].
        rewrite Hget. now destruct (existsb (String.eqb k) names).
Qed.

Lemma obj_get_filter_keys (keep : string -> bool) (k : string) (o : object) :
  obj_get k (filter (fun kv => keep (fst kv)) o) = if keep k then obj_get k o else None.
Proof.
  induction o as [|[k' v'] o IH]; simpl; [now destruct (keep k)|].
  destruct (keep k') eqn:Hkeep; simpl.
  - destruct (String.eqb_spec k' k) as [->|Hne]; [now rewrite Hkeep|exact IH].
  - destruct (String.eqb_spec k' k) as [->|Hne]; [now rewrite IH, Hkeep|exact IH].
Qed.

Lemma pathParamNames_none (endpoint_ : string) :
  includes endpoint_ "{" = false -> pathParamNames endpoint_ None = [].
Proof.
  induction endpoint_ as [|c rest IH]; [reflexivity|].
  cbn [includes pathParamNames String.prefix].
  destruct (Ascii.eqb_spec c "{") as [->|Hne].
  - simpl. now destruct rest.
  - intros Hnone. apply IH. apply orb_false_iff in Hnone. tauto.
Qed.


End PathParameters.

Section Limits.
Import BaseTool.
Context `{Host} (settings : Settings.MerakiMCPSettings) (config : ToolConfig).

Abbreviation limit := (Settings.maxArrayLength (Settings.limits_or_default settings)).

(** X24: for a tool whose name holds [_list], a list longer than the
    limit [maxArrayLength >= 0] of the settings comes back as
    [{data, meta}] where [data] holds exactly the first [maxArrayLength]
    items as they are and [meta] gives the total, the number returned and
    [truncated = true]; and [formatToolResponse] takes that payload for
    already optimized and leaves it alone. *)
Theorem applyResponseOptimization_list_limit
    (items : list value) (text : string) (toolName : string) :
  includes (name config) "_list" = true ->
  (0 <= limit < arrlen items)%Z ->
  JSON_stringify (VArr items) = Some text ->
  exists meta limited,
    applyResponseOptimization settings config (VArr items) = Returned limited
    /\ limited = VObj [("data", VArr (firstn (Z.to_nat limit) items)); ("meta", VObj meta)]
    /\ arrlen (firstn (Z.to_nat limit) items) = limit
    /\ obj_get "total" meta = Some (VNum (arrlen items))
    /\ obj_get "returned" meta = Some (VNum limit)
    /\ obj_get "truncated" meta = Some (VBool true)
    /\ formatToolResponse_payload limited toolName = Some limited.
Proof.
  intros Hlist [Hlow Hhigh] Htext. unfold applyResponseOptimization.
  rewrite Htext, Hlist. simpl.
  destruct (Z.ltb_spec limit (arrlen items)) as [_|Hbad]; [|lia].
  eexists _, _. split; [reflexivity|].
  rewrite slice0_nonneg by assumption.
  split; [reflexivity|]. split; [rewrite arrlen_firstn; lia|].
  repeat split.
Qed.

(** X25: [applyResponseOptimization] is idempotent: applied to a result
    of its own (one that [JSON.stringify] can print), it returns that
    result unchanged.  A truncated list and a summary are objects, which it
    never rewrites. *)
Theorem applyResponseOptimization_idempotent (response result : value) :
  applyResponseOptimization settings config response = Returned result ->
  JSON_stringify result <> None ->
  applyResponseOptimization settings config result = Returned result.
Proof.
  unfold applyResponseOptimization at 1.
  destruct (JSON_stringify response) as [responseStr|] eqn:Hstr; [|discriminate].
  intros Hfirst Hdefined.
  assert (Hobject : forall fields,
    result = VObj fields ->
    applyResponseOptimization settings config result = Returned result).
  { intros fields ->. unfold applyResponseOptimization.
    destruct (JSON_stringify (VObj fields)); [|congruence].
    clear. destruct (_ && _); reflexivity. }
  assert (Hsame : result = response ->
    applyResponseOptimization settings config response = Returned result ->
    applyResponseOptimization settings config result = Returned result).
  { now intros ->. }
  assert (Hwhole : applyResponseOptimization settings config response = Returned result).
  { unfold applyResponseOptimization. now rewrite Hstr. }
  destruct response as [| |b|n|s|items|fields];
    try (cbv beta iota zeta in Hfirst;
         destruct (_ && _); injection Hfirst as <-; now apply Hsame).
  cbv beta iota zeta in Hfirst.
  destruct (includes (name config) "_list" && (limit <? arrlen items)%Z).
  - injection Hfirst as <-. eapply Hobject. reflexivity.
  - destruct (_ && _); [|injection Hfirst as <-; now apply Hsame].
    unfold createSummaryResponse in Hfirst.
    destruct (arrlen items =? 0)%Z; [injection Hfirst as <-; now apply Hsame|].
    destruct (50 <? arrlen items)%Z; [|injection Hfirst as <-; now apply Hsame].
    destruct (if truthy _ && typeof_object _ then _ else _) as [summary|];
      [|discriminate].
    injection Hfirst as <-. eapply Hobject. reflexivity.
Qed.

End Limits.

(** ** More on the composite tool *)

Section CompositeBounds.
Import HttpClient BaseTool OrganizationTools.
Context `{Host} (upstream : Upstream).

Abbreviation collected_in_turns := (collected_in_turns upstream).

Lemma requests_app (a b : Trace) : requests (a ++ b) = requests a ++ requests b.
Proof.
  induction a as [|[config|ms] a IH]; simpl; [reflexivity| |assumption].
  now rewrite IH.
Qed.

(** One turn of the loop adds at most four requests to the trace. *)
Lemma collect_network_requests (params network : value) (collected : list value)
    (tr : Trace) :
  exists added,
    snd (collect_network upstream params network collected tr) = tr ++ added
    /\ (List.length (requests added) <= 4)%nat.
Proof.
  unfold collect_network.
  destruct (get_prop network "id") as [networkId|].
  - unfold bind, get.
    destruct (executeRequest_appends upstream
                {| req_method := "GET";
                   req_url := "/networks/" ++ ToString networkId ++ "/events";
                   req_params := VObj [("params", VObj (eventParams_for params networkId))];
                   req_data := VUndefined |} 0 tr) as [added [Htrace Hcount]].
    exists added. split; [|unfold MAX_RETRIES in Hcount; lia].
    destruct (executeRequest upstream _ 0 tr) as [[eventsResponse|error] tr'];
      simpl in *; [|assumption].
    now destruct (eventsWithNetwork _ _ _).
  - exists []. split; [simpl; now rewrite app_nil_r|simpl; lia].
Qed.

Lemma collected_in_turns_requests (params : value) (networks : list value) (tr : Trace) :
  exists added,
    snd (collected_in_turns params networks tr) = tr ++ added
    /\ (List.length (requests added) <= 4 * List.length networks)%nat.
Proof.
  revert tr. induction networks as [|network rest IH]; intros tr.
  - exists []. split; [simpl; now rewrite app_nil_r|simpl; lia].
  - destruct (collect_network_requests params network [] tr) as [first [Hfirst Hcount]].
    cbn [OrganizationTools.collected_in_turns].
    destruct (collect_network upstream params network [] tr) as [[tagged|error] tr'];
      simpl in Hfirst; subst tr';
      destruct (IH (tr ++ first)) as [added [Hrest Hbound]];
      exists (first ++ added);
      (split; [simpl; rewrite Hrest; now rewrite app_assoc|]);
      rewrite requests_app, length_app; simpl List.length; lia.
Qed.

(** X27: once the list of networks has been fetched, the composite tool
    only adds to the trace, and what it adds (the request for the list
    included) holds at most four requests for the list and four for each
    network, retries counted: at most [4 * (1 + n)] requests for [n]
    networks. *)
Theorem security_events_request_bound (params : value) (networksResponse : MerakiApiResponse)
    (organizationId : value) (networks : list value) (tr tr1 : Trace) :
  get_prop params "organizationId" = Some organizationId ->
  get upstream ("/organizations/" ++ ToString organizationId ++ "/networks") VUndefined tr
    = (Returned networksResponse, tr1) ->
  iterate (result_data networksResponse) = Some networks ->
  exists added,
    snd (security_events_executor upstream params tr) = tr ++ added
    /\ (1 <= List.length (requests added) <= 4 * (1 + List.length networks))%nat.
Proof.
  intros Horg Hnetworks Hiterate.
  destruct (executeRequest_appends upstream
              {| req_method := "GET";
                 req_url := "/organizations/" ++ ToString organizationId ++ "/networks";
                 req_params := VUndefined; req_data := VUndefined |} 0 tr)
    as [first [Hfirst Hcount]].
  unfold get in Hnetworks. rewrite Hnetworks in Hfirst. simpl in Hfirst. subst tr1.
  destruct (collected_in_turns_requests params networks (tr ++ first))
    as [added [Hrest Hbound]].
  exists (first ++ added). split.
  - unfold security_events_executor. rewrite Horg. unfold bind, get.
    rewrite Hnetworks. cbv beta iota. rewrite Hiterate.
    rewrite collect_networks_turns. simpl. rewrite Hrest. now rewrite app_assoc.
  - rewrite requests_app, length_app. unfold MAX_RETRIES in Hcount. lia.
Qed.

Lemma collected_in_turns_none (params : value) (networks : list value) (tr : Trace) :
  (forall network history, In network networks ->
     exists error, fst (collect_network upstream params network [] history) = Threw error) ->
  fst (collected_in_turns params networks tr) = [].
Proof.
  revert tr. induction networks as [|network rest IH]; intros tr Hfail; [reflexivity|].
  cbn [OrganizationTools.collected_in_turns].
  destruct (Hfail network tr) as [error Herror]; [now left|].
  destruct (collect_network upstream params network [] tr) as [[tagged|error'] tr'];
    [discriminate|].
  apply IH. intros n history Hin. apply Hfail. now right.
Qed.

(** X26: when the sub-call of every network fails, the composite tool
    does not fail: it returns [{events: [], total: 0, organizationId}], so
    that the caller cannot tell an organization without events from one
    whose networks could not be read. *)
Theorem security_events_all_networks_fail (params organizationId : value)
    (networksResponse : MerakiApiResponse) (networks : list value) (tr tr1 : Trace) :
  get_prop params "organizationId" = Some organizationId ->
  get upstream ("/organizations/" ++ ToString organizationId ++ "/networks") VUndefined tr
    = (Returned networksResponse, tr1) ->
  iterate (result_data networksResponse) = Some networks ->
  (forall network history, In network networks ->
     exists error, fst (collect_network upstream params network [] history) = Threw error) ->
  fst (security_events_executor upstream params tr) =
    Returned (VObj [("events", VArr []); ("total", VNum 0);
                    ("organizationId", organizationId)]).
Proof.
  intros Horg Hnetworks Hiterate Hfail.
  unfold security_events_executor. rewrite Horg. unfold bind.
  rewrite Hnetworks. cbv beta iota. rewrite Hiterate.
  rewrite collect_networks_turns.
  rewrite (collected_in_turns_none params networks tr1 Hfail).
  unfold ret, finish_events. cbn [fst snd app].
  change (Array_sort []) with (@nil value).
  destruct (truthy (get_prop_opt params "perPage")); [|reflexivity].
  destruct (slice0_value_firstn (get_prop_opt params "perPage") []) as [n ->].
  now rewrite firstn_nil.
Qed.

End CompositeBounds.


(** ** The default time window *)

Section TimeWindowPrepared.
Import BaseTool OrganizationTools.
Context `{Host}.

Lemma default_timespan_window (fields : object) :
  exists fields',
    default_timespan (VObj fields) = Returned (VObj fields')
    /\ has_time_window (VObj fields') = true
    /\ (has_time_window (VObj fields) = true -> fields' = fields)
    /\ (has_time_window (VObj fields) = false ->
        fields' = obj_set "timespan" (VNum 86400) fields)
    /\ default_timespan (VObj fields') = Returned (VObj fields').
Proof.
  unfold default_timespan, has_time_window.
  destruct (truthy (get_prop_opt (VObj fields) "timespan")) eqn:Hspan;
    [|destruct (truthy (get_prop_opt (VObj fields) "t0")) eqn:Ht0;
      [|destruct (truthy (get_prop_opt (VObj fields) "t1")) eqn:Ht1]];
    simpl; eexists; (split; [reflexivity|]);
    rewrite ?Hspan, ?Ht0, ?Ht1; simpl; repeat split; try congruence;
    unfold get_prop_opt, get_prop; now rewrite obj_get_set.
Qed.

(** X28: the [transformParams] hook of the organization-wide summary
    tools makes sure a time window is named.  On an object with a truthy
    [timespan], [t0] or [t1] it changes nothing; otherwise it sets
    [timespan] to 86400 seconds, also over a [timespan] of [0] or an empty
    string; and the parameters that [execute] prepares for
    [organization_top_networks_by_status] always name a window. *)
Theorem time_window_always_set (settings : Settings.MerakiMCPSettings)
    (parser : value -> SafeParseReturn) (params : value) :
  (forall fields,
     exists fields',
       default_timespan (VObj fields) = Returned (VObj fields')
       /\ has_time_window (VObj fields') = true
       /\ (has_time_window (VObj fields) = true -> fields' = fields)
       /\ (has_time_window (VObj fields) = false ->
           fields' = obj_set "timespan" (VNum 86400) fields))
  /\ match Spec.prepared settings (organization_top_networks_by_status parser) params with
     | Some (Returned transformed) => has_time_window transformed = true
     | Some (Threw _) => False
     | None => Settings.getDefaultParams settings "organization_top_networks_by_status" = None
     end.
Proof.
  split.
  - intros fields. destruct (default_timespan_window fields) as [fields' Hwindow].
    exists fields'. tauto.
  - unfold Spec.prepared. cbn [name transformParams organization_top_networks_by_status].
    destruct (Settings.getDefaultParams settings _) as [defaults|]; [|reflexivity].
    destruct (default_timespan_window
                (coerceParameterTypes (organization_top_networks_by_status parser)
                   (obj_assign defaults (spread params)))) as [fields' [-> [Hwindow _]]].
    exact Hwindow.
Qed.

End TimeWindowPrepared.

(** ** The request handler *)

Section ToolNames.
Import HttpClient BaseTool Server.

Lemma prefix_cons (a c : ascii) (p s : string) :
  String.prefix (String a p) (String c s) = Ascii.eqb a c && String.prefix p s.
Proof.
  change (String.prefix (String a p) (String c s))
    with (if Ascii.ascii_dec a c then String.prefix p s else false).
  destruct (Ascii.ascii_dec a c) as [->|Hne].
  - now rewrite Ascii.eqb_refl.
  - apply Ascii.eqb_neq in Hne. now rewrite Hne.
Qed.

Lemma prefix_underscore (s : string) :
  String.prefix "_" s =
    match s with
    | String c _ => Ascii.eqb c "_"
    | EmptyString => false
    end.
Proof.
  destruct s as [|c s]; [reflexivity|].
  rewrite prefix_cons, Ascii.eqb_sym. destruct s; apply andb_true_r.
Qed.

Lemma includes_cons (c : ascii) (s : string) :
  includes (String c s) "__" = (Ascii.eqb c "_" && String.prefix "_" s) || includes s "__".
Proof. cbn [includes]. now rewrite prefix_cons, Ascii.eqb_sym. Qed.

Lemma string_app_nil_r (s : string) : (s ++ "")%string = s.
Proof. induction s as [|c s IH]; simpl; [reflexivity|now rewrite IH]. Qed.

Lemma rev_string_twice (s acc acc' : string) :
  rev_string (rev_string s acc) acc' = rev_string acc (s ++ acc')%string.
Proof.
  revert acc acc'. induction s as [|c s IH]; intros acc acc'; simpl; [reflexivity|].
  now rewrite IH.
Qed.

Lemma no_white_rev_string (s acc : string) :
  no_white s = true -> no_white acc = true -> no_white (rev_string s acc) = true.
Proof.
  unfold no_white. revert acc. induction s as [|c s IH]; simpl; intros acc Hs Hacc.
  - assumption.
  - apply andb_true_iff in Hs. destruct Hs as [Hc Hs].
    apply IH; [assumption|]. simpl. now rewrite Hc.
Qed.

Lemma skip_spaces_no_white (s : string) : no_white s = true -> skip_spaces s = s.
Proof.
  unfold no_white. destruct s as [|c s]; simpl; [reflexivity|].
  intros Hs. apply andb_true_iff in Hs. destruct Hs as [Hc _].
  unfold is_white_space in Hc. apply negb_true_iff, orb_false_iff in Hc.
  destruct Hc as [Hc _]. now rewrite Hc.
Qed.

Lemma trim_no_white (s : string) : no_white s = true -> trim s = s.
Proof.
  intros Hs. unfold trim. rewrite (skip_spaces_no_white s Hs).
  rewrite skip_spaces_no_white by now apply no_white_rev_string.
  rewrite rev_string_twice. simpl. apply string_app_nil_r.
Qed.

Lemma remove_white_space_no_white (s : string) : no_white (remove_white_space s) = true.
Proof.
  unfold no_white. induction s as [|c s IH]; simpl; [reflexivity|].
  destruct (is_white_space c) eqn:Hc; simpl; [assumption|]. now rewrite Hc.
Qed.

Lemma remove_white_space_fixed (s : string) :
  no_white s = true -> remove_white_space s = s.
Proof.
  unfold no_white. induction s as [|c s IH]; simpl; [reflexivity|].
  intros Hs. apply andb_true_iff in Hs. destruct Hs as [Hc Hs].
  apply negb_true_iff in Hc. rewrite Hc. now rewrite IH.
Qed.

Lemma collapse_underscores_prefix (s : string) :
  String.prefix "_" (collapse_underscores s) = String.prefix "_" s.
Proof.
  induction s as [|c s IH]; [reflexivity|]. cbn [collapse_underscores].
  destruct (Ascii.eqb c "_" && String.prefix "_" s) eqn:Hrun.
  - apply andb_true_iff in Hrun. destruct Hrun as [Hc Hs].
    rewrite IH, Hs. now rewrite (prefix_underscore (String c s)).
  - now rewrite !prefix_underscore.
Qed.

Lemma collapse_underscores_no_white (s : string) :
  no_white s = true -> no_white (collapse_underscores s) = true.
Proof.
  unfold no_white. induction s as [|c s IH]; [reflexivity|]. cbn [collapse_underscores].
  simpl. intros Hs. apply andb_true_iff in Hs. destruct Hs as [Hc Hs].
  destruct (Ascii.eqb c "_" && String.prefix "_" s); [now apply IH|].
  simpl. now rewrite Hc, IH.
Qed.

Lemma collapse_underscores_single (s : string) :
  includes (collapse_underscores s) "__" = false.
Proof.
  induction s as [|c s IH]; [reflexivity|]. cbn [collapse_underscores].
  destruct (Ascii.eqb c "_" && String.prefix "_" s) eqn:Hrun; [assumption|].
  now rewrite includes_cons, collapse_underscores_prefix, Hrun, IH.
Qed.

Lemma collapse_underscores_fixed (s : string) :
  includes s "__" = false -> collapse_underscores s = s.
Proof.
  induction s as [|c s IH]; [reflexivity|].
  rewrite includes_cons. intros Hnone. apply orb_false_iff in Hnone.
  destruct Hnone as [Hrun Hrest]. cbn [collapse_underscores].
  now rewrite Hrun, IH.
Qed.

Lemma strip_trailing_underscore_prefix (s : string) :
  String.prefix "_" (strip_trailing_underscore s) = true -> String.prefix "_" s = true.
Proof.
  destruct s as [|c s]; [discriminate|]. cbn [strip_trailing_underscore].
  destruct (Ascii.eqb c "_" && (s =? "")); [discriminate|].
  now rewrite !prefix_underscore.
Qed.

Lemma strip_trailing_underscore_single (s : string) :
  includes s "__" = false -> includes (strip_trailing_underscore s) "__" = false.
Proof.
  induction s as [|c s IH]; [reflexivity|].
  rewrite includes_cons. intros Hnone. apply orb_false_iff in Hnone.
  destruct Hnone as [Hrun Hrest]. cbn [strip_trailing_underscore].
  destruct (Ascii.eqb c "_" && (s =? "")); [reflexivity|].
  rewrite includes_cons, (IH Hrest), orb_false_r.
  destruct (Ascii.eqb c "_"); [|reflexivity]. simpl in *.
  destruct (String.prefix "_" (strip_trailing_underscore s)) eqn:Hp; [|reflexivity].
  apply strip_trailing_underscore_prefix in Hp. congruence.
Qed.

Lemma strip_trailing_underscore_no_white (s : string) :
  no_white s = true -> no_white (strip_trailing_underscore s) = true.
Proof.
  unfold no_white. induction s as [|c s IH]; [reflexivity|]. cbn [strip_trailing_underscore].
  simpl. intros Hs. apply andb_true_iff in Hs. destruct Hs as [Hc Hs].
  destruct (Ascii.eqb c "_" && (s =? "")); [reflexivity|].
  simpl. now rewrite Hc, IH.
Qed.

Lemma strip_trailing_underscore_empty (s : string) :
  strip_trailing_underscore s = "" -> s = "" \/ s = "_".
Proof.
  destruct s as [|c s]; [now left|]. cbn [strip_trailing_underscore].
  destruct (Ascii.eqb_spec c "_") as [->|Hne]; simpl; [|discriminate].
  destruct (String.eqb_spec s "") as [->|Hs]; [now right|discriminate].
Qed.

Lemma strip_trailing_underscore_end (s : string) :
  includes s "__" = false -> endsWith (strip_trailing_underscore s) "_" = false.
Proof.
  induction s as [|c s IH]; [reflexivity|].
  rewrite includes_cons. intros Hnone. apply orb_false_iff in Hnone.
  destruct Hnone as [Hrun Hrest]. cbn [strip_trailing_underscore].
  destruct (Ascii.eqb c "_" && (s =? "")) eqn:Hlast; [reflexivity|].
  cbn [endsWith]. rewrite (IH Hrest), orb_false_r.
  destruct (String.eqb_spec (String c (strip_trailing_underscore s)) "_") as [Heq|_];
    [|reflexivity].
  injection Heq as -> Hempty. simpl in *.
  apply strip_trailing_underscore_empty in Hempty. destruct Hempty as [->| ->]; discriminate.
Qed.

Lemma strip_trailing_underscore_fixed (s : string) :
  endsWith s "_" = false -> strip_trailing_underscore s = s.
Proof.
  induction s as [|c s IH]; [reflexivity|]. cbn [endsWith strip_trailing_underscore].
  intros Hend. apply orb_false_iff in Hend. destruct Hend as [Hwhole Hrest].
  destruct (Ascii.eqb_spec c "_") as [->|Hne]; simpl.
  - destruct (String.eqb_spec s "") as [->|Hs]; [discriminate|]. now rewrite IH.
  - now rewrite IH.
Qed.

(** X29: the clean-up that the request handler applies to a tool name
    always yields a tidy name (no white space, no run of underscores, no
    underscore at either end); it is idempotent; and it leaves a tidy name,
    such as the names the tools are registered under, as it is. *)
Theorem clean_name_tidy (requested : string) :
  tidy (clean_name requested) = true
  /\ clean_name (clean_name requested) = clean_name requested
  /\ (tidy requested = true -> clean_name requested = requested).
Proof.
  assert (Hfixed : forall s, tidy s = true -> clean_name s = s).
  { intros s Htidy. unfold tidy in Htidy.
    apply andb_true_iff in Htidy. destruct Htidy as [Htidy Hend].
    apply andb_true_iff in Htidy. destruct Htidy as [Htidy Hstart].
    apply andb_true_iff in Htidy. destruct Htidy as [Hwhite Hrun].
    apply negb_true_iff in Hend, Hstart, Hrun.
    unfold clean_name.
    rewrite (remove_white_space_fixed s Hwhite), (trim_no_white s Hwhite).
    rewrite (collapse_underscores_fixed s Hrun).
    assert (Hlead : strip_leading_underscore s = s).
    { unfold startsWith in Hstart. rewrite prefix_underscore in Hstart.
      destruct s as [|c s]; [reflexivity|]. simpl. now rewrite Hstart. }
    rewrite Hlead. now apply strip_trailing_underscore_fixed. }
  assert (Htidy : tidy (clean_name requested) = true).
  { unfold clean_name.
    set (bare := remove_white_space requested).
    assert (Hbare : no_white bare = true) by apply remove_white_space_no_white.
    rewrite (trim_no_white bare Hbare).
    set (single := collapse_underscores bare).
    assert (Hwhite : no_white single = true) by now apply collapse_underscores_no_white.
    assert (Hrun : includes single "__" = false) by apply collapse_underscores_single.
    set (led := strip_leading_underscore single).
    assert (Hled : no_white led = true /\ includes led "__" = false
                   /\ String.prefix "_" led = false).
    { subst led. destruct single as [|c rest]; [now repeat split|].
      rewrite includes_cons in Hrun. apply orb_false_iff in Hrun.
      destruct Hrun as [Hpair Hrest].
      assert (Hparts : negb (is_white_space c) = true /\ no_white rest = true).
      { unfold no_white in *. cbn [list_ascii_of_string forallb] in Hwhite.
        now apply andb_true_iff in Hwhite. }
      destruct Hparts as [Hc Hwhite'].
      cbn [strip_leading_underscore].
      destruct (Ascii.eqb c "_") eqn:Hunderscore.
      - repeat split; assumption.
      - repeat split.
        + unfold no_white in *. cbn [list_ascii_of_string forallb].
          now rewrite Hc, Hwhite'.
        + now rewrite includes_cons, Hunderscore, Hrest.
        + now rewrite (prefix_underscore (String c rest)). }
    destruct Hled as [Hwhite' [Hrun' Hstart]].
    unfold tidy. fold (no_white (strip_trailing_underscore led)).
    rewrite (strip_trailing_underscore_no_white led Hwhite').
    rewrite (strip_trailing_underscore_single led Hrun').
    rewrite (strip_trailing_underscore_end led Hrun').
    unfold startsWith.
    destruct (String.prefix "_" (strip_trailing_underscore led)) eqn:Hp; [|reflexivity].
    apply strip_trailing_underscore_prefix in Hp. congruence. }
  split; [exact Htidy|]. split; [now apply Hfixed|apply Hfixed].
Qed.

End ToolNames.

Section Rejections.
Import HttpClient BaseTool Server.
Context `{Host} (upstream : Upstream) (settings : Settings.MerakiMCPSettings)
        (registry : Registry) (McpError_message : ErrorCode -> string -> string).

Abbreviation call_tool := (Server.call_tool upstream settings registry McpError_message).

Lemma call_tool_catch_code (toolName : string) (error : JsError) :
  rejection_code (call_tool_catch McpError_message toolName error) = InternalError.
Proof. now destruct error. Qed.

(** X30: the handler of tool calls rejects with [MethodNotFound] only a
    name that is not registered, and then nothing has been sent; every
    failure of a registered tool is rejected with [InternalError].  In
    particular the code that [execute] has given its [McpError]
    ([InvalidParams] for a validation failure or a 400, [MethodNotFound]
    for a 404, ...) does not reach the client: the handler's [catch] wraps
    the error's message in a new [McpError] with code [InternalError] and
    no data. *)
Theorem call_tool_rejection_codes (requested : string) (args : value) (tr : Trace) :
  match fst (call_tool requested args tr) with
  | inl rejection =>
      if existsb (String.eqb (clean_name requested)) (registered_names registry)
      then rejection_code rejection = InternalError
      else rejection_code rejection = MethodNotFound
           /\ snd (call_tool requested args tr) = tr
  | inr _ =>
      existsb (String.eqb (clean_name requested)) (registered_names registry) = true
  end
  /\ (forall word configs config code message data tr',
        existsb (String.eqb (clean_name requested)) (registered_names registry) = true ->
        handler_of registry (toolCategory (clean_name requested)) = Some (word, configs) ->
        find (fun config => name config =? clean_name requested) (rev configs)
          = Some config ->
        execute upstream settings config (if truthy args then args else VObj []) tr
          = (Threw (McpError code message data), tr') ->
        call_tool requested args tr =
          (inl {| rejection_code := InternalError;
                  rejection_message :=
                    "Failed to execute tool " ++ double_quote ++ clean_name requested
                    ++ double_quote ++ ": " ++ McpError_message code message;
                  rejection_data := None |}, tr')).
Proof.
  split.
  - unfold Server.call_tool.
    destruct (existsb _ _); simpl; [|split; reflexivity].
    destruct (handler_of registry _) as [[word configs]|]; simpl; [|reflexivity].
    destruct (module_execute _ _ _ _ _ _ tr) as [[result|error] tr'] eqn:Hrun;
      simpl; [reflexivity|apply call_tool_catch_code].
  - intros word configs config code message data tr' Hregistered Hhandler Hfind Hthrows.
    unfold Server.call_tool. rewrite Hregistered, Hhandler. simpl.
    unfold module_execute. rewrite Hfind, Hthrows. reflexivity.
Qed.

End Rejections.


(** ** Examples of the further properties *)

Section FurtherExamples.
Import Settings HttpClient BaseTool OrganizationTools SampleHost.

Lemma optimizeResponse_within_limits_witness :
  within_limits 2 (5 + 15) (optimizeResponse terse verbose_payload) = true
  /\ within_limits 2 (5 + 15) verbose_payload = false.
Proof.
  split; [|reflexivity].
  apply (optimizeResponse_within_limits terse 2 5 verbose_payload);
    [reflexivity | lia | reflexivity | reflexivity | lia].
Defined.

Lemma optimizeResponse_no_null_fields_witness :
  no_null_fields (optimizeResponse terse verbose_payload) = true
  /\ no_null_fields verbose_payload = false.
Proof.
  split; [|reflexivity].
  apply (optimizeResponse_no_null_fields terse verbose_payload). reflexivity.
Defined.

Lemma createSummaryResponse_long_witness :
  exists summary,
    createSummaryResponse sparse_items (Some ["id"]) =
      Some (VObj [("totalCount", VNum 51);
                  ("firstItems", VArr (repeat (VObj [("id", VNull)]) 5));
                  ("summary", VObj summary)])
    /\ Forall (fun entry =>
                 facet_of (repeat (VObj [("id", VNull)]) 51) (fst entry) (snd entry))
              summary.
Proof.
  destruct (createSummaryResponse_long (repeat (VObj [("id", VNull)]) 51) (Some ["id"])
              (VObj [("totalCount", VNum 51);
                     ("firstItems", VArr (repeat (VObj [("id", VNull)]) 5));
                     ("summary",
                      VObj [("id", VObj [("uniqueCount", VNum 1);
                                         ("samples", VArr [VNull])])])]))
    as [summary [Hresult [_ Hfacets]]]; [reflexivity | reflexivity |].
  exists summary. split.
  - injection Hresult as <-. reflexivity.
  - eapply Forall_impl; [|exact Hfacets]. intros entry [_ Hfacet]. exact Hfacet.
Defined.

Lemma createSummaryResponse_null_item_witness :
  createSummaryResponse (VArr holed_items) (Some ["mac"; "ip"]) = None
  /\ formatToolResponse_payload (VArr holed_items) "network_clients_list" = None.
Proof.
  destruct (createSummaryResponse_null_item holed_items VNull "mac" ["ip"]
              "network_clients_list") as [Hsummary Hformat];
    [reflexivity | right; now left | reflexivity | reflexivity |].
  split; [exact Hsummary|]. apply Hformat. discriminate.
Defined.

Lemma formatToolResponse_medium_array_witness :
  formatToolResponse_payload (VArr medium_items) "network_clients_list"
    = Some (VArr medium_items)
  /\ optimizeResponse BASIC_OPTIONS (VArr medium_items) = VArr (repeat (VObj []) 31).
Proof.
  split; [|reflexivity].
  apply (formatToolResponse_medium_array medium_items "network_clients_list").
  unfold medium_items, arrlen. simpl. lia.
Defined.


Lemma transport_failure_is_terminal_witness :
  executeRequest timing_out events_request 0 [] =
    (Threw (MerakiAPIError "Request timeout" 0 (DetailValue VNull)), [Sent events_request]).
Proof.
  apply (transport_failure_is_terminal timing_out events_request 0
           "AxiosError" (Some "ECONNABORTED") "timeout of 30000ms exceeded" []).
  reflexivity.
Defined.

Lemma getRetryAfter_seconds_witness : getRetryAfter rate_limited = Finite 2000.
Proof.
  apply (proj2 (getRetryAfter_seconds rate_limited 2 eq_refl)).
  unfold MAX_EXACT. simpl. lia.
Defined.

Lemma malformed_error_body_hides_status_witness :
  exists details,
    executeRequest (always malformed) events_request 0 [] =
      (Threw (MerakiAPIError "Unknown error occurred" 0 details), [Sent events_request]).
Proof.
  apply (malformed_error_body_hides_status (always malformed) events_request 0 malformed
           "Invalid network" []);
    [reflexivity | simpl; lia | discriminate | reflexivity | discriminate].
Defined.

Lemma missing_required_precedes_dispatch_witness :
  execute (always unavailable) DEFAULT_SETTINGS device_lookup (VObj []) [] =
    (Threw (McpError InvalidParams
              "Validation error for field 'serial': This field is required"
              (DataField "serial" VUndefined)),
     []).
Proof.
  apply (missing_required_precedes_dispatch (always unavailable) DEFAULT_SETTINGS
           device_lookup (VObj []) (VObj []) (VObj []) ["serial"] "serial" []);
    reflexivity.
Defined.


Lemma execute_success_witness :
  execute (always {| status := 200; data := client_body; headers := [] |})
    DEFAULT_SETTINGS network_client_get client_params [] =
    (Returned client_body, [Sent client_request]).
Proof.
  apply (execute_success (always {| status := 200; data := client_body; headers := [] |})
           DEFAULT_SETTINGS network_client_get
           client_params client_params client_params client_body client_body
           "/networks/N_1/clients/k74272e" []
           [("networkId", VStr "N_1"); ("clientId", VStr "k74272e")]
           client_request {| status := 200; data := client_body; headers := [] |} []);
    try reflexivity; [discriminate | simpl; lia].
Defined.

Lemma shouldAutoApprove_decision_witness :
  shouldAutoApprove organization_lists_only "organization_networks_list" = Some true
  /\ shouldAutoApprove organization_lists_only "organization_admins_list" = Some false
  /\ shouldAutoApprove organization_lists_only "network_clients_list" = Some false.
Proof.
  split; [|split].
  - apply (shouldAutoApprove_decision organization_lists_only organization_lists_policy
             (fun _ => true) "organization_networks_list"); [reflexivity|].
    intros pats pattern Hpats Hin. injection Hpats as <-.
    destruct Hin as [<-|[]]. reflexivity.
  - apply (shouldAutoApprove_decision organization_lists_only organization_lists_policy
             (fun _ => true) "organization_admins_list"); [reflexivity|].
    intros pats pattern Hpats Hin. injection Hpats as <-.
    destruct Hin as [<-|[]]. reflexivity.
  - apply (shouldAutoApprove_decision organization_lists_only organization_lists_policy
             (fun _ => false) "network_clients_list"); [reflexivity|].
    intros pats pattern Hpats Hin. injection Hpats as <-.
    destruct Hin as [<-|[]]. reflexivity.
Defined.

Lemma broken_default_pattern_fails_every_call_witness :
  getDefaultParams broken_defaults "network_client_get" = None
  /\ exists message,
       execute (always unavailable) broken_defaults network_client_get client_params [] =
         (Threw (McpError InternalError message (DataOriginal "SyntaxError")), []).
Proof.
  apply (broken_default_pattern_fails_every_call (always unavailable) broken_defaults
           network_client_get
           [("*_list", VObj [("perPage", VNum 25)]);
            ("network_(", VObj [("perPage", VNum 10)])]
           "network_(" (VObj [("perPage", VNum 10)]) client_params []);
    [reflexivity | right; now left | reflexivity].
Defined.

Lemma deepMerge_lookup_witness :
  exists merged,
    deepMerge (VObj default_limits) (VObj user_limits) = VObj merged
    /\ obj_get "responseLimits" merged =
         Some (VObj [("maxArrayLength", VNum 10); ("summarizeArrays", VBool true)])
    /\ obj_get "defaultParams" merged =
         Some (VObj [("*_list", VObj [("perPage", VNum 25)])]).
Proof.
  destruct (deepMerge_lookup default_limits user_limits "responseLimits")
    as [merged [Hmerged [Hlookup _]]]; [repeat constructor; intros []|].
  exists merged. split; [exact Hmerged|]. split; [exact Hlookup|].
  injection Hmerged as <-. reflexivity.
Defined.

Lemma coerceParameterTypes_pointwise_witness :
  coerceParameterTypes (organization_security_events five_networks_upstream organization_parser)
    [("organizationId", VStr "org_1"); ("perPage", VNum 10);
     ("securityEventTypes",
      VStr ("ids_alerted, malware_blocked," ++ no_break_space ++ "amp_blocked"))] =
    [("organizationId", VStr "org_1"); ("perPage", VNum 10);
     ("securityEventTypes",
      VArr [VStr "ids_alerted"; VStr "malware_blocked"; VStr "amp_blocked"])].
Proof.
  apply (coerceParameterTypes_pointwise
           (organization_security_events five_networks_upstream organization_parser)
           [("organizationId", VStr "org_1"); ("perPage", VNum 10);
            ("securityEventTypes",
             VStr ("ids_alerted, malware_blocked," ++ no_break_space ++ "amp_blocked"))]).
  repeat constructor; simpl; intuition discriminate.
Defined.


Lemma applyResponseOptimization_list_limit_witness :
  exists meta,
    applyResponseOptimization two_per_list organization_list (VArr [VNum 1; VNum 2; VNum 3]) =
      Returned (VObj [("data", VArr [VNum 1; VNum 2]); ("meta", VObj meta)])
    /\ obj_get "total" meta = Some (VNum 3)
    /\ obj_get "returned" meta = Some (VNum 2).
Proof.
  destruct (applyResponseOptimization_list_limit two_per_list organization_list
              [VNum 1; VNum 2; VNum 3] "[1,2,3]" "organization_list")
    as [meta [limited [Hlimited [-> [_ [Htotal [Hreturned _]]]]]]];
    [reflexivity | unfold arrlen; simpl; lia | reflexivity |].
  exists meta. repeat split; assumption.
Defined.

Lemma applyResponseOptimization_idempotent_witness :
  applyResponseOptimization two_per_list organization_list (VArr [VNum 1; VNum 2; VNum 3]) =
    Returned (VObj [("data", VArr [VNum 1; VNum 2]);
                    ("meta", VObj [("total", VNum 3); ("returned", VNum 2);
                                   ("truncated", VBool true);
                                   ("hint", VStr "Use perPage parameter to control response size. Max recommended: 2")])])
  /\ applyResponseOptimization two_per_list organization_list
       (VObj [("data", VArr [VNum 1; VNum 2]);
              ("meta", VObj [("total", VNum 3); ("returned", VNum 2);
                             ("truncated", VBool true);
                             ("hint", VStr "Use perPage parameter to control response size. Max recommended: 2")])]) =
     Returned (VObj [("data", VArr [VNum 1; VNum 2]);
                     ("meta", VObj [("total", VNum 3); ("returned", VNum 2);
                                    ("truncated", VBool true);
                                    ("hint", VStr "Use perPage parameter to control response size. Max recommended: 2")])]).
Proof.
  split; [reflexivity|].
  apply (applyResponseOptimization_idempotent two_per_list organization_list
           (VArr [VNum 1; VNum 2; VNum 3])); [reflexivity|discriminate].
Defined.

Lemma security_events_all_networks_fail_witness :
  fst (security_events_executor no_appliance_upstream org_1_params []) =
    Returned (VObj [("events", VArr []); ("total", VNum 0);
                    ("organizationId", VStr "org_1")]).
Proof.
  apply (security_events_all_networks_fail no_appliance_upstream org_1_params
           (VStr "org_1")
           {| result_data := VArr [network "N_1" "Lab"; network "N_2" "HQ"];
              result_headers := [] |}
           [network "N_1" "Lab"; network "N_2" "HQ"] [] [Sent networks_request]);
    [reflexivity | reflexivity | reflexivity |].
  intros network_ history [<-|[<-|[]]]; eexists; reflexivity.
Defined.

Lemma security_events_request_bound_witness :
  exists added,
    snd (security_events_executor five_networks_upstream org_1_params []) = added
    /\ (1 <= List.length (requests added) <= 24)%nat
    /\ List.length (requests added) = 6%nat.
Proof.
  destruct (security_events_request_bound five_networks_upstream org_1_params
              {| result_data := VArr five_networks; result_headers := [] |}
              (VStr "org_1") five_networks [] [Sent networks_request])
    as [added [Htrace Hcount]]; [reflexivity | reflexivity | reflexivity |].
  exists added. split; [exact Htrace|]. split; [exact Hcount|].
  simpl in Htrace. rewrite <- Htrace. reflexivity.
Defined.

Lemma call_tool_rejection_codes_witness :
  Server.call_tool (always unavailable) DEFAULT_SETTINGS sample_registry sdk_message
    " device__lookup_ " (VObj []) [] =
    (inl {| Server.rejection_code := InternalError;
            Server.rejection_message :=
              "Failed to execute tool " ++ Server.double_quote ++ "device_lookup"
              ++ Server.double_quote
              ++ ": MCP error -32602: Validation error for field 'serial': This field is required";
            Server.rejection_data := None |},
     [])
  /\ Server.clean_name " device__lookup_ " = "device_lookup".
Proof.
  split; [|reflexivity].
  apply (proj2 (call_tool_rejection_codes (always unavailable) DEFAULT_SETTINGS
                  sample_registry sdk_message " device__lookup_ " (VObj []) [])
           "device" [device_lookup] device_lookup InvalidParams
           "Validation error for field 'serial': This field is required"
           (DataField "serial" VUndefined) []);
    reflexivity.
Defined.

End FurtherExamples.
